(** * Codr phased code generation: a shallow embedding

    Embedded sources:
    - [src/lib/llm.ts]                 (model picker, LLM caller, UI helper)
    - [src/services/build.ts]          (simulated build service)
    - [src/services/sandbox.ts]        (sandbox service)
    - [src/core/code-generator.ts]     (phase orchestrator, response parser)
    - [src/core/template-customizer.ts](template customizer)
    - [src/core/template-selector.ts]  (template matcher)
    - [src/do/AgentStateDO.ts]         (session object)

    Conventions.
    - JavaScript strings are [string].  [toLowerCase] acts on the ASCII
      letters and [String.length] counts characters of one byte: on a
      text written in ASCII ([ascii_text]) both are those of the runtime.
      A statement that could depend on what they do to other characters
      either carries that hypothesis or is made about the lower-cased
      text itself, whatever it is.
    - JavaScript numbers are exact rationals extended with [NaN]
      ([JSNum]); [0/0] is [NaN] and [NaN] is absorbing, as in IEEE
      arithmetic.  Rounding is not modelled: a statement about the order
      of scores is made for every list of scores, not only for the ones
      the exact arithmetic gives.
    - A function that may throw returns a [Result]; asynchronous code that
      talks to the outside world runs in the monad [M], which threads the
      trace of external calls and keeps it when an exception passes.
    - Built-ins of the runtime ([JSON.parse], [JSON.stringify],
      [Number.prototype.toFixed], regular expressions) and the remote collaborators (LLM
      gateway, progress store, artifact store, file system) are the fields
      of the records [World] and [FileSystem]: every theorem holds
      whatever they answer. *)

From Stdlib Require Import String Ascii List Bool Arith ZArith QArith Lia.
From Stdlib Require Import Sorted Permutation DecimalString.
Import ListNotations.

Set Warnings "-register-all".

Local Open Scope string_scope.
Local Open Scope list_scope.

(* ===================================================================== *)
(** ** The JavaScript runtime notions the sources rely on                *)
(* ===================================================================== *)

Module JS.

(** The double quote character, spliced into string constants. *)
Definition dq : string := String "034"%char EmptyString.

(** [String.prototype.toLowerCase] on one ASCII character. *)
Definition lower_char (c : ascii) : ascii :=
  let n := nat_of_ascii c in
  if (65 <=? n)%nat && (n <=? 90)%nat then ascii_of_nat (n + 32) else c.

(** [s.toLowerCase()] *)
Fixpoint toLowerCase (s : string) : string :=
  match s with
  | EmptyString => EmptyString
  | String c s' => String (lower_char c) (toLowerCase s')
  end.

(** A text written in ASCII. *)
Fixpoint ascii_text (s : string) : bool :=
  match s with
  | EmptyString => true
  | String c s' => (nat_of_ascii c <? 128)%nat && ascii_text s'
  end.

(** [s.includes(sub)]: [sub] occurs in [s] as a contiguous substring. *)
Fixpoint includes (s sub : string) : bool :=
  String.prefix sub s ||
  match s with
  | EmptyString => false
  | String _ s' => includes s' sub
  end.

(** [s.endsWith(suf)] *)
Definition endsWith (s suf : string) : bool :=
  (String.length suf <=? String.length s)%nat &&
  String.eqb (String.substring (String.length s - String.length suf)
                               (String.length suf) s) suf.

(** [l.join(sep)] on an array of strings. *)
Definition join (sep : string) (l : list string) : string :=
  String.concat sep l.

(** [l.includes(x)] on an array of strings. *)
Definition arr_includes (l : list string) (x : string) : bool :=
  existsb (String.eqb x) l.

(** What a possibly throwing computation gives. *)
Inductive Exn : Type :=
| TypeError (msg : string)
| SyntaxError
| Error (msg : string).

Inductive Result (A : Type) : Type :=
| Ok (a : A)
| Throw (e : Exn).
Arguments Ok {A} a.
Arguments Throw {A} e.

Definition rbind {A B} (r : Result A) (k : A -> Result B) : Result B :=
  match r with Ok a => k a | Throw e => Throw e end.

(** [l.map(f)] when [f] may throw: the first exception leaves the loop. *)
Fixpoint rmap {A B} (f : A -> Result B) (l : list A) : Result (list B) :=
  match l with
  | [] => Ok []
  | x :: l' =>
      rbind (f x) (fun y => rbind (rmap f l') (fun ys => Ok (y :: ys)))
  end.

(** [l.filter(f)] when [f] may throw. *)
Fixpoint rfilter {A} (f : A -> Result bool) (l : list A) : Result (list A) :=
  match l with
  | [] => Ok []
  | x :: l' =>
      rbind (f x) (fun b =>
      rbind (rfilter f l') (fun ys => Ok (if b then x :: ys else ys)))
  end.

(** Numbers: exact rationals and [NaN]. *)
Inductive JSNum : Type :=
| NaN
| Num (q : Q).

Definition num_add (a b : JSNum) : JSNum :=
  match a, b with
  | Num x, Num y => Num (x + y)
  | _, _ => NaN
  end.

Definition num_mul (a b : JSNum) : JSNum :=
  match a, b with
  | Num x, Num y => Num (x * y)
  | _, _ => NaN
  end.

(** [a / b] for a numerator that is never negative here: [0/0] is [NaN];
    the sources never divide a positive number by zero (the numerators are
    counts bounded by the denominators), so infinities do not arise. *)
Definition num_div (a b : JSNum) : JSNum :=
  match a, b with
  | Num x, Num y => if Qeq_bool y 0 then NaN else Num (x / y)
  | _, _ => NaN
  end.

(** [Math.min(a, b)]: [NaN] if either argument is. *)
Definition Math_min (a b : JSNum) : JSNum :=
  match a, b with
  | Num x, Num y => Num (if Qle_bool x y then x else y)
  | _, _ => NaN
  end.

(** [a >= b]: false as soon as one side is [NaN]. *)
Definition num_ge (a b : JSNum) : bool :=
  match a, b with
  | Num x, Num y => Qle_bool y x
  | _, _ => false
  end.

(** [a < b] *)
Definition num_lt (a b : JSNum) : bool :=
  match a, b with
  | Num x, Num y => negb (Qle_bool y x)
  | _, _ => false
  end.

Definition of_nat (n : nat) : JSNum := Num (inject_Z (Z.of_nat n)).

(** The number lies in the closed interval from 0 to 1. *)
Definition in_unit_interval (a : JSNum) : Prop :=
  match a with
  | Num x => 0 <= x /\ x <= 1
  | NaN => False
  end.

(** JSON values, as [JSON.parse] produces them.  An object is the list of
    its own properties in insertion order. *)
Inductive JSON : Type :=
| JNull
| JBool (b : bool)
| JNum (n : JSNum)
| JStr (s : string)
| JArr (items : list JSON)
| JObj (fields : list (string * JSON)).

(** Truthiness ([ToBoolean]). *)
Definition truthy (v : JSON) : bool :=
  match v with
  | JNull => false
  | JBool b => b
  | JNum NaN => false
  | JNum (Num q) => negb (Qeq_bool q 0)
  | JStr s => negb (String.eqb s EmptyString)
  | JArr _ => true
  | JObj _ => true
  end.

Fixpoint assoc {A} (k : string) (l : list (string * A)) : option A :=
  match l with
  | [] => None
  | (k', v) :: l' => if String.eqb k k' then Some v else assoc k l'
  end.

(** [v.k] for a property name [k] that no prototype defines (the sources
    read [path], [content] and [files]).  Reading a property of [null]
    throws; a primitive or an array has no such property; [None] is
    [undefined]. *)
Definition get_prop (v : JSON) (k : string) : Result (option JSON) :=
  match v with
  | JNull => Throw (TypeError "Cannot read properties of null")
  | JObj fields => Ok (assoc k fields)
  | _ => Ok None
  end.

(** [a || b] when [a] may be [undefined]. *)
Definition or_else (a : option JSON) (b : JSON) : JSON :=
  match a with
  | Some v => if truthy v then v else b
  | None => b
  end.

(** The names [Object.prototype] defines: a lookup [table[k]] on an object
    literal finds them when [k] is not an own property. *)
Definition object_prototype_keys : list string :=
  [ "constructor"; "__proto__"; "hasOwnProperty"; "isPrototypeOf";
    "propertyIsEnumerable"; "toLocaleString"; "toString"; "valueOf";
    "__defineGetter__"; "__defineSetter__";
    "__lookupGetter__"; "__lookupSetter__" ].

End JS.
Import JS.

(* ===================================================================== *)
(** ** src/lib/llm.ts : the model picker                                 *)
(* ===================================================================== *)

Module LLM.

Inductive Provider : Type :=
| anthropic | openai | google | openrouter | replicate | googleai.

Record Fallback : Type := mkFallback {
  fb_provider : Provider;
  fb_model : string;
  fb_reason : string
}.

Record LLMChoice : Type := mkChoice {
  provider : Provider;
  model : string;
  reason : string;
  fallback : option Fallback
}.

Definition ui_choice : LLMChoice :=
  mkChoice googleai "gemini-2.0-pro-exp" "front-end code generation" None.

Definition budget_fallback : Fallback :=
  mkFallback openai "gpt-5-mini" "budget alternative".

Definition copy_choice : LLMChoice :=
  mkChoice anthropic "claude-3.7-sonnet" "long-form & nuance"
           (Some budget_fallback).

Definition vision_choice : LLMChoice :=
  mkChoice google "gemini-2.5-pro" "multimodal strength" None.

Definition analysis_choice : LLMChoice :=
  mkChoice openai "gpt-5" "reasoning & structured outputs" None.

Definition default_choice : LLMChoice :=
  mkChoice anthropic "claude-3.7-sonnet" "balanced generalist"
           (Some budget_fallback).

(** The four keyword tests of [pickLLMForJTBD], on the lower-cased text. *)
Definition ui_rule (s : string) : bool :=
  includes s "ui" || includes s "interface" || includes s "dashboard".

Definition copy_rule (s : string) : bool :=
  includes s "copy" || includes s "email" || includes s "summary".

Definition vision_rule (s : string) : bool :=
  includes s "vision" || includes s "image" || includes s "audio"
  || includes s "transcribe".

Definition analysis_rule (s : string) : bool :=
  includes s "analysis" || includes s "report" || includes s "data".

(** The body of [pickLLMForJTBD] below its first statement: the rules,
    tried in the order of the source on the lower-cased text [s]. *)
Definition pick_by_rules (s : string) : LLMChoice :=
  if ui_rule s then ui_choice
  else if copy_rule s then copy_choice
  else if vision_rule s then vision_choice
  else if analysis_rule s then analysis_choice
  else default_choice.

(** [pickLLMForJTBD(jtbd)].  The guard that replaces a falsy [jtbd] by the
    empty string is the identity on strings (the only falsy string is the
    empty one). *)
Definition pickLLMForJTBD (jtbd : string) : LLMChoice :=
  let s := toLowerCase jtbd in
  pick_by_rules s.

End LLM.

(* ===================================================================== *)
(** ** Data exchanged by the core                                        *)
(* ===================================================================== *)

Module Types.

Inductive Framework : Type := react | vite.

Definition framework_name (f : Framework) : string :=
  match f with react => "react" | vite => "vite" end.

Record VisualStyle : Type := mkStyle {
  theme : string;
  color : string;
  font : string;
  vibe : string;
  motion : string;
  favorite_app : option string;
  screenshots : option (list string)
}.

(** [CodeGenerationRequest] of code-generator.ts. *)
Record CodeGenerationRequest : Type := mkRequest {
  name : string;
  jtbds : string;
  input_sources : list string;
  outputs : list string;
  api_keys_required : list string;
  visual_style : VisualStyle;
  frontend_framework : Framework;
  llm_models : option (list (string * string))
}.

(** [GeneratedFile].  The interface declares two strings, but the parser
    stores whatever the LLM's JSON holds, so [path] and [content] are JSON
    values, [None] standing for a property that is absent. *)
Record GeneratedFile : Type := mkFile {
  path : option JSON;
  content : option JSON;
  phase : string
}.

Record Asset : Type := mkAsset {
  asset_path : string;
  asset_content : string;
  asset_type : string
}.

(** [BuildResult] of build.ts. *)
Record BuildResult : Type := mkBuildResult {
  success : bool;
  buildId : string;
  assets : option (list Asset);
  errors : option (list string);
  warnings : option (list string)
}.

Record GenerationResult : Type := mkResult {
  files : list GeneratedFile;
  preview_url : option string;
  deployment_id : option string;
  build_result : option BuildResult
}.

(** The body of a POST to the progress store. *)
Record ProgressUpdate : Type := mkProgress {
  pu_phase : string;
  pu_progress : JSNum;
  pu_status : string;
  pu_result : option GenerationResult
}.

End Types.
Import Types.

(* ===================================================================== *)
(** ** The environment: runtime built-ins and remote collaborators       *)
(* ===================================================================== *)

Module Env.
Import LLM.

(** Everything the core calls but does not implement.  A remote call
    settles: it either resolves or rejects.  Its answer is a function of
    what is sent; within one run no two calls of the core carry the same
    arguments (every progress update names its phase, every phase has its
    own prompt, every asset its own key), so nothing is lost with respect
    to a collaborator that keeps state. *)
Record World : Type := mkWorld {
  (** [JSON.parse(text)]; [None] is the [SyntaxError]. *)
  JSON_parse : string -> option JSON;
  (** [JSON.stringify(value, null, indent)] *)
  JSON_stringify : JSON -> nat -> string;
  (** string conversion of a value that is not a string *)
  ToString : JSON -> string;
  (** [x.toFixed(digits)] *)
  Number_toFixed : JSNum -> nat -> string;
  (** [s.replace(new RegExp(source, "g"), replacement)] *)
  replace_regex : string -> string -> string -> string;
  (** [s.replace(new RegExp(source, "g"), (match, group) => f group)] *)
  replace_regex_with : string -> (string -> string) -> string -> string;
  (** [callLLM(env, prompt, choice)] of llm.ts: the text of the answer,
      or the exception of a missing credential or a failed request. *)
  callLLM : string -> LLMChoice -> Result string;
  (** The request of [generateUIWithGoogle(env, model, prompt)] up to the
      text of the first candidate. *)
  fetchGoogleUI : string -> string -> Result string;
  (** [agentStub.fetch("https://do/progress", {method: "POST", body})] *)
  progress_fetch : ProgressUpdate -> Result unit;
  (** [env.AGENT_ASSETS], an optional binding of [EnvReq]; its
      [put(key, content, contentType)]. *)
  AGENT_ASSETS : option (string -> string -> string -> Result unit);
  (** the identifier [buildApp] draws from the clock and [Math.random] *)
  fresh_build_id : string;
  (** [new Date().toISOString()] *)
  now_iso : string
}.

(** What the outside world saw, in order. *)
Inductive Event : Type :=
| EvProgress (u : ProgressUpdate) (r : Result unit)
| EvLLM (prompt : string) (c : LLMChoice) (r : Result string)
| EvUI (model prompt : string) (r : Result string)
| EvPut (key body ctype : string) (r : Result unit).

(** An asynchronous computation: its outcome and the calls it made.  The
    calls made before an exception stay on the trace. *)
Definition M (A : Type) : Type := (Result A * list Event)%type.

Definition ret {A} (a : A) : M A := (Ok a, []).

Definition throw {A} (e : Exn) : M A := (Throw e, []).

Definition bind {A B} (m : M A) (k : A -> M B) : M B :=
  match m with
  | (Ok a, t) => let (r, t') := k a in (r, t ++ t')
  | (Throw e, t) => (Throw e, t)
  end.

(** [try { m } catch (e) { h e }] *)
Definition try_catch {A} (m : M A) (h : Exn -> M A) : M A :=
  match m with
  | (Ok a, t) => (Ok a, t)
  | (Throw e, t) => let (r, t') := h e in (r, t ++ t')
  end.

(** A synchronous computation inside an asynchronous one. *)
Definition lift {A} (r : Result A) : M A := (r, []).

(** An external call, recorded with its outcome. *)
Definition call {A} (r : Result A) (ev : Result A -> Event) : M A :=
  (r, [ev r]).

Notation "x <- m ;; k" := (bind m (fun x => k))
  (at level 61, m at next level, right associativity).

(** [for (const x of l) { st = body st x }] *)
Fixpoint for_of {S A} (body : S -> A -> M S) (l : list A) (st : S) : M S :=
  match l with
  | [] => ret st
  | x :: l' => st' <- body st x ;; for_of body l' st'
  end.

(** [for (const x of l) { await body x }] *)
Fixpoint for_each {A} (body : A -> M unit) (l : list A) : M unit :=
  match l with
  | [] => ret tt
  | x :: l' => _ <- body x ;; for_each body l'
  end.

Definition outcome {A} (m : M A) : Result A := fst m.
Definition trace {A} (m : M A) : list Event := snd m.

(** The progress updates sent, whether or not the store accepted them. *)
Fixpoint posted (t : list Event) : list ProgressUpdate :=
  match t with
  | [] => []
  | EvProgress u _ :: t' => u :: posted t'
  | _ :: t' => posted t'
  end.

Definition post_progress (w : World) (u : ProgressUpdate) : M unit :=
  call (progress_fetch w u) (EvProgress u).

Definition call_llm (w : World) (prompt : string) (c : LLMChoice) : M string :=
  call (callLLM w prompt c) (EvLLM prompt c).

(** [generateUIWithGoogle(env, model, prompt)] of llm.ts: the request may
    throw; a text that is not JSON gives the empty file list; any JSON
    value is returned as it is. *)
Definition generateUIWithGoogle (w : World) (model prompt : string) : M JSON :=
  text <- call (fetchGoogleUI w model prompt) (EvUI model prompt) ;;
  match JSON_parse w text with
  | Some v => ret v
  | None => ret (JObj [("files", JArr [])])
  end.

End Env.
Import Env.

(* ===================================================================== *)
(** ** src/services/build.ts : the simulated build service               *)
(* ===================================================================== *)

Module Build.

(** Concatenation of the pieces of a template literal. *)
Definition strcat (pieces : list string) : string := String.concat EmptyString pieces.

(** A double-quoted word, as it appears inside a source text. *)
Definition quoted (s : string) : string := strcat [dq; s; dq].

Record BuildRequest : Type := mkBuildRequest {
  appId : string;
  br_files : list (option JSON * option JSON);
  br_framework : Framework;
  dependencies : list (string * JSON)
}.

Definition baseDeps : list (string * JSON) :=
  [("react", JStr "^18.2.0"); ("react-dom", JStr "^18.2.0")].

Definition devDeps : list (string * JSON) :=
  [("@types/react", JStr "^18.2.0"); ("@types/react-dom", JStr "^18.2.0");
   ("@vitejs/plugin-react", JStr "^4.0.0"); ("typescript", JStr "^5.0.0");
   ("vite", JStr "^4.0.0")].

Definition generatePackageJson (request : BuildRequest) : JSON :=
  match br_framework request with
  | vite =>
      JObj [("name", JStr (strcat ["app-"; appId request]));
            ("version", JStr "1.0.0");
            ("type", JStr "module");
            ("scripts", JObj [("dev", JStr "vite");
                              ("build", JStr "vite build");
                              ("preview", JStr "vite preview")]);
            ("dependencies", JObj (baseDeps ++ dependencies request));
            ("devDependencies", JObj devDeps)]
  | react =>
      JObj [("name", JStr (strcat ["app-"; appId request]));
            ("version", JStr "1.0.0");
            ("scripts", JObj [("start", JStr "react-scripts start");
                              ("build", JStr "react-scripts build");
                              ("test", JStr "react-scripts test");
                              ("eject", JStr "react-scripts eject")]);
            ("dependencies",
             JObj (baseDeps ++ [("react-scripts", JStr "5.0.2")]
                   ++ dependencies request));
            ("devDependencies", JObj devDeps);
            ("browserslist",
             JObj [("production",
                    JArr [JStr ">0.2%"; JStr "not dead";
                          JStr "not op_mini all"]);
                   ("development",
                    JArr [JStr "last 1 chrome version";
                          JStr "last 1 firefox version";
                          JStr "last 1 safari version"])])]
  end.

Definition vite_config_ts : string :=
"import { defineConfig } from 'vite';
import react from '@vitejs/plugin-react';

export default defineConfig({
  plugins: [react()],
  build: {
    outDir: 'dist',
    sourcemap: false,
    minify: 'terser'
  }
});".

Definition index_html : string := strcat [
"<!doctype html>
<html lang="; quoted "en"; ">
  <head>
    <meta charset="; quoted "UTF-8"; " />
    <meta name="; quoted "viewport"; " content=";
    quoted "width=device-width, initial-scale=1.0"; " />
    <title>Generated App</title>
  </head>
  <body>
    <div id="; quoted "root"; "></div>
    <script type="; quoted "module"; " src="; quoted "/src/main.tsx";
"></script>
  </body>
</html>"].

Definition tsconfig : JSON :=
  JObj [("compilerOptions",
         JObj [("target", JStr "ES2020");
               ("useDefineForClassFields", JBool true);
               ("lib", JArr [JStr "ES2020"; JStr "DOM"; JStr "DOM.Iterable"]);
               ("module", JStr "ESNext");
               ("skipLibCheck", JBool true);
               ("moduleResolution", JStr "bundler");
               ("allowImportingTsExtensions", JBool true);
               ("resolveJsonModule", JBool true);
               ("isolatedModules", JBool true);
               ("noEmit", JBool true);
               ("jsx", JStr "react-jsx");
               ("strict", JBool true);
               ("noUnusedLocals", JBool true);
               ("noUnusedParameters", JBool true);
               ("noFallthroughCasesInSwitch", JBool true)]);
        ("include", JArr [JStr "src"]);
        ("references", JArr [JObj [("path", JStr "./tsconfig.node.json")]])].

Definition src_file (p c : string) : option JSON * option JSON :=
  (Some (JStr p), Some (JStr c)).

Definition generateBuildConfig (w : World) (request : BuildRequest)
  : list (option JSON * option JSON) :=
  match br_framework request with
  | vite => [src_file "vite.config.ts" vite_config_ts;
             src_file "index.html" index_html;
             src_file "tsconfig.json" (JSON_stringify w tsconfig 2)]
  | react => []
  end.

Record ExecutedBuild : Type := mkExecuted {
  ex_success : bool;
  ex_assets : option (list Asset);
  ex_errors : option (list string);
  ex_warnings : option (list string)
}.

(** [executeBuild]: the build is simulated and always succeeds. *)
Definition executeBuild (all_files : list (option JSON * option JSON))
                        (framework : string) : Result ExecutedBuild :=
  Ok (mkExecuted true
        (Some [mkAsset "index.html"
                 "<!DOCTYPE html><html><body><h1>Built App</h1></body></html>"
                 "html";
               mkAsset "assets/index.js"
                 (strcat ["console.log("; quoted "Built JavaScript"; ");"])
                 "js";
               mkAsset "assets/index.css" "body { font-family: Arial; }" "css"])
        None
        (Some ["Some warnings about unused imports"])).

Definition exn_message (e : Exn) : string :=
  match e with
  | TypeError m => m
  | SyntaxError => "Unexpected token"
  | Error m => m
  end.

(** [BuildService.buildApp]: whatever the [try] block throws becomes a
    failed [BuildResult]. *)
Definition buildApp (w : World) (request : BuildRequest) : BuildResult :=
  let buildId := fresh_build_id w in
  let packageJson := generatePackageJson request in
  let buildConfig := generateBuildConfig w request in
  let allFiles :=
    br_files request
    ++ [src_file "package.json" (JSON_stringify w packageJson 2)]
    ++ buildConfig in
  match executeBuild allFiles (framework_name (br_framework request)) with
  | Ok r =>
      mkBuildResult (ex_success r) buildId (ex_assets r) (ex_errors r)
                    (ex_warnings r)
  | Throw e =>
      mkBuildResult false buildId None
                    (Some [strcat ["Build failed: "; exn_message e]]) None
  end.

End Build.
Import Build.

(* ===================================================================== *)
(** ** src/core/code-generator.ts : the phase orchestrator               *)
(* ===================================================================== *)

Module CodeGenerator.
Import LLM.

Record Phase : Type := mkPhase {
  phase_name : string;
  phase_description : string
}.

Definition phases : list Phase :=
  [ mkPhase "planning" "Analyze requirements and create project structure";
    mkPhase "foundation" "Generate package.json, config files, and basic setup";
    mkPhase "core" "Create main components and business logic";
    mkPhase "styling" "Add CSS, themes, and visual design";
    mkPhase "integration" "Connect APIs and external services";
    mkPhase "optimization" "Performance improvements and error handling" ].

Definition opt_field {A} (k : string) (f : A -> JSON) (o : option A)
  : list (string * JSON) :=
  match o with Some a => [(k, f a)] | None => [] end.

(** The object [request.visual_style], as [JSON.stringify] sees it. *)
Definition style_to_json (s : VisualStyle) : JSON :=
  JObj ([("theme", JStr (theme s)); ("color", JStr (color s));
         ("font", JStr (font s)); ("vibe", JStr (vibe s));
         ("motion", JStr (motion s))]
        ++ opt_field "favorite_app" JStr (favorite_app s)
        ++ opt_field "screenshots" (fun l => JArr (map JStr l)) (screenshots s)).

(** A value inside a template literal. *)
Definition display (w : World) (v : option JSON) : string :=
  match v with
  | None => "undefined"
  | Some (JStr s) => s
  | Some v => ToString w v
  end.

Definition nl : string := String "010"%char EmptyString.

Definition baseContext (w : World) (request : CodeGenerationRequest)
                       (previousFiles : list GeneratedFile) : string :=
  strcat [
"
Create a "; framework_name (frontend_framework request);
" application with these requirements:
- Name: "; name request; "
- Purpose: "; jtbds request; "
- Inputs: "; join ", " (input_sources request); "
- Outputs: "; join ", " (outputs request); "
- Required APIs: "; join ", " (api_keys_required request); "
- Visual Style: "; JSON_stringify w (style_to_json (visual_style request)) 2; "

Previous files generated:
";
  join nl (map (fun f => strcat ["- "; display w (path f); " ("; phase f; ")"])
               previousFiles);
"
    "].

Definition planning_instructions : string := strcat [
"

Create a detailed project structure and file list for this application. Return as JSON:
{
  "; quoted "structure"; ": {
    "; quoted "src/"; ": ["; quoted "components/"; ", "; quoted "utils/"; ", ";
       quoted "types/"; "],
    "; quoted "public/"; ": ["; quoted "index.html"; ", "; quoted "assets/"; "],
    "; quoted "package.json"; ": "; quoted "dependencies and scripts"; "
  },
  "; quoted "files"; ": [
    {"; quoted "path"; ": "; quoted "src/main.tsx"; ", "; quoted "description";
       ": "; quoted "Entry point"; "},
    {"; quoted "path"; ": "; quoted "src/App.tsx"; ", "; quoted "description";
       ": "; quoted "Main component"; "}
  ]
}"].

Definition buildPhasePrompt (w : World) (request : CodeGenerationRequest)
    (phase : string) (previousFiles : list GeneratedFile) : string :=
  let base := baseContext w request previousFiles in
  if String.eqb phase "planning" then
    strcat [base; planning_instructions]
  else if String.eqb phase "foundation" then
    strcat [base; "

Generate the foundation files for this ";
      framework_name (frontend_framework request); " app:
- package.json with all necessary dependencies
- tsconfig.json
- vite.config.ts (if using Vite)
- index.html
- main.tsx entry point
- Basic App component structure

Return as JSON array of files with path and content."]
  else if String.eqb phase "core" then
    strcat [base; "

Generate the core functionality:
- Main components based on the JTBD
- Business logic
- State management
- API integration points

Focus on the core user workflow described in the requirements."]
  else if String.eqb phase "styling" then
    strcat [base; "

Generate styling based on visual preferences:
- Theme: "; theme (visual_style request); "
- Color palette: "; color (visual_style request); "
- Font: "; font (visual_style request); "
- Design vibe: "; vibe (visual_style request); "
- Motion: "; motion (visual_style request); "

Create CSS files, Tailwind config, and styled components."]
  else if String.eqb phase "integration" then
    strcat [base; "

Add API integrations and external services:
";
      join nl (map (fun api => strcat ["- "; api; " integration"])
                   (api_keys_required request)); "

Create service files, API clients, and connection logic."]
  else if String.eqb phase "optimization" then
    strcat [base; "

Add optimizations:
- Error boundaries
- Loading states
- Performance improvements
- Type safety
- Testing setup"]
  else base.

(** [parsePlanningResponse] *)
Definition parsePlanningResponse (w : World) (response phase : string)
  : list GeneratedFile :=
  match JSON_parse w response with
  | Some data =>
      [mkFile (Some (JStr "project-structure.json"))
              (Some (JStr (JSON_stringify w data 2))) phase]
  | None =>
      [mkFile (Some (JStr "planning-notes.txt")) (Some (JStr response)) phase]
  end.

(** The callback of [files.map] in [parseCodeResponse]:
    [{ path: f.path || `phase-${phase}.txt`, content: f.content || f, phase }] *)
Definition code_entry (phase : string) (f : JSON) : Result GeneratedFile :=
  rbind (get_prop f "path") (fun p =>
  rbind (get_prop f "content") (fun c =>
  Ok (mkFile (Some (or_else p (JStr (strcat ["phase-"; phase; ".txt"]))))
             (Some (or_else c f))
             phase))).

(** The single file [parseCodeResponse] falls back to. *)
Definition fallback_file (response phase : string) : GeneratedFile :=
  mkFile (Some (JStr (strcat ["phase-"; phase; ".tsx"])))
         (Some (JStr response)) phase.

(** [parseCodeResponse]: the [try] block covers the parse and the map; an
    exception in either, or a value that is no array, leads to the
    fallback. *)
Definition parseCodeResponse (w : World) (response phase : string)
  : list GeneratedFile :=
  match JSON_parse w response with
  | Some (JArr items) =>
      match rmap (code_entry phase) items with
      | Ok fs => fs
      | Throw _ => [fallback_file response phase]
      end
  | _ => [fallback_file response phase]
  end.

(** Own property of a value under object spread: [{...f}] copies the own
    enumerable properties of an object and nothing named [path] or
    [content] from anything else. *)
Definition own_prop (f : JSON) (k : string) : option JSON :=
  match f with
  | JObj fields => assoc k fields
  | _ => None
  end.

(** [uiResult.files.map(f => ({ ...f, phase }))] *)
Definition ui_files (uiResult : JSON) (phase : string)
  : Result (list GeneratedFile) :=
  rbind (get_prop uiResult "files") (fun fs =>
  match fs with
  | Some (JArr items) =>
      Ok (map (fun f => mkFile (own_prop f "path") (own_prop f "content") phase)
              items)
  | _ => Throw (TypeError "uiResult.files.map is not a function")
  end).

(** [generatePhase] *)
Definition generatePhase (w : World) (request : CodeGenerationRequest)
    (phase : string) (previousFiles : list GeneratedFile)
  : M (list GeneratedFile) :=
  let llmChoice := pickLLMForJTBD (jtbds request) in
  let prompt := buildPhasePrompt w request phase previousFiles in
  if String.eqb phase "planning" then
    response <- call_llm w prompt llmChoice ;;
    ret (parsePlanningResponse w response phase)
  else if includes phase "ui" || String.eqb phase "styling" then
    uiResult <- generateUIWithGoogle w "gemini-2.0-pro-exp" prompt ;;
    lift (ui_files uiResult phase)
  else
    response <- call_llm w prompt llmChoice ;;
    ret (parseCodeResponse w response phase).

(** [buildGeneratedApp] *)
Definition buildGeneratedApp (w : World) (files : list GeneratedFile)
    (request : CodeGenerationRequest) (agentId : string) : M BuildResult :=
  let buildRequest :=
    mkBuildRequest agentId
                   (map (fun f => (path f, content f)) files)
                   (frontend_framework request)
                   [] in
  ret (buildApp w buildRequest).

Definition content_type (asset_type : string) : string :=
  if String.eqb asset_type "html" then "text/html"
  else if String.eqb asset_type "js" then "application/javascript"
  else if String.eqb asset_type "css" then "text/css"
  else "text/plain".

(** [this.env.AGENT_ASSETS.put(key, content, {httpMetadata})]: a missing
    binding makes the property access throw. *)
Definition put_asset (w : World) (agentId : string) (a : Asset) : M unit :=
  let key := strcat ["apps/"; agentId; "/"; asset_path a] in
  match AGENT_ASSETS w with
  | None =>
      throw (TypeError "Cannot read properties of undefined (reading 'put')")
  | Some put =>
      call (put key (asset_content a) (content_type (asset_type a)))
           (EvPut key (asset_content a) (content_type (asset_type a)))
  end.

(** [createPreviewAndDeploy] *)
Definition createPreviewAndDeploy (w : World) (files : list GeneratedFile)
    (buildResult : BuildResult) (request : CodeGenerationRequest)
    (agentId : string) : M GenerationResult :=
  _ <- match success buildResult, assets buildResult with
       | true, Some stored => for_each (put_asset w agentId) stored
       | _, _ => ret tt
       end ;;
  let previewUrl := strcat ["https://"; agentId; ".yourdomain.com"] in
  ret (mkResult files (Some previewUrl) (Some agentId) (Some buildResult)).

(** The two variables the loop of [generateApp] updates. *)
Record LoopState : Type := mkLoop {
  allFiles : list GeneratedFile;
  currentPhase : nat
}.

(** [(currentPhase / phases.length) * 100] *)
Definition phase_progress (completed : nat) : JSNum :=
  num_mul (num_div (of_nat completed) (of_nat (List.length phases))) (Num 100).

(** The update sent before a phase is attempted. *)
Definition generating_update (ph : Phase) (st : LoopState) : ProgressUpdate :=
  mkProgress (phase_name ph) (phase_progress (currentPhase st))
             "generating" None.

(** The [try] block of the loop of [generateApp]. *)
Definition phase_body (w : World) (request : CodeGenerationRequest)
    (st : LoopState) (ph : Phase) : M LoopState :=
  _ <- post_progress w (generating_update ph st) ;;
  phaseFiles <- generatePhase w request (phase_name ph) (allFiles st) ;;
  ret (mkLoop (allFiles st ++ phaseFiles) (S (currentPhase st))).

(** One iteration of [for (const phase of phases)]: the body runs inside
    [try]; the [catch] logs and goes on with the state unchanged. *)
Definition phase_iteration (w : World) (request : CodeGenerationRequest)
    (st : LoopState) (ph : Phase) : M LoopState :=
  try_catch (phase_body w request st ph) (fun _ => ret st).

(** The loop of [generateApp] over a list of phases. *)
Definition run_phases (w : World) (request : CodeGenerationRequest)
    (l : list Phase) (st : LoopState) : M LoopState :=
  for_of (phase_iteration w request) l st.

Definition completed_update (result : GenerationResult) : ProgressUpdate :=
  mkProgress "complete" (Num 100) "completed" (Some result).

(** [generateApp] *)
Definition generateApp (w : World) (request : CodeGenerationRequest)
    (agentId : string) : M GenerationResult :=
  st <- run_phases w request phases (mkLoop [] 0) ;;
  buildResult <- buildGeneratedApp w (allFiles st) request agentId ;;
  result <- createPreviewAndDeploy w (allFiles st) buildResult request agentId ;;
  _ <- post_progress w (completed_update result) ;;
  ret result.

End CodeGenerator.

(* ===================================================================== *)
(** ** Template definitions and the registry on disk                     *)
(* ===================================================================== *)

Module Templates.

Record ApiIntegration : Type := mkIntegration {
  ai_type : string;
  ai_capabilities : option (list string);
  ai_providers : option (list string);
  ai_purpose : option string
}.

Record Deployment : Type := mkDeployment {
  worker_type : string;
  routing : string;
  database : string;
  deployed_assets : string
}.

Record ConnectionOutput : Type := mkConnOut {
  co_type : string;
  co_trigger : string;
  co_data : string;
  co_formats : option (list string)
}.

Record ConnectionInput : Type := mkConnIn {
  ci_type : string;
  ci_sources : list string
}.

Record Connections : Type := mkConnections {
  conn_outputs : list ConnectionOutput;
  conn_inputs : list ConnectionInput
}.

(** [TemplateDefinition] of template-customizer.ts.  The selector reads
    the same documents and guards [api_integrations], hence the option. *)
Record TemplateDefinition : Type := mkTemplate {
  td_name : string;
  td_description : string;
  td_category : string;
  td_framework : string;
  td_complexity : string;
  td_capabilities : list (string * bool);
  td_base_reference : string;
  td_package_patches : option (list (string * JSON));
  td_variables : list (string * string);
  td_ui_generation : string;
  td_functionality : string;
  td_api_integrations : option (list ApiIntegration);
  td_deployment : Deployment;
  td_connections : Connections
}.

(** [UserRequirements] of template-customizer.ts. *)
Record UserRequirements : Type := mkRequirements {
  ur_name : string;
  ur_jtbds : string;
  ur_input_sources : list string;
  ur_outputs : list string;
  ur_api_keys_required : list string;
  ur_next_step : string;
  ur_visual_style : VisualStyle;
  ur_llm_models : option (list (string * string))
}.

(** The synchronous file system calls and the YAML parser. *)
Record FileSystem : Type := mkFS {
  (** [process.cwd()] *)
  cwd : string;
  (** [readdirSync(dir)] *)
  readdirSync : string -> Result (list string);
  (** [readFileSync(path, 'utf8')] *)
  readFileSync : string -> Result string;
  (** [YAML.parse(text)], read at the declared type *)
  YAML_parse : string -> Result TemplateDefinition
}.

(** [join(process.cwd(), 'templates', 'definitions')] *)
Definition definitionsDir (fs : FileSystem) : string :=
  strcat [cwd fs; "/templates/definitions"].

Definition read_definition (fs : FileSystem) (yamlPath : string)
  : Result TemplateDefinition :=
  rbind (readFileSync fs yamlPath) (YAML_parse fs).

End Templates.
Import Templates.

(* ===================================================================== *)
(** ** src/core/template-customizer.ts                                   *)
(* ===================================================================== *)

Module TemplateCustomizer.
Import LLM.

(** [`${error}`] *)
Definition exn_display (e : Exn) : string :=
  match e with
  | TypeError m => strcat ["TypeError: "; m]
  | SyntaxError => "SyntaxError: Unexpected token"
  | Error m => strcat ["Error: "; m]
  end.

(** [loadTemplateDefinition]: every failure of the read or of the parse is
    thrown again as an [Error]. *)
Definition loadTemplateDefinition (fs : FileSystem) (templateName : string)
  : Result TemplateDefinition :=
  let yamlPath := strcat [definitionsDir fs; "/"; templateName; ".yaml"] in
  match read_definition fs yamlPath with
  | Ok t => Ok t
  | Throw error =>
      Throw (Error (strcat ["Failed to load template definition for ";
                            templateName; ": "; exn_display error]))
  end.

(** [userRequirements.visual_style[prop]], joined when it is an array and
    replaced by the empty string when it is missing.  Names inherited from
    [Object.prototype] are not modelled. *)
Definition style_prop (s : VisualStyle) (prop : string) : string :=
  if String.eqb prop "theme" then theme s
  else if String.eqb prop "color" then color s
  else if String.eqb prop "font" then font s
  else if String.eqb prop "vibe" then vibe s
  else if String.eqb prop "motion" then motion s
  else if String.eqb prop "favorite_app" then
    match favorite_app s with Some a => a | None => EmptyString end
  else if String.eqb prop "screenshots" then
    match screenshots s with Some l => join ", " l | None => EmptyString end
  else EmptyString.

(** [applyVariableSubstitution] *)
Definition applyVariableSubstitution (w : World) (templateDef : TemplateDefinition)
    (userRequirements : UserRequirements) : list (string * string) :=
  map (fun kv : string * string =>
         let value := snd kv in
         let value :=
           replace_regex w "\{\{jtbd_description\}\}"
                         (ur_jtbds userRequirements) value in
         let value :=
           replace_regex_with w "\{\{visual_style\.(\w+)\}\}"
                              (style_prop (ur_visual_style userRequirements))
                              value in
         (fst kv, value))
      (td_variables templateDef).

(** [interpolatePrompt] *)
Definition interpolatePrompt (w : World) (prompt : string)
    (variables : list (string * string)) (userRequirements : UserRequirements)
  : string :=
  let interpolated :=
    fold_left (fun acc (kv : string * string) =>
                 replace_regex w (strcat ["\{\{\s*"; fst kv; "\s*\}\}"])
                               (snd kv) acc)
              variables prompt in
  let interpolated :=
    replace_regex w "\{\{jtbd_description\}\}" (ur_jtbds userRequirements)
                  interpolated in
  let interpolated :=
    replace_regex w "\{\{input_sources\}\}"
                  (join ", " (ur_input_sources userRequirements)) interpolated in
  let interpolated :=
    replace_regex w "\{\{outputs\}\}"
                  (join ", " (ur_outputs userRequirements)) interpolated in
  replace_regex w "\{\{api_keys_required\}\}"
                (join ", " (ur_api_keys_required userRequirements)) interpolated.

(** [v?.k] *)
Definition opt_prop (v : option JSON) (k : string) : option JSON :=
  match v with
  | Some (JObj fields) => assoc k fields
  | _ => None
  end.

(** [v?.[0]] *)
Definition opt_first (v : option JSON) : option JSON :=
  match v with
  | Some (JArr (x :: _)) => Some x
  | Some (JObj fields) => assoc "0" fields
  | Some (JStr (String c _)) => Some (JStr (String c EmptyString))
  | _ => None
  end.

(** [generateUICustomization]: the first file's content, or a visible
    placeholder when there is none. *)
Definition generateUICustomization (w : World) (templateDef : TemplateDefinition)
    (userRequirements : UserRequirements) (variables : list (string * string))
  : M JSON :=
  let prompt :=
    interpolatePrompt w (td_ui_generation templateDef) variables
                      userRequirements in
  uiResult <- generateUIWithGoogle w "gemini-2.0-pro-exp" prompt ;;
  files <- lift (get_prop uiResult "files") ;;
  ret (or_else (opt_prop (opt_first files) "content")
               (JStr "/* UI customization failed */")).

(** [selectLLMForCustomization] *)
Definition selectLLMForCustomization (userRequirements : UserRequirements)
  : LLMChoice :=
  let primaryModel :=
    match ur_llm_models userRequirements with
    | Some models =>
        match assoc "primary" models with
        | Some m => if String.eqb m EmptyString then "gemini-2.0-pro-exp" else m
        | None => "gemini-2.0-pro-exp"
        end
    | None => "gemini-2.0-pro-exp"
    end in
  let provider :=
    if includes primaryModel "gemini" then googleai
    else if includes primaryModel "claude" then anthropic
    else if includes primaryModel "gpt" then openai
    else googleai in
  mkChoice provider primaryModel "user_selected_model" None.

(** [generateFunctionalityCustomization] *)
Definition generateFunctionalityCustomization (w : World)
    (templateDef : TemplateDefinition) (userRequirements : UserRequirements)
    (variables : list (string * string)) : M string :=
  let prompt :=
    interpolatePrompt w (td_functionality templateDef) variables
                      userRequirements in
  call_llm w prompt (selectLLMForCustomization userRequirements).

(** [{ ...base, k: v }] on the property list of an object: an existing
    property keeps its place and takes the new value. *)
Fixpoint obj_set (k : string) (v : JSON) (o : list (string * JSON))
  : list (string * JSON) :=
  match o with
  | [] => [(k, v)]
  | (k', v') :: o' =>
      if String.eqb k k' then (k', v) :: o' else (k', v') :: obj_set k v o'
  end.

(** [{ ...a, ...b }] *)
Definition obj_merge (a b : list (string * JSON)) : list (string * JSON) :=
  fold_left (fun acc (kv : string * JSON) => obj_set (fst kv) (snd kv) acc) b a.

(** The elements of an array under their indices, from [i] on. *)
Fixpoint index_from {A} (i : nat) (l : list A) : list (string * A) :=
  match l with
  | [] => []
  | x :: l' =>
      (NilEmpty.string_of_uint (Nat.to_uint i), x) :: index_from (S i) l'
  end.

(** The characters of a string, each as a string. *)
Fixpoint code_units (s : string) : list JSON :=
  match s with
  | EmptyString => []
  | String c s' => JStr (String c EmptyString) :: code_units s'
  end.

(** The own properties a spread copies from a value that may be absent:
    those of an object, the elements of an array and the characters of a
    string under their indices, nothing from any other value. *)
Definition spread (v : option JSON) : list (string * JSON) :=
  match v with
  | Some (JObj fields) => fields
  | Some (JArr items) => index_from 0 items
  | Some (JStr text) => index_from 0 (code_units text)
  | _ => []
  end.

(** [applyPackagePatches] *)
Definition applyPackagePatches (templateDef : TemplateDefinition)
    (userRequirements : UserRequirements) : list (string * JSON) :=
  let patches :=
    match td_package_patches templateDef with Some p => p | None => [] end in
  let patches :=
    if arr_includes (ur_api_keys_required userRequirements) "openai" then
      obj_set "dependencies"
              (JObj (obj_set "openai" (JStr "^4.0.0")
                             (spread (assoc "dependencies" patches))))
              patches
    else patches in
  if arr_includes (ur_api_keys_required userRequirements) "anthropic" then
    obj_set "dependencies"
            (JObj (obj_set "@anthropic-ai/sdk" (JStr "^0.17.0")
                           (spread (assoc "dependencies" patches))))
            patches
  else patches.

(** What [generateFinalAppStructure] receives as [customizations]. *)
Record Customizations : Type := mkCustomizations {
  uiCustomization : JSON;
  functionalityCustomization : string;
  packagePatches : list (string * JSON);
  cz_userRequirements : UserRequirements;
  customizedVars : list (string * string)
}.

Definition generatePackageJson (w : World) (templateDef : TemplateDefinition)
    (cz : Customizations) : string :=
  JSON_stringify w
    (JObj [("name", JStr (strcat ["custom-"; td_name templateDef]));
           ("version", JStr "1.0.0");
           ("type", JStr "module");
           ("scripts", JObj [("dev", JStr "vite");
                             ("build", JStr "vite build");
                             ("preview", JStr "vite preview")]);
           ("dependencies",
            JObj (obj_merge [("react", JStr "^18.2.0");
                             ("react-dom", JStr "^18.2.0")]
                            (spread (assoc "dependencies" (packagePatches cz)))));
           ("devDependencies",
            JObj (obj_merge devDeps
                            (spread (assoc "devDependencies"
                                           (packagePatches cz)))))])
    2.

Definition generateMainTsx (templateDef : TemplateDefinition) : string :=
"import React from 'react';
import ReactDOM from 'react-dom/client';
import App from './App';

ReactDOM.createRoot(document.getElementById('root')!).render(
  <React.StrictMode>
    <App />
  </React.StrictMode>
);".

(** [vars.k || dflt] *)
Definition var_or (vars : list (string * string)) (k dflt : string) : string :=
  match assoc k vars with
  | Some v => if String.eqb v EmptyString then dflt else v
  | None => dflt
  end.

Definition generateIndexCss (cz : Customizations) : string :=
  let theme := theme (ur_visual_style (cz_userRequirements cz)) in
  let primaryColor := var_or (customizedVars cz) "primary_color" "#3498db" in
  strcat [
"* {
  box-sizing: border-box;
}

body {
  margin: 0;
  padding: 0;
  background: "; (if String.eqb theme "dark" then "#1a1a1a" else "#f8f9fa"); ";
  color: "; (if String.eqb theme "dark" then "#f4f4f4" else "#212529"); ";
  font-family: -apple-system, BlinkMacSystemFont, 'Segoe UI', Roboto, sans-serif;
  line-height: 1.6;
}

#root {
  min-height: 100vh;
}

button {
  background: "; primaryColor; ";
  color: white;
  border: none;
  padding: 8px 16px;
  border-radius: 6px;
  cursor: pointer;
  font-size: 14px;
}

button:hover {
  opacity: 0.9;
}

input, textarea {
  padding: 8px 12px;
  border: 2px solid #ddd;
  border-radius: 6px;
  font-size: 14px;
  font-family: inherit;
}

input:focus, textarea:focus {
  outline: none;
  border-color: "; primaryColor; ";
}"].

Definition generateViteConfig (templateDef : TemplateDefinition) : string :=
"import { defineConfig } from 'vite';
import react from '@vitejs/plugin-react';

export default defineConfig({
  plugins: [react()],
});".

Definition tsconfig_line (k v : string) : string :=
  strcat ["    "; quoted k; ": "; v].

Definition generateTsConfig : string := strcat [
"{
  "; quoted "compilerOptions"; ": {
"; join (strcat [","; CodeGenerator.nl])
     [tsconfig_line "target" (quoted "ES2020");
      tsconfig_line "useDefineForClassFields" "true";
      tsconfig_line "lib"
        (strcat ["["; quoted "ES2020"; ", "; quoted "DOM"; ", ";
                 quoted "DOM.Iterable"; "]"]);
      tsconfig_line "module" (quoted "ESNext");
      tsconfig_line "skipLibCheck" "true";
      tsconfig_line "moduleResolution" (quoted "bundler");
      tsconfig_line "allowImportingTsExtensions" "true";
      tsconfig_line "resolveJsonModule" "true";
      tsconfig_line "isolatedModules" "true";
      tsconfig_line "noEmit" "true";
      tsconfig_line "jsx" (quoted "react-jsx");
      tsconfig_line "strict" "true";
      tsconfig_line "noUnusedLocals" "true";
      tsconfig_line "noUnusedParameters" "true";
      tsconfig_line "noFallthroughCasesInSwitch" "true"]; "
  },
  "; quoted "include"; ": ["; quoted "src"; "],
  "; quoted "references"; ": [{ "; quoted "path"; ": ";
     quoted "./tsconfig.node.json"; " }]
}"].

Definition generateIndexHtml (templateDef : TemplateDefinition)
    (cz : Customizations) : string :=
  let title := var_or (customizedVars cz) "app_title" (td_name templateDef) in
  strcat [
"<!doctype html>
<html lang="; quoted "en"; ">
  <head>
    <meta charset="; quoted "UTF-8"; " />
    <meta name="; quoted "viewport"; " content=";
    quoted "width=device-width, initial-scale=1.0"; " />
    <title>"; title; "</title>
  </head>
  <body>
    <div id="; quoted "root"; "></div>
    <script type="; quoted "module"; " src="; quoted "/src/main.tsx";
"></script>
  </body>
</html>"].

Record Metadata : Type := mkMetadata {
  md_template : string;
  md_customized : bool;
  md_user_requirements : UserRequirements;
  md_generated_at : string
}.

(** The application [customizeTemplate] returns. *)
Record FinalApp : Type := mkFinalApp {
  fa_name : string;
  fa_framework : string;
  fa_files : list (string * JSON);
  fa_deployment : Deployment;
  fa_connections : Connections;
  fa_metadata : Metadata
}.

(** [generateFinalAppStructure] *)
Definition generateFinalAppStructure (w : World) (templateDef : TemplateDefinition)
    (cz : Customizations) : FinalApp :=
  mkFinalApp
    (td_name templateDef)
    (td_framework templateDef)
    [("package.json", JStr (generatePackageJson w templateDef cz));
     ("src/App.tsx", uiCustomization cz);
     ("src/main.tsx", JStr (generateMainTsx templateDef));
     ("src/index.css", JStr (generateIndexCss cz));
     ("vite.config.ts", JStr (generateViteConfig templateDef));
     ("tsconfig.json", JStr generateTsConfig);
     ("index.html", JStr (generateIndexHtml templateDef cz))]
    (td_deployment templateDef)
    (td_connections templateDef)
    (mkMetadata (td_name templateDef) true (cz_userRequirements cz) (now_iso w)).

(** [customizeTemplate]: no statement of it sits in a [try]. *)
Definition customizeTemplate (w : World) (fs : FileSystem)
    (templateName : string) (userRequirements : UserRequirements)
    (agentId : string) : M FinalApp :=
  templateDef <- lift (loadTemplateDefinition fs templateName) ;;
  _ <- post_progress w
         (mkProgress "customizing" (Num 10) "analyzing_requirements" None) ;;
  let customizedVars :=
    applyVariableSubstitution w templateDef userRequirements in
  uiCustomization <-
    generateUICustomization w templateDef userRequirements customizedVars ;;
  functionalityCustomization <-
    generateFunctionalityCustomization w templateDef userRequirements
                                       customizedVars ;;
  let packagePatches := applyPackagePatches templateDef userRequirements in
  let finalApp :=
    generateFinalAppStructure w templateDef
      (mkCustomizations uiCustomization functionalityCustomization
                        packagePatches userRequirements customizedVars) in
  _ <- post_progress w (mkProgress "customizing" (Num 90) "finalizing_app" None) ;;
  ret finalApp.

End TemplateCustomizer.

(* ===================================================================== *)
(** ** src/core/template-selector.ts                                     *)
(* ===================================================================== *)

Module TemplateSelector.
Import LLM.

Record TemplateMatch : Type := mkMatch {
  templateName : string;
  confidence : JSNum;
  reasoning : string;
  capabilities : list string
}.

Record TemplateSelectionResult : Type := mkSelection {
  selectedTemplate : option string;
  fallbackGeneration : option bool;
  sel_reasoning : string;
  alternatives : option (list TemplateMatch)
}.

(** [getAvailableTemplates]: a failure anywhere in the [try] block (the
    directory listing, a read, a parse) gives the empty list. *)
Definition getAvailableTemplates (fs : FileSystem) : list TemplateDefinition :=
  match
    rbind (readdirSync fs (definitionsDir fs)) (fun entries =>
    rmap (fun file =>
            read_definition fs (strcat [definitionsDir fs; "/"; file]))
         (filter (fun f => endsWith f ".yaml") entries))
  with
  | Ok templates => templates
  | Throw _ => []
  end.

(** [template.capabilities[cap]], read as a condition. *)
Definition has_capability (template : TemplateDefinition) (cap : string) : bool :=
  match assoc cap (td_capabilities template) with
  | Some b => b
  | None => false
  end.

Definition inputMap : list (string * list string) :=
  [ ("gdrive", ["file_upload"]);
    ("dropbox", ["file_upload"]);
    ("notion", ["api_import"]);
    ("web", ["url_import"]);
    ("upload", ["file_upload"]);
    ("email", ["api_import"]);
    ("other", ["api_import"]) ].

Definition outputMap : list (string * list string) :=
  [ ("summary", ["data_storage"; "reporting"]);
    ("doc", ["export"]);
    ("json", ["export"]);
    ("post", ["api_import"]);
    ("slides", ["export"]);
    ("audio", ["export"]);
    ("video", ["export"]);
    ("image", ["export"]);
    ("trigger", ["webhook"]) ].

(** [table[key] || []] followed by a call of [.some] on it.  The tables
    are object literals: a key that is not an own property but is defined
    by [Object.prototype] yields a function or an object, on which [.some]
    is not a function. *)
Definition required_capabilities (table : list (string * list string))
    (key : string) : Result (list string) :=
  match assoc key table with
  | Some caps => Ok caps
  | None =>
      if arr_includes object_prototype_keys key
      then Throw (TypeError "requiredCapabilities.some is not a function")
      else Ok []
  end.

Definition templateSupportsInput (template : TemplateDefinition)
    (input : string) : Result bool :=
  rbind (required_capabilities inputMap (toLowerCase input)) (fun caps =>
  Ok (existsb (has_capability template) caps)).

Definition templateSupportsOutput (template : TemplateDefinition)
    (output : string) : Result bool :=
  rbind (required_capabilities outputMap (toLowerCase output)) (fun caps =>
  Ok (existsb (has_capability template) caps)).

Definition templateSupportsAPI (template : TemplateDefinition)
    (api : string) : bool :=
  match td_api_integrations template with
  | None => false
  | Some integrations =>
      existsb (fun integration =>
                 match ai_providers integration with
                 | Some providers => arr_includes providers (toLowerCase api)
                 | None => false
                 end)
              integrations
  end.

Inductive Complexity : Type := simple | medium | complex.

Definition complexity_name (c : Complexity) : string :=
  match c with
  | simple => "simple"
  | medium => "medium"
  | complex => "complex"
  end.

Definition assessJTBDComplexity (requirements : UserRequirements) : Complexity :=
  let factors :=
    [ (2 <? List.length (ur_input_sources requirements))%nat;
      (2 <? List.length (ur_outputs requirements))%nat;
      (1 <? List.length (ur_api_keys_required requirements))%nat;
      (100 <? String.length (ur_jtbds requirements))%nat ] in
  let complexityScore := List.length (filter (fun b : bool => b) factors) in
  if (complexityScore <=? 1)%nat then simple
  else if (complexityScore <=? 3)%nat then medium
  else complex.

(** The keyword rule: the first branch whose test holds gives the points. *)
Definition keyword_points (jtbd : string) (template : TemplateDefinition) : Q :=
  if includes jtbd "journal" && includes (td_name template) "journal" then 30
  else if includes jtbd "idea" && includes (td_name template) "idea" then 30
  else if includes jtbd "dashboard" && includes (td_name template) "dashboard"
  then 30
  else if includes jtbd "track" && has_capability template "workflow_management"
  then 20
  else if includes jtbd "manage" && has_capability template "workflow_management"
  then 20
  else 0.

(** The favorite-app heuristic. *)
Definition favorite_points (requirements : UserRequirements)
    (template : TemplateDefinition) : Q :=
  match favorite_app (ur_visual_style requirements) with
  | Some app =>
      if String.eqb app EmptyString then 0
      else
        let favorite := toLowerCase app in
        if includes favorite "notion" && String.eqb (td_framework template) "react"
        then 10
        else if includes favorite "figma"
                && has_capability template "data_visualization"
        then 10
        else 0
  | None => 0
  end.

(** [(matches / total) * weight] *)
Definition coverage (matched total : nat) (weight : Q) : JSNum :=
  num_mul (num_div (of_nat matched) (of_nat total)) (Num weight).

(** [calculateTemplateMatch] *)
Definition calculateTemplateMatch (template : TemplateDefinition)
    (requirements : UserRequirements) : Result JSNum :=
  let score := Num 0 in
  let maxScore := Num 0 in
  let jtbd := toLowerCase (ur_jtbds requirements) in
  let maxScore := num_add maxScore (Num 30) in
  let score := num_add score (Num (keyword_points jtbd template)) in
  let maxScore := num_add maxScore (Num 20) in
  rbind (rfilter (templateSupportsInput template)
                 (ur_input_sources requirements)) (fun inputMatches =>
  let score :=
    num_add score (coverage (List.length inputMatches)
                            (List.length (ur_input_sources requirements)) 20) in
  let maxScore := num_add maxScore (Num 20) in
  rbind (rfilter (templateSupportsOutput template)
                 (ur_outputs requirements)) (fun outputMatches =>
  let score :=
    num_add score (coverage (List.length outputMatches)
                            (List.length (ur_outputs requirements)) 20) in
  let maxScore := num_add maxScore (Num 15) in
  let apiMatches :=
    filter (templateSupportsAPI template) (ur_api_keys_required requirements) in
  let score :=
    num_add score (coverage (List.length apiMatches)
                            (List.length (ur_api_keys_required requirements))
                            15) in
  let maxScore := num_add maxScore (Num 10) in
  let score := num_add score (Num (favorite_points requirements template)) in
  let maxScore := num_add maxScore (Num 5) in
  let jtbdComplexity := assessJTBDComplexity requirements in
  let score :=
    if String.eqb (complexity_name jtbdComplexity) (td_complexity template)
    then num_add score (Num 5) else score in
  Ok (Math_min (num_div score maxScore) (Num 1)))).

(** [s.split('-')[0]] *)
Fixpoint before_dash (s : string) : string :=
  match s with
  | EmptyString => EmptyString
  | String c s' =>
      if Ascii.eqb c "-"%char then EmptyString else String c (before_dash s')
  end.

(** A count inside a template literal. *)
Definition show_nat (n : nat) : string :=
  NilEmpty.string_of_uint (Nat.to_uint n).

(** [generateMatchReasoning] *)
Definition generateMatchReasoning (template : TemplateDefinition)
    (requirements : UserRequirements) : Result string :=
  let reasons :=
    if includes (toLowerCase (ur_jtbds requirements))
                (before_dash (td_name template))
    then [strcat ["JTBD mentions "; quoted (before_dash (td_name template));
                  " functionality"]]
    else [] in
  rbind (rfilter (templateSupportsInput template)
                 (ur_input_sources requirements)) (fun inputMatches =>
  let reasons :=
    if (0 <? List.length inputMatches)%nat
    then reasons ++ [strcat ["Supports "; show_nat (List.length inputMatches);
                             " of your input sources"]]
    else reasons in
  rbind (rfilter (templateSupportsOutput template)
                 (ur_outputs requirements)) (fun outputMatches =>
  let reasons :=
    if (0 <? List.length outputMatches)%nat
    then reasons ++ [strcat ["Supports "; show_nat (List.length outputMatches);
                             " of your output types"]]
    else reasons in
  Ok (if (0 <? List.length reasons)%nat then join ", " reasons
      else "General purpose template"))).

(** The callback of [availableTemplates.map]. *)
Definition score_template (requirements : UserRequirements)
    (template : TemplateDefinition) : Result TemplateMatch :=
  rbind (calculateTemplateMatch template requirements) (fun c =>
  rbind (generateMatchReasoning template requirements) (fun why =>
  Ok (mkMatch (td_name template) c why
              (map fst (filter (fun kv : string * bool => snd kv)
                               (td_capabilities template)))))).

(** The comparator [(a, b) => b.confidence - a.confidence] asks for [a]
    after [b] exactly when its result is positive, that is when
    [a.confidence < b.confidence]; a [NaN] result counts as zero. *)
Definition sorts_after (a b : TemplateMatch) : bool :=
  num_lt (confidence a) (confidence b).

(** [Array.prototype.sort] is stable: an element moves behind another one
    only when the comparator asks for it.  This is the stable insertion
    of an element in front of an already sorted array. *)
Fixpoint insert_match (x : TemplateMatch) (l : list TemplateMatch)
  : list TemplateMatch :=
  match l with
  | [] => [x]
  | y :: l' => if sorts_after x y then y :: insert_match x l' else x :: l
  end.

(** [matches.sort((a, b) => b.confidence - a.confidence)] *)
Fixpoint sort_matches (l : list TemplateMatch) : list TemplateMatch :=
  match l with
  | [] => []
  | x :: l' => insert_match x (sort_matches l')
  end.

(** The decision taken on the sorted matches. *)
Definition decide_selection (w : World) (matches : list TemplateMatch)
  : Result TemplateSelectionResult :=
  match matches with
  | [] =>
      Throw (TypeError
               "Cannot read properties of undefined (reading 'confidence')")
  | bestMatch :: rest =>
      if num_ge (confidence bestMatch) (Num (7 # 10)) then
        Ok (mkSelection (Some (templateName bestMatch)) None
                        (reasoning bestMatch)
                        (Some (firstn 3 rest)))
      else
        Ok (mkSelection None (Some true)
              (strcat ["No template matches well enough (best confidence: ";
                       Number_toFixed w
                         (num_mul (confidence bestMatch) (Num 100)) 1;
                       "%). Will generate custom app using AI."])
              (Some (firstn 3 matches)))
  end.

(** [selectTemplateForJTBD] *)
Definition selectTemplateForJTBD (w : World) (fs : FileSystem)
    (userRequirements : UserRequirements) : Result TemplateSelectionResult :=
  let availableTemplates := getAvailableTemplates fs in
  rbind (rmap (score_template userRequirements) availableTemplates)
        (fun matches => decide_selection w (sort_matches matches)).

(** What [generateCustomTemplate] resolves to. *)
Inductive CustomTemplate : Type :=
| Generated (customApp : JSON) (requirements : UserRequirements)
            (generated_at : string)
| FromTemplate (app : TemplateCustomizer.FinalApp).

(** [generateFallbackApp] *)
Definition generateFallbackApp (w : World) (fs : FileSystem)
    (userRequirements : UserRequirements) : M TemplateCustomizer.FinalApp :=
  TemplateCustomizer.customizeTemplate w fs "journal-app" userRequirements
                                       "fallback-agent".

Definition custom_template_prompt (w : World)
    (userRequirements : UserRequirements) : string :=
  strcat [
"
Create a custom app template based on these requirements:

JTBD: "; ur_jtbds userRequirements; "
Inputs: "; join ", " (ur_input_sources userRequirements); "
Outputs: "; join ", " (ur_outputs userRequirements); "
APIs: "; join ", " (ur_api_keys_required userRequirements); "
Style: ";
  JSON_stringify w
    (CodeGenerator.style_to_json (ur_visual_style userRequirements)) 0; "

Generate a complete app structure with:
1. package.json with appropriate dependencies
2. Main React component (App.tsx)
3. Supporting components and utilities
4. CSS styling matching the visual preferences
5. Any necessary configuration files

Return the complete file structure as a JSON object with file paths as keys and content as values.
"].

(** [generateCustomTemplate]: the [catch] returns the promise of
    [generateFallbackApp], whose rejection reaches the caller. *)
Definition generateCustomTemplate (w : World) (fs : FileSystem)
    (userRequirements : UserRequirements) (agentId : string)
  : M CustomTemplate :=
  let llmChoice := pickLLMForJTBD (ur_jtbds userRequirements) in
  response <- call_llm w (custom_template_prompt w userRequirements)
                       llmChoice ;;
  match JSON_parse w response with
  | Some customApp => ret (Generated customApp userRequirements (now_iso w))
  | None =>
      app <- generateFallbackApp w fs userRequirements ;;
      ret (FromTemplate app)
  end.

End TemplateSelector.

(* ===================================================================== *)
(** ** Notions used to state the properties                              *)
(* ===================================================================== *)

Module Observations.
Import LLM CodeGenerator TemplateSelector.

(** The loop of [generateApp] starts with no file and no completed phase. *)
Definition initial : LoopState := mkLoop [] 0.

(** The state with which the loop leaves an iteration: the one the [try]
    block built, or the unchanged one when the block threw. *)
Definition next_state (w : World) (request : CodeGenerationRequest)
    (st : LoopState) (ph : Phase) : LoopState :=
  match outcome (phase_body w request st ph) with
  | Ok st' => st'
  | Throw _ => st
  end.

Definition state_after (w : World) (request : CodeGenerationRequest)
    (l : list Phase) (st : LoopState) : LoopState :=
  fold_left (next_state w request) l st.


(** The remote call [generatePhase] makes for a phase, with its outcome. *)
Definition llm_call (w : World) (request : CodeGenerationRequest)
    (phase : string) (previousFiles : list GeneratedFile) : Event :=
  let llmChoice := pickLLMForJTBD (jtbds request) in
  let prompt := buildPhasePrompt w request phase previousFiles in
  if String.eqb phase "planning" then
    EvLLM prompt llmChoice (callLLM w prompt llmChoice)
  else if includes phase "ui" || String.eqb phase "styling" then
    EvUI "gemini-2.0-pro-exp" prompt
         (fetchGoogleUI w "gemini-2.0-pro-exp" prompt)
  else
    EvLLM prompt llmChoice (callLLM w prompt llmChoice).

Definition call_threw (ev : Event) : bool :=
  match ev with
  | EvLLM _ _ (Throw _) => true
  | EvUI _ _ (Throw _) => true
  | _ => false
  end.

Definition is_completed (u : ProgressUpdate) : bool :=
  String.eqb (pu_status u) "completed".



(** What follows the loop in [generateApp]. *)
Definition after_phases (w : World) (request : CodeGenerationRequest)
    (agentId : string) (st : LoopState) : M GenerationResult :=
  buildResult <- buildGeneratedApp w (allFiles st) request agentId ;;
  result <- createPreviewAndDeploy w (allFiles st) buildResult request agentId ;;
  _ <- post_progress w (completed_update result) ;;
  ret result.

(** The artifact store is bound and accepts every write. *)
Definition artifact_store_accepts (w : World) : Prop :=
  exists put, AGENT_ASSETS w = Some put /\
              forall key body ctype, put key body ctype = Ok tt.

(** The progress store accepts the final update. *)
Definition final_update_accepted (w : World) : Prop :=
  forall result, progress_fetch w (completed_update result) = Ok tt.

(** An entry of a file array: an object whose [path] and [content] are
    the given values. *)
Definition file_entry (f p c : JSON) : Prop :=
  exists fields,
    f = JObj fields /\ assoc "path" fields = Some p
    /\ assoc "content" fields = Some c.

(** The file a [{path, content}] entry stands for. *)
Definition entry_file (phase : string) (f : JSON) : GeneratedFile :=
  mkFile (own_prop f "path") (own_prop f "content") phase.

Definition string_valued (o : option JSON) : bool :=
  match o with Some (JStr _) => true | _ => false end.

(** An object that has a string under [path] and under [content]. *)
Definition is_file_object (f : JSON) : bool :=
  string_valued (own_prop f "path") && string_valued (own_prop f "content").

Definition truthy_opt (o : option JSON) : bool :=
  match o with Some v => truthy v | None => false end.

Definition is_array (o : option JSON) : bool :=
  match o with Some (JArr _) => true | _ => false end.

(** [a] is not beaten by [b]: the comparator of the sort does not ask for
    [a] behind [b]. *)
Definition not_beaten (a b : TemplateMatch) : Prop :=
  num_lt (confidence a) (confidence b) = false.

(** No tag reaches a property of [Object.prototype] once lower-cased. *)
Definition plain_tags (tags : list string) : Prop :=
  Forall (fun tag => arr_includes object_prototype_keys (toLowerCase tag) = false)
         tags.



(** A value that, if it is a string, is written in ASCII: the characters
    a spread copies from it are then those of the runtime. *)
Definition ascii_if_text (v : option JSON) : bool :=
  match v with
  | Some (JStr text) => ascii_text text
  | _ => true
  end.

(** Requirements whose description and favorite app are written in
    ASCII. *)
Definition ascii_requirements (requirements : UserRequirements) : bool :=
  ascii_text (ur_jtbds requirements)
  && match favorite_app (ur_visual_style requirements) with
     | Some app => ascii_text app
     | None => true
     end.

End Observations.

(* ===================================================================== *)
(** ** Sample environments and inputs                                    *)
(* ===================================================================== *)

Module Samples.
Import LLM CodeGenerator TemplateSelector.

Definition text_files : string :=
  strcat ["[{"; quoted "path"; ":"; quoted "src/App.tsx"; ",";
          quoted "content"; ":"; quoted "export default App"; "}]"].

Definition value_files : JSON :=
  JArr [JObj [("path", JStr "src/App.tsx");
              ("content", JStr "export default App")]].

(** A file array whose only entry has the empty path. *)
Definition text_empty_path : string :=
  strcat ["[{"; quoted "path"; ":"; dq; dq; ","; quoted "content"; ":";
          quoted "x"; "}]"].

Definition value_empty_path : JSON :=
  JArr [JObj [("path", JStr EmptyString); ("content", JStr "x")]].

(** A file array whose only entry is an empty file. *)
Definition text_empty_content : string :=
  strcat ["[{"; quoted "path"; ":"; quoted ".gitkeep"; ","; quoted "content";
          ":"; dq; dq; "}]"].

Definition value_empty_content : JSON :=
  JArr [JObj [("path", JStr ".gitkeep"); ("content", JStr EmptyString)]].

Definition text_plan : string := strcat ["{"; quoted "files"; ":[]}"].

Definition value_plan : JSON := JObj [("files", JArr [])].

Definition text_prose : string := "Here is the application you asked for.".

(** [JSON.parse] on the sample texts. *)
Definition sample_parse (s : string) : option JSON :=
  if String.eqb s text_files then Some value_files
  else if String.eqb s text_empty_path then Some value_empty_path
  else if String.eqb s text_empty_content then Some value_empty_content
  else if String.eqb s text_plan then Some value_plan
  else None.

(** A world in which every collaborator answers. *)
Definition quiet_world : World :=
  mkWorld sample_parse
          (fun _ _ => "{}")
          (fun _ => "[object Object]")
          (fun _ _ => "0.0")
          (fun _ _ s => s)
          (fun _ _ s => s)
          (fun _ _ => Ok text_files)
          (fun _ _ => Ok text_plan)
          (fun _ => Ok tt)
          (Some (fun _ _ _ => Ok tt))
          "build_1_abc"
          "2025-01-01T00:00:00.000Z".

Definition with_assets (w : World)
    (store : option (string -> string -> string -> Result unit)) : World :=
  mkWorld (JSON_parse w) (JSON_stringify w) (ToString w) (Number_toFixed w)
          (replace_regex w) (replace_regex_with w) (callLLM w)
          (fetchGoogleUI w) (progress_fetch w) store (fresh_build_id w)
          (now_iso w).

Definition with_progress (w : World)
    (store : ProgressUpdate -> Result unit) : World :=
  mkWorld (JSON_parse w) (JSON_stringify w) (ToString w) (Number_toFixed w)
          (replace_regex w) (replace_regex_with w) (callLLM w)
          (fetchGoogleUI w) store (AGENT_ASSETS w) (fresh_build_id w)
          (now_iso w).

Definition with_ui (w : World) (ui : string -> string -> Result string)
  : World :=
  mkWorld (JSON_parse w) (JSON_stringify w) (ToString w) (Number_toFixed w)
          (replace_regex w) (replace_regex_with w) (callLLM w)
          ui (progress_fetch w) (AGENT_ASSETS w) (fresh_build_id w)
          (now_iso w).

(** The environment the router worker builds: no [AGENT_ASSETS] binding. *)
Definition router_world : World := with_assets quiet_world None.

(** The progress store rejects the final update only. *)
Definition final_post_down_world : World :=
  with_progress quiet_world
    (fun u => if Observations.is_completed u
              then Throw (Error "Network connection lost") else Ok tt).

(** The UI generation request fails (the styling phase). *)
Definition styling_down_world : World :=
  with_ui quiet_world (fun _ _ => Throw (Error "Google UI gen failed: 500")).

Definition sample_style : VisualStyle :=
  mkStyle "light" "blue" "sans" "clean" "subtle" None None.

(** The request the home page posts. *)
Definition sample_request : CodeGenerationRequest :=
  mkRequest "Daily KPI dashboard for sales" "Daily KPI dashboard for sales"
            [] [] [] sample_style react None.

Definition sample_deployment : Deployment :=
  mkDeployment "pages" "subdomain" "local_storage" "inline".

Definition journal_template : TemplateDefinition :=
  mkTemplate "journal-app" "A journaling application" "productivity"
             "react" "simple"
             [("file_upload", true); ("export", true); ("data_storage", true)]
             "journal-app.js" None
             [("app_title", "{{jtbd_description}}")]
             "Build the journal UI" "Build the journal logic"
             (Some [mkIntegration "llm" None (Some ["openai"]) None])
             sample_deployment (mkConnections [] []).

Definition dashboard_template : TemplateDefinition :=
  mkTemplate "dashboard-app" "A dashboard" "analytics"
             "react" "medium"
             [("data_visualization", true); ("export", false)]
             "dashboard-app.js" None []
             "Build the dashboard UI" "Build the dashboard logic"
             None sample_deployment (mkConnections [] []).

(** A registry holding the two definitions above and a file that is not a
    definition. *)
Definition sample_fs : FileSystem :=
  mkFS "/srv/codr"
       (fun _ => Ok ["journal-app.yaml"; "README.md"; "dashboard-app.yaml"])
       (fun p => Ok p)
       (fun text =>
          if endsWith text "journal-app.yaml" then Ok journal_template
          else if endsWith text "dashboard-app.yaml" then Ok dashboard_template
          else Throw (Error "YAMLParseError")).

(** No definitions directory. *)
Definition missing_dir_fs : FileSystem :=
  mkFS "/srv/codr"
       (fun _ => Throw (Error "ENOENT: no such file or directory, scandir"))
       (fun _ => Throw (Error "ENOENT: no such file or directory, open"))
       (fun _ => Throw (Error "YAMLParseError")).

(** Requirements with every list filled. *)
Definition journal_requirements : UserRequirements :=
  mkRequirements "My journal" "track my journal entries"
                 ["upload"] ["doc"] ["openai"] "none" sample_style None.

(** The same job with the output and API lists left empty. *)
Definition sparse_requirements : UserRequirements :=
  mkRequirements "My journal" "track my journal entries"
                 ["upload"] [] [] "none" sample_style None.



(** The journal template with a package patch whose dependencies are an
    array. *)
Definition array_patch_template : TemplateDefinition :=
  mkTemplate "journal-app" "A journaling application" "productivity"
             "react" "simple"
             [("file_upload", true); ("export", true); ("data_storage", true)]
             "journal-app.js"
             (Some [("dependencies", JArr [JStr "lodash"])])
             [("app_title", "{{jtbd_description}}")]
             "Build the journal UI" "Build the journal logic"
             (Some [mkIntegration "llm" None (Some ["openai"]) None])
             sample_deployment (mkConnections [] []).

End Samples.

(* ===================================================================== *)
(** ** Objects used as maps                                              *)
(* ===================================================================== *)

Module Maps.

(** [m.set(k, v)], or [{ ...m, k: v }]: an existing key keeps its place
    and takes the new value, a new key comes last. *)
Fixpoint map_set {A} (k : string) (v : A) (m : list (string * A))
  : list (string * A) :=
  match m with
  | [] => [(k, v)]
  | (k', v') :: m' =>
      if String.eqb k k' then (k', v) :: m' else (k', v') :: map_set k v m'
  end.

(** [m.delete(k)] *)
Fixpoint map_delete {A} (k : string) (m : list (string * A))
  : list (string * A) :=
  match m with
  | [] => []
  | (k', v') :: m' =>
      if String.eqb k k' then map_delete k m' else (k', v') :: map_delete k m'
  end.

(** [{ ...a, ...b }] *)
Definition map_merge {A} (a b : list (string * A)) : list (string * A) :=
  fold_left (fun acc (kv : string * A) => map_set (fst kv) (snd kv) acc) b a.

End Maps.
Import Maps.

(* ===================================================================== *)
(** ** src/lib/llm.ts : the unified LLM caller                           *)
(* ===================================================================== *)

Module LLMGateway.
Import LLM.

(** The fields of [EnvReq] that [callLLM] reads. *)
Record EnvReq : Type := mkEnvReq {
  AI_GATEWAY : option string;
  OPENROUTER_API_KEY : option string;
  REPLICATE_API_TOKEN : option string;
  GOOGLE_AI_STUDIO_API_KEY : option string
}.

Record Request : Type := mkHttpRequest {
  rq_url : string;
  rq_headers : list (string * string);
  rq_body : JSON
}.

Record Response : Type := mkHttpResponse {
  res_ok : bool;
  res_status : nat;
  res_text : string
}.

(** The network and the URL encoder of the runtime. *)
Record Network : Type := mkNetwork {
  (** [fetch(url, { method: "POST", headers, body })] *)
  fetch : Request -> Result Response;
  (** [encodeURIComponent(s)] *)
  encodeURIComponent : string -> string
}.

(** A string that is neither missing nor empty. *)
Definition present (o : option string) : option string :=
  match o with
  | Some s => if String.eqb s EmptyString then None else Some s
  | None => None
  end.

(** [s.replace(/\/+$/, "")]: the string without its trailing slashes. *)
Fixpoint strip_trailing_slashes (s : string) : string :=
  match s with
  | EmptyString => EmptyString
  | String c s' =>
      let rest := strip_trailing_slashes s' in
      if Ascii.eqb c "/"%char && String.eqb rest EmptyString
      then EmptyString
      else String c rest
  end.

(** [cleanBase] *)
Definition cleanBase (base : option string) : Result string :=
  match present base with
  | None => Throw (Error "Missing AI_GATEWAY in Worker environment.")
  | Some b => Ok (strip_trailing_slashes b)
  end.

(** A call: its outcome and the requests it sent, in order. *)
Definition Sent (A : Type) : Type := (Result A * list Request)%type.

(** [res.json()] *)
Definition response_json (w : World) (res : Response) : Result JSON :=
  match JSON_parse w (res_text res) with
  | Some v => Ok v
  | None => Throw SyntaxError
  end.

(** [postJSON] *)
Definition postJSON (w : World) (net : Network) (url : string)
    (headers : list (string * string)) (body : JSON) : Sent JSON :=
  let rq :=
    mkHttpRequest url
      (map_merge [("content-type", "application/json")] headers) body in
  match fetch net rq with
  | Throw e => (Throw e, [rq])
  | Ok res =>
      if res_ok res then (response_json w res, [rq])
      else (Throw (Error (strcat ["LLM call failed: ";
                                  TemplateSelector.show_nat (res_status res);
                                  " "; res_text res])),
            [rq])
  end.

(** [a ?? b] *)
Definition nullish_or (a : option JSON) (b : JSON) : JSON :=
  match a with
  | None => b
  | Some JNull => b
  | Some v => v
  end.

Definition message (role text : string) : JSON :=
  JObj [("role", JStr role); ("content", JStr text)].

Definition chat_body (model system prompt : string) : JSON :=
  JObj [("model", JStr model);
        ("messages", JArr [message "system" system; message "user" prompt])].

Definition gemini_body (system prompt : string) : JSON :=
  JObj [("contents",
         JArr [JObj [("parts",
                      JArr [JObj [("text",
                                   JStr (strcat [system; CodeGenerator.nl;
                                                 CodeGenerator.nl; "User: ";
                                                 prompt]))]])]])].

(** [data?.choices?.[0]?.message?.content ?? ""] *)
Definition chat_answer (data : JSON) : JSON :=
  nullish_or
    (TemplateCustomizer.opt_prop
       (TemplateCustomizer.opt_prop
          (TemplateCustomizer.opt_first
             (TemplateCustomizer.opt_prop (Some data) "choices"))
          "message")
       "content")
    (JStr EmptyString).

(** [data?.content?.[0]?.text ?? ""] *)
Definition anthropic_answer (data : JSON) : JSON :=
  nullish_or
    (TemplateCustomizer.opt_prop
       (TemplateCustomizer.opt_first
          (TemplateCustomizer.opt_prop (Some data) "content"))
       "text")
    (JStr EmptyString).

(** [data?.candidates?.[0]?.content?.parts?.[0]?.text ?? ""] *)
Definition gemini_answer (data : JSON) : JSON :=
  nullish_or
    (TemplateCustomizer.opt_prop
       (TemplateCustomizer.opt_first
          (TemplateCustomizer.opt_prop
             (TemplateCustomizer.opt_prop
                (TemplateCustomizer.opt_first
                   (TemplateCustomizer.opt_prop (Some data) "candidates"))
                "content")
             "parts"))
       "text")
    (JStr EmptyString).

Definition then_answer (answer : JSON -> JSON) (s : Sent JSON) : Sent JSON :=
  match s with
  | (Ok data, sent) => (Ok (answer data), sent)
  | (Throw e, sent) => (Throw e, sent)
  end.

(** The default of the parameter [system]. *)
Definition default_system : string := "You are a helpful, concise AI agent.".

(** The request [callLLM] sends to Google AI Studio itself. *)
Definition studio_call (w : World) (net : Network) (key model : string)
    (body : JSON) : Sent JSON :=
  let rq :=
    mkHttpRequest
      (strcat ["https://generativelanguage.googleapis.com/v1beta/models/";
               encodeURIComponent net model; ":generateContent?key="; key])
      [("content-type", "application/json")] body in
  match fetch net rq with
  | Throw e => (Throw e, [rq])
  | Ok res =>
      if res_ok res then (response_json w res, [rq])
      else (Throw (Error (strcat ["Google AI Studio failed: ";
                                  TemplateSelector.show_nat (res_status res);
                                  " "; res_text res])),
            [rq])
  end.

(** [callLLM(env, prompt, choice, system)].  The base of the gateway is
    cleaned before the provider is looked at.  The six providers are all
    handled, so the final [throw] of the source is never reached. *)
Definition callLLM (w : World) (net : Network) (env : EnvReq)
    (prompt : string) (choice : LLMChoice) (system : string) : Sent JSON :=
  match cleanBase (AI_GATEWAY env) with
  | Throw e => (Throw e, [])
  | Ok base =>
      let model := model choice in
      match provider choice with
      | openai =>
          then_answer chat_answer
            (postJSON w net (strcat [base; "/openai"; "/v1/chat/completions"])
                      [] (chat_body model system prompt))
      | anthropic =>
          then_answer anthropic_answer
            (postJSON w net (strcat [base; "/anthropic"; "/v1/messages"])
                      [("anthropic-version", "2023-06-01")]
                      (JObj [("model", JStr model);
                             ("max_tokens", JNum (Num 1024));
                             ("system", JStr system);
                             ("messages", JArr [message "user" prompt])]))
      | google =>
          then_answer gemini_answer
            (postJSON w net
                      (strcat [base; "/google"; "/v1beta/models/";
                               encodeURIComponent net model;
                               ":generateContent"])
                      [] (gemini_body system prompt))
      | openrouter =>
          match present (OPENROUTER_API_KEY env) with
          | None => (Throw (Error "Missing OPENROUTER_API_KEY"), [])
          | Some key =>
              then_answer chat_answer
                (postJSON w net "https://openrouter.ai/api/v1/chat/completions"
                          [("Authorization", strcat ["Bearer "; key])]
                          (chat_body model system prompt))
          end
      | replicate =>
          match present (REPLICATE_API_TOKEN env) with
          | None => (Throw (Error "Missing REPLICATE_API_TOKEN"), [])
          | Some key =>
              then_answer chat_answer
                (postJSON w net "https://api.replicate.com/v1/chat/completions"
                          [("Authorization", strcat ["Bearer "; key])]
                          (chat_body model system prompt))
          end
      | googleai =>
          match present (GOOGLE_AI_STUDIO_API_KEY env) with
          | None => (Throw (Error "Missing GOOGLE_AI_STUDIO_API_KEY"), [])
          | Some key =>
              then_answer gemini_answer
                (studio_call w net key model (gemini_body system prompt))
          end
      end
  end.

End LLMGateway.

(* ===================================================================== *)
(** ** src/do/AgentStateDO.ts : the session object                       *)
(* ===================================================================== *)

Module AgentStateDO.

(** The object touches one key of its storage, ["session"]: [None] is a
    storage without that key.  The operations of the storage are taken to
    succeed.  A session is the JSON value the storage holds; the patch of
    a request is whatever JSON value its body parses to. *)
Definition Storage : Type := option JSON.

Fixpoint index_from {A} (i : nat) (l : list A) : list (string * A) :=
  match l with
  | [] => []
  | x :: l' => (TemplateSelector.show_nat i, x) :: index_from (S i) l'
  end.

Fixpoint code_units (s : string) : list JSON :=
  match s with
  | EmptyString => []
  | String c s' => JStr (String c EmptyString) :: code_units s'
  end.

(** The properties [...v] copies, in order: those of an object, the
    elements of an array and the characters of a string under their
    indices, nothing for any other value. *)
Definition spread (v : JSON) : list (string * JSON) :=
  match v with
  | JObj fields => fields
  | JArr items => index_from 0 items
  | JStr s => index_from 0 (code_units s)
  | _ => []
  end.

(** [{ ...v }].  Objects are read by key below: the place of a key that
    is an array index is not modelled. *)
Definition own_props (v : JSON) : list (string * JSON) :=
  map_merge [] (spread v).

(** [getSession] *)
Definition getSession (st : Storage) : JSON :=
  match st with
  | Some v => v
  | None => JNull
  end.

Definition timestamp (now : Z) : JSON := JNum (Num (inject_Z now)).

(** The session [updateSession] starts from when none is stored. *)
Definition default_session (now : Z) : JSON :=
  JObj [("agentId", JStr EmptyString);
        ("userId", JStr EmptyString);
        ("step", JStr "functional");
        ("answers", JObj []);
        ("updatedAt", timestamp now)].

(** [updateSession(patch)], at the time [now] of [Date.now()]. *)
Definition updateSession (now : Z) (patch : JSON) (st : Storage)
  : Result JSON * Storage :=
  let current :=
    match st with
    | None => default_session now
    | Some JNull => default_session now
    | Some v => v
    end in
  match get_prop current "answers" with
  | Throw e => (Throw e, st)
  | Ok current_answers =>
      match get_prop patch "answers" with
      | Throw e => (Throw e, st)
      | Ok patch_answers =>
          let answers :=
            JObj (map_merge (own_props (or_else current_answers (JObj [])))
                            (spread (or_else patch_answers (JObj [])))) in
          let next :=
            JObj (map_set "updatedAt" (timestamp now)
                    (map_set "answers" answers
                       (map_merge (own_props current) (spread patch)))) in
          (Ok next, Some next)
      end
  end.

(** [clearSession] *)
Definition clearSession (st : Storage) : Storage := None.

(** A request as [fetch] reads it: the method, the path of the URL and
    the value [request.json()] gives, [None] when it rejects. *)
Record Request : Type := mkDORequest {
  rq_method : string;
  rq_pathname : string;
  rq_json : option JSON
}.

(** The body of a response: the value given to [JSON.stringify], or a
    plain text. *)
Inductive Body : Type :=
| JsonBody (v : JSON)
| TextBody (text : string).

Record Response : Type := mkDOResponse {
  status : nat;
  body : Body
}.

(** [fetch(request)] *)
Definition fetch (now : Z) (request : Request) (st : Storage)
  : Result Response * Storage :=
  if String.eqb (rq_method request) "GET"
     && String.eqb (rq_pathname request) "/session" then
    (Ok (mkDOResponse 200 (JsonBody (getSession st))), st)
  else if String.eqb (rq_method request) "PUT"
          && String.eqb (rq_pathname request) "/session" then
    let patch :=
      match rq_json request with Some p => p | None => JObj [] end in
    match updateSession now patch st with
    | (Ok next, st') => (Ok (mkDOResponse 200 (JsonBody next)), st')
    | (Throw e, st') => (Throw e, st')
    end
  else if String.eqb (rq_method request) "DELETE"
          && String.eqb (rq_pathname request) "/session" then
    (Ok (mkDOResponse 200 (JsonBody (JObj [("ok", JBool true)]))),
     clearSession st)
  else (Ok (mkDOResponse 404 (TextBody "Not found")), st).

(** The storage after a sequence of requests, each with its time; a
    request whose handler throws leaves the storage as it was. *)
Definition after_requests (st : Storage) (requests : list (Z * Request))
  : Storage :=
  fold_left (fun st' r => snd (fetch (fst r) (snd r) st')) requests st.

End AgentStateDO.

(* ===================================================================== *)
(** ** src/services/sandbox.ts : the sandbox service                     *)
(* ===================================================================== *)

Module Sandbox.

Record SandboxConfig : Type := mkSandboxConfig {
  sessionId : string;
  agentId : string;
  instanceType : option string;
  maxInstances : option JSNum
}.

Record ContainerInstance : Type := mkContainer {
  containerId : string;
  container_type : string
}.

(** The service: its configuration and the map of active containers. *)
Record Service : Type := mkService {
  config : SandboxConfig;
  activeContainers : list (string * ContainerInstance)
}.

(** [config.maxInstances || 10] *)
Definition limit (c : SandboxConfig) : JSNum :=
  match maxInstances c with
  | Some n => if truthy (JNum n) then n else Num 10
  | None => Num 10
  end.

(** [new SandboxService(config)] *)
Definition createSandboxService (c : SandboxConfig) : Service :=
  mkService c [].

Record PreviewResult : Type := mkPreview {
  pv_success : bool;
  pv_previewUrl : option string;
  pv_containerId : option string;
  pv_error : option string
}.

Record ExecutionResult : Type := mkExecution {
  ex_ok : bool;
  ex_output : option string;
  ex_error : option string;
  ex_exitCode : option Z
}.

Record DeploymentResult : Type := mkDeploymentResult {
  dp_success : bool;
  dp_deployedUrl : option string;
  dp_deploymentId : option string;
  dp_error : option string
}.

Inductive Language : Type := javascript | typescript | python.

Definition getActiveContainerCount (s : Service) : nat :=
  List.length (activeContainers s).

(** [createPreview(files)], at the time [now] of [Date.now()].  The
    container is simulated: none of its methods can throw. *)
Definition createPreview (s : Service)
    (files : list (string * string)) (now : nat) : PreviewResult * Service :=
  if num_ge (of_nat (List.length (activeContainers s))) (limit (config s)) then
    (mkPreview false None None (Some "Maximum sandbox instances reached"), s)
  else
    let id :=
      strcat ["preview-"; agentId (config s); "-";
              TemplateSelector.show_nat now] in
    let container :=
      mkContainer id
        (match instanceType (config s) with
         | Some t => if String.eqb t EmptyString then "standard-3" else t
         | None => "standard-3"
         end) in
    let previewUrl := strcat ["https://preview-"; id; ".codragents.dev"] in
    (mkPreview true (Some previewUrl) (Some id) None,
     mkService (config s) (map_set id container (activeContainers s))).

(** [executeCode(code, language)]: the run is simulated. *)
Definition executeCode (s : Service) (code : string) (language : Language)
    (now : nat) : ExecutionResult * Service :=
  let id :=
    strcat ["exec-"; agentId (config s); "-"; TemplateSelector.show_nat now] in
  (mkExecution true (Some "Code executed successfully") None (Some 0%Z),
   mkService (config s) (map_delete id (activeContainers s))).

(** [deployToWorkers(files)]: build and deployment are simulated. *)
Definition deployToWorkers (s : Service) (files : list (string * string))
    (now : nat) : DeploymentResult * Service :=
  let deploymentId :=
    strcat ["deploy-"; TemplateSelector.show_nat now; "-"; agentId (config s)] in
  let id := strcat ["build-"; deploymentId] in
  (mkDeploymentResult true
     (Some (strcat ["https://"; deploymentId; ".workers.dev"]))
     (Some deploymentId) None,
   mkService (config s) (map_delete id (activeContainers s))).

(** [cleanup(containerId)] *)
Definition cleanup (s : Service) (id : string) : Service :=
  mkService (config s) (map_delete id (activeContainers s)).

(** [cleanupAll()] *)
Definition cleanupAll (s : Service) : Service := mkService (config s) [].

(** A call of a method that changes the service. *)
Inductive Call : Type :=
| CallPreview (files : list (string * string)) (now : nat)
| CallExecute (code : string) (language : Language) (now : nat)
| CallDeploy (files : list (string * string)) (now : nat)
| CallCleanup (id : string)
| CallCleanupAll.

Definition after_call (s : Service) (c : Call) : Service :=
  match c with
  | CallPreview files now => snd (createPreview s files now)
  | CallExecute code language now => snd (executeCode s code language now)
  | CallDeploy files now => snd (deployToWorkers s files now)
  | CallCleanup id => cleanup s id
  | CallCleanupAll => cleanupAll s
  end.

Definition after_calls (s : Service) (calls : list Call) : Service :=
  fold_left after_call calls s.

End Sandbox.

(* ===================================================================== *)
(** ** More notions and sample inputs                                    *)
(* ===================================================================== *)

Module Notions.
Import LLM CodeGenerator TemplateSelector.

(** The asset writes on a trace: key and content type. *)
Fixpoint asset_writes (t : list Event) : list (string * string) :=
  match t with
  | [] => []
  | EvPut key _ ctype _ :: t' => (key, ctype) :: asset_writes t'
  | _ :: t' => asset_writes t'
  end.

(** The world [w] with another LLM behind [callLLM]. *)
Definition with_llm (w : World)
    (answer : string -> LLMChoice -> Result string) : World :=
  mkWorld (JSON_parse w) (JSON_stringify w) (ToString w) (Number_toFixed w)
          (replace_regex w) (replace_regex_with w) answer
          (fetchGoogleUI w) (progress_fetch w) (AGENT_ASSETS w)
          (fresh_build_id w) (now_iso w).

(** The world [w] with another [JSON.parse]. *)
Definition with_parse (w : World) (parse : string -> option JSON) : World :=
  mkWorld parse (JSON_stringify w) (ToString w) (Number_toFixed w)
          (replace_regex w) (replace_regex_with w) (callLLM w)
          (fetchGoogleUI w) (progress_fetch w) (AGENT_ASSETS w)
          (fresh_build_id w) (now_iso w).

(** An answer that is an array of two strings. *)
Definition text_strings : string :=
  strcat ["["; quoted "import a"; ","; quoted "import b"; "]"].

Definition strings_world : World :=
  with_parse Samples.quiet_world
    (fun s => if String.eqb s text_strings
              then Some (JArr [JStr "import a"; JStr "import b"])
              else Samples.sample_parse s).

(** A registry with one sound definition and one that does not parse. *)
Definition broken_fs : FileSystem :=
  mkFS "/srv/codr"
       (fun _ => Ok ["journal-app.yaml"; "broken.yaml"])
       (fun p => Ok p)
       (fun text =>
          if endsWith text "journal-app.yaml" then Ok Samples.journal_template
          else Throw (Error "YAMLParseError")).

(** [n] slashes. *)
Fixpoint slashes (n : nat) : string :=
  match n with
  | O => EmptyString
  | S n' => String "/"%char (slashes n')
  end.

(** An environment with a gateway whose URL ends in slashes, and no key. *)
Definition gateway_env : LLMGateway.EnvReq :=
  LLMGateway.mkEnvReq (Some "https://gateway.example/v1/acct/gw//")
                      None None None.

(** An environment without gateway but with every key. *)
Definition keys_only_env : LLMGateway.EnvReq :=
  LLMGateway.mkEnvReq None (Some "or-key") (Some "rep-key") (Some "gs-key").

(** The requests of the session object. *)
Definition get_request : AgentStateDO.Request :=
  AgentStateDO.mkDORequest "GET" "/session" None.

Definition put_request (body : option JSON) : AgentStateDO.Request :=
  AgentStateDO.mkDORequest "PUT" "/session" body.

Definition delete_request : AgentStateDO.Request :=
  AgentStateDO.mkDORequest "DELETE" "/session" None.

(** A stored session as [updateSession] writes it: an object with
    distinct keys whose answers are an object with distinct keys. *)
Definition sound_storage (st : AgentStateDO.Storage) : Prop :=
  match st with
  | None => True
  | Some (JObj fields) =>
      NoDup (map fst fields)
      /\ exists answers,
           assoc "answers" fields = Some (JObj answers)
           /\ NoDup (map fst answers)
  | Some _ => False
  end.

(** [b] where it is defined, [a] elsewhere. *)
Definition overridden {A} (a b : option A) : option A :=
  match b with
  | Some v => Some v
  | None => a
  end.

(** A patch that names the agent and answers one question. *)
Definition sample_patch : list (string * JSON) :=
  [("agentId", JStr "agent-7");
   ("updatedAt", JNum (Num 1));
   ("answers", JObj [("goal", JStr "journal")])].

(** A sandbox for two containers. *)
Definition small_sandbox : Sandbox.SandboxConfig :=
  Sandbox.mkSandboxConfig "session-1" "agent-7" None (Some (Num 2)).

Definition styling_phase : Phase :=
  mkPhase "styling" "Add CSS, themes, and visual design".

(** The four factors of [assessJTBDComplexity]. *)
Definition complexity_factors (r : UserRequirements) : list bool :=
  [ (2 <? List.length (ur_input_sources r))%nat;
    (2 <? List.length (ur_outputs r))%nat;
    (1 <? List.length (ur_api_keys_required r))%nat;
    (100 <? String.length (ur_jtbds r))%nat ].

(** The two updates of [customizeTemplate]. *)
Definition analyzing_update : ProgressUpdate :=
  mkProgress "customizing" (Num 10) "analyzing_requirements" None.

Definition finalizing_update : ProgressUpdate :=
  mkProgress "customizing" (Num 90) "finalizing_app" None.

(** A network that answers every request with the same response. *)
Definition constant_network (res : LLMGateway.Response) : LLMGateway.Network :=
  LLMGateway.mkNetwork (fun _ => Ok res) (fun s => s).

End Notions.

(* ===================================================================== *)
(** * Properties                                                         *)
(* ===================================================================== *)

Import LLM CodeGenerator TemplateSelector Observations.

(** ** Strings *)




(** ** The model picker *)







(** ** The response parser *)

Section ResponseParser.

Variable w : World.

Lemma truthy_opt_own_prop f k :
  truthy_opt (own_prop f k) = true ->
  exists fields v, f = JObj fields /\ assoc k fields = Some v /\ truthy v = true.
Proof.
  destruct f as [| | | | |fields]; simpl; try discriminate.
  destruct (assoc k fields) as [v|] eqn:E; simpl; [|discriminate].
  intros T. exists fields, v. auto.
Qed.

(** An entry whose [path] and [content] are truthy is taken as it is. *)
Lemma code_entry_truthy phase f :
  truthy_opt (own_prop f "path") = true ->
  truthy_opt (own_prop f "content") = true ->
  code_entry phase f = Ok (entry_file phase f).
Proof.
  intros Hp Hc.
  destruct (truthy_opt_own_prop _ _ Hp) as (fields & p & -> & Ep & Tp).
  destruct (truthy_opt_own_prop _ _ Hc) as (fields' & c & Ef & Ec & Tc).
  injection Ef as <-.
  unfold code_entry, entry_file. simpl. rewrite Ep, Ec. simpl.
  rewrite Tp, Tc. reflexivity.
Qed.

Lemma rmap_code_entry_truthy phase items :
  Forall (fun f => truthy_opt (own_prop f "path") = true
                   /\ truthy_opt (own_prop f "content") = true) items ->
  rmap (code_entry phase) items = Ok (map (entry_file phase) items).
Proof.
  induction 1 as [|f items [Hp Hc] _ IH]; [reflexivity|].
  simpl. rewrite (code_entry_truthy phase f Hp Hc). simpl.
  rewrite IH. reflexivity.
Qed.

(** Whatever the entries are, a file the map builds carries the phase. *)
Lemma code_entry_phase phase f g :
  code_entry phase f = Ok g -> phase = Types.phase g.
Proof.
  unfold code_entry.
  destruct (get_prop f "path") as [p|]; simpl; [|discriminate].
  destruct (get_prop f "content") as [c|]; simpl; [|discriminate].
  intros [= <-]. reflexivity.
Qed.

Lemma rmap_code_entry_phase phase items fs :
  rmap (code_entry phase) items = Ok fs ->
  Forall (fun g => Types.phase g = phase) fs.
Proof.
  revert fs. induction items as [|f items IH]; intros fs; simpl.
  - intros [= <-]. constructor.
  - destruct (code_entry phase f) as [g|] eqn:E; simpl; [|discriminate].
    destruct (rmap (code_entry phase) items) as [gs|]; simpl; [|discriminate].
    intros [= <-]. constructor; [symmetry; eapply code_entry_phase, E|].
    apply IH. reflexivity.
Qed.

Lemma parseCodeResponse_phase response phase :
  Forall (fun g => Types.phase g = phase) (parseCodeResponse w response phase).
Proof.
  unfold parseCodeResponse.
  destruct (JSON_parse w response) as [[| | | |items|]|];
    try (repeat constructor).
  destruct (rmap (code_entry phase) items) as [fs|] eqn:E.
  - eapply rmap_code_entry_phase, E.
  - repeat constructor.
Qed.

(** An array with a [null] entry makes the map throw inside the [try]:
    the parser falls back as well. *)
Lemma parseCodeResponse_null_entry response phase items1 items2 :
  JSON_parse w response = Some (JArr (items1 ++ JNull :: items2)) ->
  Forall (fun f => f <> JNull) items1 ->
  parseCodeResponse w response phase = [fallback_file response phase].
Proof.
  intros E Hnn. unfold parseCodeResponse. rewrite E.
  assert (T : exists e, rmap (code_entry phase) (items1 ++ JNull :: items2)
                        = Throw e).
  { clear E. induction Hnn as [|f items1 Hf _ [e IH]].
    - simpl. eauto.
    - simpl. destruct (code_entry phase f); simpl; [|eauto].
      rewrite IH. simpl. eauto. }
  destruct T as [e ->]. reflexivity.
Qed.

(** C6, as amended.  When the response parses to an array whose entries
    are objects with a truthy [path] and a truthy [content] (non-empty
    strings in particular), [parseCodeResponse] returns one file per
    entry, in order, with exactly the entry's [path] and [content] and the
    requested phase as tag. *)
Theorem parseCodeResponse_roundtrip_truthy
    (response phase : string) (items : list JSON) :
  JSON_parse w response = Some (JArr items) ->
  Forall (fun f => truthy_opt (own_prop f "path") = true
                   /\ truthy_opt (own_prop f "content") = true) items ->
  parseCodeResponse w response phase = map (entry_file phase) items
  /\ List.length (parseCodeResponse w response phase) = List.length items
  /\ Forall (fun g => Types.phase g = phase) (parseCodeResponse w response phase).
Proof.
  intros E H.
  assert (R : parseCodeResponse w response phase = map (entry_file phase) items).
  { unfold parseCodeResponse. rewrite E.
    rewrite (rmap_code_entry_truthy phase items H). reflexivity. }
  split; [exact R|]. split.
  - rewrite R. apply length_map.
  - apply parseCodeResponse_phase.
Qed.

(** C7.  The parsers are total functions: no input makes them raise.  In
    the planning phase the result is exactly one file, named
    "project-structure.json" when the response parses as JSON and
    "planning-notes.txt", holding the raw text, when it does not.  In the
    other phases a response that is not JSON, or that is JSON but not an
    array, gives exactly one file whose content is the raw text. *)
Theorem response_parser_fallbacks (response phase : string) :
  (exists f,
      parsePlanningResponse w response phase = [f]
      /\ Types.phase f = phase
      /\ match JSON_parse w response with
         | Some data =>
             path f = Some (JStr "project-structure.json")
             /\ content f = Some (JStr (JSON_stringify w data 2))
         | None =>
             path f = Some (JStr "planning-notes.txt")
             /\ content f = Some (JStr response)
         end)
  /\ (is_array (JSON_parse w response) = false ->
      exists f,
        parseCodeResponse w response phase = [f]
        /\ content f = Some (JStr response)
        /\ Types.phase f = phase).
Proof.
  split.
  - unfold parsePlanningResponse.
    destruct (JSON_parse w response) as [data|]; eexists; repeat split.
  - intros NA. exists (fallback_file response phase).
    unfold parseCodeResponse.
    destruct (JSON_parse w response) as [[| | | |items|]|];
      try discriminate; repeat split.
Qed.

End ResponseParser.

Lemma parseCodeResponse_roundtrip_truthy_witness :
  JSON_parse Samples.quiet_world Samples.text_files
  = Some Samples.value_files
  /\ parseCodeResponse Samples.quiet_world Samples.text_files "core"
     = [mkFile (Some (JStr "src/App.tsx")) (Some (JStr "export default App"))
               "core"].
Proof.
  split; [reflexivity|].
  apply (parseCodeResponse_roundtrip_truthy Samples.quiet_world
           Samples.text_files "core"
           [JObj [("path", JStr "src/App.tsx");
                  ("content", JStr "export default App")]]).
  - reflexivity.
  - repeat constructor.
Defined.

(** C6, as stated, fails on well-formed arrays of [{path, content}]
    objects.  An entry that is an empty file (its [content] is the empty
    string) does not come back with that content: the parser stores the
    whole entry as content.  An entry whose [path] is the empty string
    does not come back with that path: the parser puts a default name in
    its place. *)
Lemma parseCodeResponse_roundtrip_counterexample :
  (JSON_parse Samples.quiet_world Samples.text_empty_content
   = Some (JArr [JObj [("path", JStr ".gitkeep");
                       ("content", JStr EmptyString)]])
   /\ Forall (fun f => is_file_object f = true)
             [JObj [("path", JStr ".gitkeep"); ("content", JStr EmptyString)]]
   /\ "core" <> "planning"
   /\ parseCodeResponse Samples.quiet_world Samples.text_empty_content "core"
      = [mkFile (Some (JStr ".gitkeep"))
                (Some (JObj [("path", JStr ".gitkeep");
                             ("content", JStr EmptyString)]))
                "core"]
   /\ parseCodeResponse Samples.quiet_world Samples.text_empty_content "core"
      <> map (entry_file "core")
             [JObj [("path", JStr ".gitkeep"); ("content", JStr EmptyString)]])
  /\ (JSON_parse Samples.quiet_world Samples.text_empty_path
      = Some (JArr [JObj [("path", JStr EmptyString); ("content", JStr "x")]])
      /\ Forall (fun f => is_file_object f = true)
                [JObj [("path", JStr EmptyString); ("content", JStr "x")]]
      /\ parseCodeResponse Samples.quiet_world Samples.text_empty_path "core"
         = [mkFile (Some (JStr "phase-core.txt")) (Some (JStr "x")) "core"]
      /\ parseCodeResponse Samples.quiet_world Samples.text_empty_path "core"
         <> map (entry_file "core")
                [JObj [("path", JStr EmptyString); ("content", JStr "x")]]).
Proof.
  split.
  - split; [reflexivity|]. split; [repeat constructor|].
    split; [discriminate|]. split; [reflexivity|]. discriminate.
  - split; [reflexivity|]. split; [repeat constructor|].
    split; [reflexivity|]. discriminate.
Qed.

Lemma response_parser_fallbacks_witness :
  is_array (JSON_parse Samples.quiet_world Samples.text_prose) = false
  /\ exists f,
       parseCodeResponse Samples.quiet_world Samples.text_prose "core" = [f]
       /\ content f = Some (JStr Samples.text_prose)
       /\ phase f = "core".
Proof.
  split; [reflexivity|].
  apply (response_parser_fallbacks Samples.quiet_world Samples.text_prose
                                   "core").
  reflexivity.
Defined.

(** ** Asynchronous computations and their traces *)

Lemma bind_ok {A B} (m : M A) (k : A -> M B) a t :
  m = (Ok a, t) -> bind m k = (outcome (k a), t ++ trace (k a)).
Proof. intros ->. unfold bind, outcome, trace. destruct (k a). reflexivity. Qed.

Lemma bind_throw {A B} (m : M A) (k : A -> M B) e t :
  m = (Throw e, t) -> bind m k = (Throw e, t).
Proof. intros ->. reflexivity. Qed.

Lemma M_eta {A} (m : M A) : m = (outcome m, trace m).
Proof. destruct m. reflexivity. Qed.

Lemma posted_app t1 t2 : posted (t1 ++ t2) = posted t1 ++ posted t2.
Proof.
  induction t1 as [|ev t1 IH]; [reflexivity|].
  destruct ev; simpl; rewrite IH; reflexivity.
Qed.

Lemma for_of_cons {S A} (body : S -> A -> M S) x l st st' t :
  body st x = (Ok st', t) ->
  for_of body (x :: l) st
  = (outcome (for_of body l st'), t ++ trace (for_of body l st')).
Proof. intros E. simpl. apply bind_ok, E. Qed.

(** ** One phase *)

Section Orchestrator.

Variable w : World.
Variable request : CodeGenerationRequest.

(** [generatePhase] makes exactly one remote call. *)
Lemma generatePhase_trace ph prev :
  trace (generatePhase w request ph prev) = [llm_call w request ph prev].
Proof.
  unfold generatePhase, llm_call, call_llm, generateUIWithGoogle, call.
  destruct (String.eqb ph "planning").
  - destruct (callLLM w _ _); reflexivity.
  - destruct (includes ph "ui" || String.eqb ph "styling").
    + destruct (fetchGoogleUI w _ _) as [text|]; [|reflexivity].
      cbn. destruct (JSON_parse w text); reflexivity.
    + destruct (callLLM w _ _); reflexivity.
Qed.

(** A remote call that throws makes [generatePhase] throw. *)
Lemma generatePhase_call_threw ph prev :
  call_threw (llm_call w request ph prev) = true ->
  exists e, outcome (generatePhase w request ph prev) = Throw e.
Proof.
  unfold generatePhase, llm_call, call_llm, generateUIWithGoogle, call.
  destruct (String.eqb ph "planning").
  - destruct (callLLM w _ _); [discriminate|]. cbn. eauto.
  - destruct (includes ph "ui" || String.eqb ph "styling").
    + destruct (fetchGoogleUI w _ _); [discriminate|]. cbn. eauto.
    + destruct (callLLM w _ _); [discriminate|]. cbn. eauto.
Qed.

Lemma ui_files_phase v ph fs :
  ui_files v ph = Ok fs -> Forall (fun f => phase f = ph) fs.
Proof.
  unfold ui_files. destruct (get_prop v "files") as [[[| | | |items|]|]|];
    simpl; try discriminate.
  intros [= <-]. apply Forall_forall. intros f Hin.
  apply in_map_iff in Hin. destruct Hin as (x & <- & _). reflexivity.
Qed.

(** Every file a phase produces is tagged with that phase. *)
Lemma generatePhase_tags ph prev fs :
  outcome (generatePhase w request ph prev) = Ok fs ->
  Forall (fun f => phase f = ph) fs.
Proof.
  unfold generatePhase, call_llm, generateUIWithGoogle, call.
  destruct (String.eqb ph "planning").
  - destruct (callLLM w _ _) as [text|]; cbn; [|discriminate].
    intros [= <-]. unfold parsePlanningResponse.
    destruct (JSON_parse w text); repeat constructor.
  - destruct (includes ph "ui" || String.eqb ph "styling").
    + destruct (fetchGoogleUI w _ _) as [text|]; cbn; [|discriminate].
      destruct (JSON_parse w text); cbn.
      * apply ui_files_phase.
      * intros [= <-]. constructor.
    + destruct (callLLM w _ _) as [text|]; cbn; [|discriminate].
      intros [= <-]. apply parseCodeResponse_phase.
Qed.

(** The [try] block: what it sends, and what it leaves. *)
Lemma phase_body_trace st ph :
  trace (phase_body w request st ph)
  = EvProgress (generating_update ph st)
               (progress_fetch w (generating_update ph st))
    :: match progress_fetch w (generating_update ph st) with
       | Ok _ => [llm_call w request (phase_name ph) (allFiles st)]
       | Throw _ => []
       end.
Proof.
  unfold phase_body, post_progress, call.
  destruct (progress_fetch w (generating_update ph st)) as [u|e];
    [|reflexivity].
  erewrite bind_ok by reflexivity. cbn [trace snd app].
  f_equal.
  rewrite (M_eta (generatePhase w request (phase_name ph) (allFiles st))).
  rewrite generatePhase_trace.
  destruct (outcome (generatePhase w request (phase_name ph) (allFiles st)));
    reflexivity.
Qed.

Lemma phase_body_ok st ph st' :
  outcome (phase_body w request st ph) = Ok st' ->
  exists fs,
    outcome (generatePhase w request (phase_name ph) (allFiles st)) = Ok fs
    /\ st' = mkLoop (allFiles st ++ fs) (S (currentPhase st)).
Proof.
  unfold phase_body, post_progress, call.
  destruct (progress_fetch w (generating_update ph st)) as [u|e];
    [|discriminate].
  erewrite bind_ok by reflexivity. cbn [outcome fst].
  rewrite (M_eta (generatePhase w request (phase_name ph) (allFiles st))).
  destruct (outcome (generatePhase w request (phase_name ph) (allFiles st)))
    as [fs|e]; cbn; [|discriminate].
  intros [= <-]. eauto.
Qed.

Lemma phase_body_call_threw st ph :
  call_threw (llm_call w request (phase_name ph) (allFiles st)) = true ->
  exists e, outcome (phase_body w request st ph) = Throw e.
Proof.
  intros T. destruct (generatePhase_call_threw _ _ T) as [e E].
  unfold phase_body, post_progress, call.
  destruct (progress_fetch w (generating_update ph st)) as [u|e'];
    [|cbn; eauto].
  erewrite bind_ok by reflexivity. cbn [outcome fst].
  rewrite (M_eta (generatePhase w request (phase_name ph) (allFiles st))).
  rewrite E. cbn. eauto.
Qed.

(** An iteration never throws: it ends in [next_state]. *)
Lemma phase_iteration_eq st ph :
  phase_iteration w request st ph
  = (Ok (next_state w request st ph), trace (phase_body w request st ph)).
Proof.
  unfold phase_iteration, next_state, try_catch, outcome, trace.
  destruct (phase_body w request st ph) as [[st'|e] t]; cbn; [reflexivity|].
  rewrite app_nil_r. reflexivity.
Qed.

(** ** The loop over the phases *)

Lemma run_phases_nil st : run_phases w request [] st = (Ok st, []).
Proof. reflexivity. Qed.

Lemma run_phases_cons ph l st :
  run_phases w request (ph :: l) st
  = (outcome (run_phases w request l (next_state w request st ph)),
     trace (phase_body w request st ph)
     ++ trace (run_phases w request l (next_state w request st ph))).
Proof.
  unfold run_phases. apply for_of_cons, phase_iteration_eq.
Qed.

(** The loop never throws. *)
Lemma run_phases_outcome l st :
  outcome (run_phases w request l st) = Ok (state_after w request l st).
Proof.
  revert st. induction l as [|ph l IH]; intros st; [reflexivity|].
  rewrite run_phases_cons. cbn [outcome fst]. rewrite IH. reflexivity.
Qed.

Lemma state_after_app l1 l2 st :
  state_after w request (l1 ++ l2) st
  = state_after w request l2 (state_after w request l1 st).
Proof. unfold state_after. apply fold_left_app. Qed.

Lemma run_phases_trace_app l1 l2 st :
  trace (run_phases w request (l1 ++ l2) st)
  = trace (run_phases w request l1 st)
    ++ trace (run_phases w request l2 (state_after w request l1 st)).
Proof.
  revert st. induction l1 as [|ph l1 IH]; intros st; [reflexivity|].
  simpl app. rewrite !run_phases_cons. cbn [trace snd].
  rewrite IH, app_assoc. reflexivity.
Qed.

End Orchestrator.

Lemma outcome_bind {A B} (m : M A) (k : A -> M B) :
  outcome (bind m k)
  = match outcome m with Ok a => outcome (k a) | Throw e => Throw e end.
Proof.
  destruct m as [[a|e] t]; [|reflexivity].
  rewrite (bind_ok _ k a t eq_refl). reflexivity.
Qed.

Lemma trace_bind {A B} (m : M A) (k : A -> M B) :
  trace (bind m k)
  = trace m ++ match outcome m with Ok a => trace (k a) | Throw _ => [] end.
Proof.
  destruct m as [[a|e] t].
  - rewrite (bind_ok _ k a t eq_refl). reflexivity.
  - cbn. rewrite app_nil_r. reflexivity.
Qed.

(** ** Build and deployment *)

Section Deployment.

Variable w : World.

(** The simulated build always succeeds and yields three assets. *)
Lemma buildApp_succeeds (r : BuildRequest) :
  success (buildApp w r) = true
  /\ exists a1 a2 a3, assets (buildApp w r) = Some [a1; a2; a3].
Proof. split; [reflexivity|]. unfold buildApp. cbn. eauto. Qed.

Lemma put_asset_posted agentId a :
  posted (trace (put_asset w agentId a)) = [].
Proof.
  unfold put_asset. destruct (AGENT_ASSETS w); reflexivity.
Qed.

Lemma for_each_put_posted agentId l :
  posted (trace (for_each (put_asset w agentId) l)) = [].
Proof.
  induction l as [|a l IH]; [reflexivity|].
  cbn [for_each]. rewrite trace_bind, posted_app, put_asset_posted.
  destruct (outcome (put_asset w agentId a)); [exact IH|reflexivity].
Qed.

Lemma for_each_put_accepts agentId l :
  artifact_store_accepts w ->
  outcome (for_each (put_asset w agentId) l) = Ok tt.
Proof.
  intros (put & E & Hput). induction l as [|a l IH]; [reflexivity|].
  cbn [for_each]. rewrite outcome_bind.
  unfold put_asset at 1. rewrite E. unfold call. cbn [outcome fst].
  rewrite Hput. exact IH.
Qed.

(** Deployment sends nothing to the progress store. *)
Lemma createPreviewAndDeploy_posted fs br request agentId :
  posted (trace (createPreviewAndDeploy w fs br request agentId)) = [].
Proof.
  unfold createPreviewAndDeploy. rewrite trace_bind, posted_app.
  assert (P : posted (trace (match success br, assets br with
                             | true, Some stored =>
                                 for_each (put_asset w agentId) stored
                             | _, _ => ret tt
                             end)) = []).
  { destruct (success br); [|reflexivity].
    destruct (assets br); [apply for_each_put_posted|reflexivity]. }
  rewrite P.
  match goal with |- context [outcome ?m] => destruct (outcome m) end;
    reflexivity.
Qed.

(** When deployment returns, it returns the files it was given. *)
Lemma createPreviewAndDeploy_result fs br request agentId r :
  outcome (createPreviewAndDeploy w fs br request agentId) = Ok r ->
  r = mkResult fs (Some (strcat ["https://"; agentId; ".yourdomain.com"]))
               (Some agentId) (Some br).
Proof.
  unfold createPreviewAndDeploy. rewrite outcome_bind.
  match goal with |- context [outcome ?m] => destruct (outcome m) end;
    cbn; [|discriminate].
  intros [= <-]. reflexivity.
Qed.

Lemma createPreviewAndDeploy_accepts fs br request agentId :
  artifact_store_accepts w ->
  outcome (createPreviewAndDeploy w fs br request agentId)
  = Ok (mkResult fs (Some (strcat ["https://"; agentId; ".yourdomain.com"]))
                 (Some agentId) (Some br)).
Proof.
  intros H. unfold createPreviewAndDeploy. rewrite outcome_bind.
  assert (P : outcome (match success br, assets br with
                       | true, Some stored =>
                           for_each (put_asset w agentId) stored
                       | _, _ => ret tt
                       end) = Ok tt).
  { destruct (success br); [|reflexivity].
    destruct (assets br); [apply for_each_put_accepts, H|reflexivity]. }
  rewrite P. reflexivity.
Qed.

End Deployment.

(** ** The whole run *)

Section Run.

Variable w : World.
Variable request : CodeGenerationRequest.
Variable agentId : string.

Lemma generateApp_split :
  generateApp w request agentId
  = (outcome (after_phases w request agentId (state_after w request phases initial)),
     trace (run_phases w request phases initial)
     ++ trace (after_phases w request agentId (state_after w request phases initial))).
Proof.
  unfold generateApp. apply bind_ok.
  rewrite (M_eta (run_phases w request phases (mkLoop [] 0))).
  rewrite run_phases_outcome. reflexivity.
Qed.


Lemma finish_outcome st result :
  outcome (after_phases w request agentId st) = Ok result -> files result = allFiles st.
Proof.
  unfold after_phases, buildGeneratedApp. rewrite outcome_bind.
  cbn [ret outcome fst]. rewrite outcome_bind.
  destruct (outcome (createPreviewAndDeploy w (allFiles st) _ request agentId))
    as [r|e] eqn:E; [|discriminate].
  rewrite outcome_bind. unfold post_progress, call. cbn [outcome fst].
  destruct (progress_fetch w (completed_update r)); cbn; [|discriminate].
  intros [= <-]. apply createPreviewAndDeploy_result in E. rewrite E.
  reflexivity.
Qed.

(** The files of the result are the files the loop accumulated. *)
Lemma generateApp_files result :
  outcome (generateApp w request agentId) = Ok result ->
  files result = allFiles (state_after w request phases initial).
Proof. rewrite generateApp_split. apply finish_outcome. Qed.

Lemma finish_accepts st :
  artifact_store_accepts w -> final_update_accepted w ->
  exists result,
    files result = allFiles st
    /\ outcome (after_phases w request agentId st) = Ok result
    /\ posted (trace (after_phases w request agentId st)) = [completed_update result].
Proof.
  intros Ha Hf. unfold after_phases, buildGeneratedApp.
  eexists. split; [|split].
  2:{ rewrite outcome_bind. cbn [ret outcome fst]. rewrite outcome_bind.
      rewrite (createPreviewAndDeploy_accepts w _ _ _ _ Ha).
      rewrite outcome_bind. unfold post_progress, call. cbn [outcome fst].
      rewrite Hf. reflexivity. }
  - reflexivity.
  - rewrite trace_bind. cbn [ret trace snd outcome fst app].
    rewrite trace_bind, posted_app, createPreviewAndDeploy_posted.
    rewrite (createPreviewAndDeploy_accepts w _ _ _ _ Ha).
    rewrite trace_bind. unfold post_progress, call. cbn [trace snd outcome fst].
    rewrite Hf. reflexivity.
Qed.

End Run.

(** ** Progress values *)




Section Progress.

Variable w : World.
Variable request : CodeGenerationRequest.

Lemma llm_call_posted ph prev :
  posted [llm_call w request ph prev] = [].
Proof.
  unfold llm_call. destruct (String.eqb ph "planning"); [reflexivity|].
  destruct (includes ph "ui" || String.eqb ph "styling"); reflexivity.
Qed.

(** The only update an iteration sends is the one before the phase. *)
Lemma phase_body_posted st ph :
  posted (trace (phase_body w request st ph)) = [generating_update ph st].
Proof.
  rewrite phase_body_trace. cbn [posted]. f_equal.
  destruct (progress_fetch w (generating_update ph st));
    [apply llm_call_posted|reflexivity].
Qed.

Lemma run_phases_posted_cons ph l st :
  posted (trace (run_phases w request (ph :: l) st))
  = generating_update ph st
    :: posted (trace (run_phases w request l (next_state w request st ph))).
Proof.
  rewrite run_phases_cons. cbn [trace snd].
  rewrite posted_app, phase_body_posted. reflexivity.
Qed.

(** An iteration completes one phase or none. *)
Lemma next_state_cases st ph :
  (exists e, outcome (phase_body w request st ph) = Throw e
             /\ next_state w request st ph = st)
  \/ (exists fs,
        outcome (phase_body w request st ph)
        = Ok (mkLoop (allFiles st ++ fs) (S (currentPhase st)))
        /\ Forall (fun f => phase f = phase_name ph) fs
        /\ next_state w request st ph
           = mkLoop (allFiles st ++ fs) (S (currentPhase st))).
Proof.
  unfold next_state.
  destruct (outcome (phase_body w request st ph)) as [st'|e] eqn:E.
  - right. destruct (phase_body_ok _ _ _ _ _ E) as (fs & G & ->).
    exists fs. repeat split. eapply generatePhase_tags, G.
  - left. eauto.
Qed.





(** The update sent before a phase, in the trace of the loop. *)
Lemma run_phases_attempt pre p post st :
  exists t,
    trace (run_phases w request (pre ++ p :: post) st)
    = trace (run_phases w request pre st)
      ++ EvProgress
           (generating_update p (state_after w request pre st))
           (progress_fetch w
              (generating_update p (state_after w request pre st)))
         :: match progress_fetch w
                    (generating_update p (state_after w request pre st)) with
            | Ok _ => llm_call w request (phase_name p)
                        (allFiles (state_after w request pre st)) :: t
            | Throw _ => t
            end.
Proof.
  rewrite run_phases_trace_app, run_phases_cons. cbn [trace snd].
  rewrite phase_body_trace.
  eexists. f_equal. cbn [app]. f_equal.
  destruct (progress_fetch w _); reflexivity.
Qed.

End Progress.

(** The loop sends no update with status "completed". *)
Lemma run_phases_posted_generating w request l st :
  filter is_completed (posted (trace (run_phases w request l st))) = [].
Proof.
  revert st. induction l as [|ph l IH]; intros st; [reflexivity|].
  rewrite run_phases_posted_cons. simpl. apply IH.
Qed.


Lemma phase_names_distinct : NoDup (map phase_name phases).
Proof. repeat constructor; simpl; intuition discriminate. Qed.

(** ** The orchestrator: progress reporting *)




(** ** The orchestrator: failure of a phase *)

Section PhaseFailure.

Variable w : World.
Variable request : CodeGenerationRequest.

(** The files the loop adds are tagged with the phases it went through. *)
Lemma state_after_files l st :
  exists added,
    allFiles (state_after w request l st) = allFiles st ++ added
    /\ Forall (fun f => In (phase f) (map phase_name l)) added.
Proof.
  revert st. induction l as [|ph l IH]; intros st.
  - exists []. simpl. rewrite app_nil_r. split; [reflexivity|constructor].
  - change (state_after w request (ph :: l) st)
      with (state_after w request l (next_state w request st ph)).
    destruct (next_state_cases w request st ph)
      as [(e & _ & N)|(fs & _ & Tfs & N)]; rewrite N;
      match goal with |- context [state_after w request l ?s] =>
        destruct (IH s) as (added & E & T) end.
    + exists added. split; [exact E|].
      eapply Forall_impl; [|exact T]. intros f Hf. right. exact Hf.
    + exists (fs ++ added). split.
      * rewrite E. simpl. rewrite app_assoc. reflexivity.
      * apply Forall_app. split.
        -- eapply Forall_impl; [|exact Tfs]. intros f ->. left. reflexivity.
        -- eapply Forall_impl; [|exact T]. intros f Hf. right. exact Hf.
Qed.

(** A phase whose remote call throws leaves the state as it was. *)
Lemma next_state_call_threw st ph :
  call_threw (llm_call w request (phase_name ph) (allFiles st)) = true ->
  next_state w request st ph = st.
Proof.
  intros T. destruct (phase_body_call_threw w request st ph T) as [e E].
  unfold next_state. rewrite E. reflexivity.
Qed.

End PhaseFailure.

(** C2.  Take any of the six phases, [p], and suppose the remote LLM call
    of that phase throws.  Then the loop of [generateApp] still ends
    normally; the accumulated file list holds no file tagged with [p]
    (and these are the files of the result when [generateApp] returns);
    and every phase [q] of the list, those after [p] included, is
    attempted: its progress update is sent and, when the store accepts
    the update, its remote call is made. *)
Theorem failed_phase_contributes_no_file
    (w : World) (request : CodeGenerationRequest) (agentId : string)
    (pre post : list Phase) (p : Phase) :
  phases = pre ++ p :: post ->
  call_threw (llm_call w request (phase_name p)
                       (allFiles (state_after w request pre initial))) = true ->
  outcome (run_phases w request phases initial)
  = Ok (state_after w request phases initial)
  /\ Forall (fun f => phase f <> phase_name p)
            (allFiles (state_after w request phases initial))
  /\ (forall result,
        outcome (generateApp w request agentId) = Ok result ->
        Forall (fun f => phase f <> phase_name p) (files result))
  /\ (forall pre' q post',
        phases = pre' ++ q :: post' ->
        exists t1 t2,
          trace (generateApp w request agentId)
          = t1
            ++ EvProgress
                 (generating_update q (state_after w request pre' initial))
                 (progress_fetch w
                    (generating_update q (state_after w request pre' initial)))
               :: match progress_fetch w
                          (generating_update q
                             (state_after w request pre' initial)) with
                  | Ok _ =>
                      llm_call w request (phase_name q)
                        (allFiles (state_after w request pre' initial)) :: t2
                  | Throw _ => t2
                  end).
Proof.
  intros E T.
  assert (F : Forall (fun f => phase f <> phase_name p)
                     (allFiles (state_after w request phases initial))).
  { pose proof phase_names_distinct as ND. rewrite E in ND.
    rewrite map_app in ND. simpl in ND. apply NoDup_remove_2 in ND.
    rewrite E, state_after_app.
    change (state_after w request (p :: post)
                        (state_after w request pre initial))
      with (state_after w request post
              (next_state w request (state_after w request pre initial) p)).
    rewrite (next_state_call_threw w request _ p T).
    destruct (state_after_files w request pre initial) as (a1 & E1 & T1).
    destruct (state_after_files w request post
                (state_after w request pre initial)) as (a2 & E2 & T2).
    rewrite E2, E1. simpl. apply Forall_app. split.
    - eapply Forall_impl; [|exact T1]. intros f Hin Heq. apply ND.
      apply in_or_app. left. rewrite <- Heq. exact Hin.
    - eapply Forall_impl; [|exact T2]. intros f Hin Heq. apply ND.
      apply in_or_app. right. rewrite <- Heq. exact Hin. }
  split; [apply run_phases_outcome|]. split; [exact F|]. split.
  - intros result R. rewrite (generateApp_files w request agentId result R).
    exact F.
  - intros pre' q post' E'.
    destruct (run_phases_attempt w request pre' q post' initial) as [t A].
    rewrite generateApp_split. cbn [trace snd]. rewrite E', A.
    exists (trace (run_phases w request pre' initial)).
    rewrite <- app_assoc. cbn [app].
    destruct (progress_fetch w _); eexists; reflexivity.
Qed.

Lemma failed_phase_contributes_no_file_witness :
  phases = firstn 3 phases
           ++ mkPhase "styling" "Add CSS, themes, and visual design"
           :: skipn 4 phases
  /\ call_threw
       (llm_call Samples.styling_down_world Samples.sample_request "styling"
          (allFiles (state_after Samples.styling_down_world
                       Samples.sample_request (firstn 3 phases) initial)))
     = true
  /\ Forall (fun f => phase f <> "styling")
            (allFiles (state_after Samples.styling_down_world
                         Samples.sample_request phases initial)).
Proof.
  split; [reflexivity|]. split; [reflexivity|].
  apply (failed_phase_contributes_no_file
           Samples.styling_down_world Samples.sample_request "agent-1"
           (firstn 3 phases) (skipn 4 phases)
           (mkPhase "styling" "Add CSS, themes, and visual design"));
    reflexivity.
Defined.

(** ** The orchestrator: completion *)

(** C1, as amended.  Whatever the request and the agent identifier, and
    whichever of the six phases fail, [generateApp] ends; when the
    artifact store accepts every write and the progress store accepts the
    final update, it returns a result to its caller and sends exactly one
    update with status "completed", which carries progress 100 and that
    result. *)
Theorem generateApp_completes_when_stores_accept
    (w : World) (request : CodeGenerationRequest) (agentId : string) :
  artifact_store_accepts w ->
  final_update_accepted w ->
  exists result,
    outcome (generateApp w request agentId) = Ok result
    /\ files result = allFiles (state_after w request phases initial)
    /\ filter is_completed (posted (trace (generateApp w request agentId)))
       = [mkProgress "complete" (Num 100) "completed" (Some result)].
Proof.
  intros Ha Hf.
  destruct (finish_accepts w request agentId
              (state_after w request phases initial) Ha Hf)
    as (result & Fl & O & P).
  exists result. rewrite generateApp_split. cbn [outcome fst trace snd].
  split; [exact O|]. split; [exact Fl|].
  rewrite posted_app, P, filter_app.
  rewrite run_phases_posted_generating. reflexivity.
Qed.

Lemma generateApp_completes_when_stores_accept_witness :
  artifact_store_accepts Samples.quiet_world
  /\ final_update_accepted Samples.quiet_world
  /\ exists result,
       outcome (generateApp Samples.quiet_world Samples.sample_request
                            "agent-1") = Ok result
       /\ files result
          = allFiles (state_after Samples.quiet_world Samples.sample_request
                        phases initial)
       /\ filter is_completed
            (posted (trace (generateApp Samples.quiet_world
                              Samples.sample_request "agent-1")))
          = [mkProgress "complete" (Num 100) "completed" (Some result)].
Proof.
  assert (A : artifact_store_accepts Samples.quiet_world).
  { eexists. split; [reflexivity|]. intros. reflexivity. }
  assert (F : final_update_accepted Samples.quiet_world).
  { intros result. reflexivity. }
  split; [exact A|]. split; [exact F|].
  exact (generateApp_completes_when_stores_accept
           Samples.quiet_world Samples.sample_request "agent-1" A F).
Defined.

(** C1, as stated, fails.  In the environment the router worker builds
    there is no [AGENT_ASSETS] binding: the simulated build succeeds, the
    first write of an asset throws, [generateApp] raises to its caller
    and no update with status "completed" is sent.  It also raises when
    the progress store rejects the final update. *)
Lemma generateApp_raises_counterexample :
  outcome (generateApp Samples.router_world Samples.sample_request "agent-1")
  = Throw (TypeError "Cannot read properties of undefined (reading 'put')")
  /\ filter is_completed
       (posted (trace (generateApp Samples.router_world
                         Samples.sample_request "agent-1"))) = []
  /\ outcome (generateApp Samples.final_post_down_world
                          Samples.sample_request "agent-1")
     = Throw (Error "Network connection lost").
Proof. split; [|split]; vm_compute; reflexivity. Qed.

(** ** The template matcher: scores *)

Lemma Qnonneg_plus a b : 0 <= a -> 0 <= b -> 0 <= a + b.
Proof.
  intros Ha Hb. apply (Qle_trans _ (0 + 0)); [discriminate|].
  apply Qplus_le_compat; assumption.
Qed.

Lemma Qnonneg_of_nat n : 0 <= inject_Z (Z.of_nat n).
Proof. unfold Qle. simpl. lia. Qed.

(** With a non-empty list the coverage term is a number, and it is not
    negative. *)
Lemma coverage_number matched total weight :
  total <> 0%nat -> 0 <= weight ->
  exists q, coverage matched total weight = Num q /\ 0 <= q.
Proof.
  intros Ht Hw. unfold coverage, num_div, of_nat.
  destruct (Qeq_bool (inject_Z (Z.of_nat total)) 0) eqn:E.
  - apply Qeq_bool_iff in E. unfold Qeq in E. simpl in E. lia.
  - simpl. eexists. split; [reflexivity|].
    apply Qmult_le_0_compat; [|exact Hw].
    apply Qmult_le_0_compat; [apply Qnonneg_of_nat|].
    apply Qinv_le_0_compat, Qnonneg_of_nat.
Qed.

(** With an empty list the coverage term is [0/0]. *)
Lemma coverage_empty matched weight : coverage matched 0 weight = NaN.
Proof. reflexivity. Qed.

Lemma keyword_points_nonneg jtbd template : 0 <= keyword_points jtbd template.
Proof.
  unfold keyword_points.
  repeat match goal with |- context [if ?b then _ else _] => destruct b end;
    discriminate.
Qed.

Lemma favorite_points_nonneg r template : 0 <= favorite_points r template.
Proof.
  unfold favorite_points.
  destruct (favorite_app (ur_visual_style r)); [|discriminate].
  repeat match goal with |- context [if ?b then _ else _] => destruct b end;
    discriminate.
Qed.

Lemma Math_min_unit x : 0 <= x -> in_unit_interval (Math_min (Num x) (Num 1)).
Proof.
  intros Hx. simpl. destruct (Qle_bool x 1) eqn:E.
  - split; [exact Hx|]. apply Qle_bool_iff, E.
  - split; discriminate.
Qed.

Lemma num_div_by_number s m :
  Qeq_bool m 0 = false -> num_div (Num s) (Num m) = Num (s / m).
Proof. intros E. unfold num_div. rewrite E. reflexivity. Qed.

(** On requirements whose three lists are non-empty the score is a number
    between 0 and 1. *)
Lemma calculateTemplateMatch_in_unit_interval template requirements c :
  ur_input_sources requirements <> [] ->
  ur_outputs requirements <> [] ->
  ur_api_keys_required requirements <> [] ->
  calculateTemplateMatch template requirements = Ok c ->
  in_unit_interval c.
Proof.
  intros Hi Ho Ha. unfold calculateTemplateMatch.
  destruct (rfilter (templateSupportsInput template) _) as [im|]; simpl;
    [|discriminate].
  destruct (rfilter (templateSupportsOutput template) _) as [om|]; simpl;
    [|discriminate].
  intros [= <-].
  destruct (coverage_number (List.length im)
              (List.length (ur_input_sources requirements)) 20)
    as (q1 & -> & H1);
    [destruct (ur_input_sources requirements); [congruence|discriminate]
    |discriminate|].
  destruct (coverage_number (List.length om)
              (List.length (ur_outputs requirements)) 20)
    as (q2 & -> & H2);
    [destruct (ur_outputs requirements); [congruence|discriminate]
    |discriminate|].
  destruct (coverage_number
              (List.length (filter (templateSupportsAPI template)
                              (ur_api_keys_required requirements)))
              (List.length (ur_api_keys_required requirements)) 15)
    as (q3 & -> & H3);
    [destruct (ur_api_keys_required requirements); [congruence|discriminate]
    |discriminate|].
  pose proof (keyword_points_nonneg (toLowerCase (ur_jtbds requirements))
                                    template) as Hk.
  pose proof (favorite_points_nonneg requirements template) as Hf.
  cbn [num_add].
  destruct (String.eqb _ (td_complexity template)); cbn [num_add];
    rewrite num_div_by_number by reflexivity;
    apply Math_min_unit;
    (apply Qmult_le_0_compat; [|discriminate]);
    repeat (apply Qnonneg_plus; try assumption); discriminate.
Qed.

(** As soon as one of the three lists is empty the score is [NaN]. *)
Lemma calculateTemplateMatch_nan template requirements c :
  ur_input_sources requirements = []
  \/ ur_outputs requirements = []
  \/ ur_api_keys_required requirements = [] ->
  calculateTemplateMatch template requirements = Ok c ->
  c = NaN.
Proof.
  intros H. unfold calculateTemplateMatch.
  destruct (rfilter (templateSupportsInput template) _) as [im|]; simpl;
    [|discriminate].
  destruct (rfilter (templateSupportsOutput template) _) as [om|]; simpl;
    [|discriminate].
  intros [= <-].
  destruct H as [E|[E|E]]; rewrite E; cbn [List.length]; rewrite coverage_empty;
    repeat match goal with
           | |- context [coverage ?a ?b ?c] => destruct (coverage a b c)
           end;
    cbn [num_add];
    destruct (String.eqb _ (td_complexity template)); reflexivity.
Qed.

(** ** Exceptions inside [map] and [filter] *)

Lemma rfilter_total {A} (f : A -> Result bool) l :
  Forall (fun x => exists b, f x = Ok b) l -> exists ys, rfilter f l = Ok ys.
Proof.
  induction 1 as [|x l [b E] _ [ys IH]]; simpl; [eauto|].
  rewrite E, IH. simpl. eauto.
Qed.

Lemma rmap_total {A B} (f : A -> Result B) l :
  Forall (fun x => exists y, f x = Ok y) l -> exists ys, rmap f l = Ok ys.
Proof.
  induction 1 as [|x l [y E] _ [ys IH]]; simpl; [eauto|].
  rewrite E, IH. simpl. eauto.
Qed.

Lemma rmap_In {A B} (f : A -> Result B) l ys y :
  rmap f l = Ok ys -> In y ys -> exists x, In x l /\ f x = Ok y.
Proof.
  revert ys. induction l as [|x l IH]; intros ys; simpl.
  - intros [= <-] [].
  - destruct (f x) as [y0|] eqn:E; simpl; [|discriminate].
    destruct (rmap f l) as [ys0|]; simpl; [|discriminate].
    intros [= <-] [<-|Hin].
    + exists x. auto.
    + destruct (IH ys0 eq_refl Hin) as (x' & Hx & Ex). exists x'. auto.
Qed.

Lemma rmap_length {A B} (f : A -> Result B) l ys :
  rmap f l = Ok ys -> List.length ys = List.length l.
Proof.
  revert ys. induction l as [|x l IH]; intros ys; simpl.
  - intros [= <-]. reflexivity.
  - destruct (f x) as [y0|]; simpl; [|discriminate].
    destruct (rmap f l) as [ys0|]; simpl; [|discriminate].
    intros [= <-]. simpl. rewrite (IH ys0 eq_refl). reflexivity.
Qed.

(** ** The template matcher: no exception on plain tags *)

Lemma required_capabilities_plain table key :
  arr_includes object_prototype_keys key = false ->
  exists caps, required_capabilities table key = Ok caps.
Proof.
  intros H. unfold required_capabilities. destruct (assoc key table); [eauto|].
  rewrite H. eauto.
Qed.

Lemma supports_input_total template tags :
  plain_tags tags ->
  Forall (fun tag => exists b, templateSupportsInput template tag = Ok b) tags.
Proof.
  intros H. eapply Forall_impl; [|exact H]. intros tag P.
  unfold templateSupportsInput.
  destruct (required_capabilities_plain inputMap _ P) as [caps ->].
  simpl. eauto.
Qed.

Lemma supports_output_total template tags :
  plain_tags tags ->
  Forall (fun tag => exists b, templateSupportsOutput template tag = Ok b) tags.
Proof.
  intros H. eapply Forall_impl; [|exact H]. intros tag P.
  unfold templateSupportsOutput.
  destruct (required_capabilities_plain outputMap _ P) as [caps ->].
  simpl. eauto.
Qed.

Lemma score_template_total requirements template :
  plain_tags (ur_input_sources requirements) ->
  plain_tags (ur_outputs requirements) ->
  exists m, score_template requirements template = Ok m
            /\ templateName m = td_name template.
Proof.
  intros Hi Ho.
  destruct (rfilter_total _ _ (supports_input_total template _ Hi)) as [im Ei].
  destruct (rfilter_total _ _ (supports_output_total template _ Ho)) as [om Eo].
  unfold score_template, calculateTemplateMatch, generateMatchReasoning.
  rewrite Ei, Eo. simpl. eauto.
Qed.

(** ** The template matcher: the stable sort *)

Lemma num_lt_asym a b : num_lt a b = true -> num_lt b a = false.
Proof.
  destruct a as [|x], b as [|y]; simpl; try discriminate.
  intros H. apply negb_true_iff in H. apply negb_false_iff.
  apply Qle_bool_iff. destruct (Qlt_le_dec x y) as [L|L].
  - apply Qlt_le_weak, L.
  - apply Qle_bool_iff in L. congruence.
Qed.

Lemma insert_match_perm x l : Permutation (x :: l) (insert_match x l).
Proof.
  induction l as [|y l IH]; simpl; [reflexivity|].
  destruct (sorts_after x y); [|reflexivity].
  rewrite perm_swap. constructor. exact IH.
Qed.

(** Sorting keeps the matches: none is lost, none is added. *)
Lemma sort_matches_perm l : Permutation l (sort_matches l).
Proof.
  induction l as [|x l IH]; simpl; [constructor|].
  rewrite <- insert_match_perm. constructor. exact IH.
Qed.

Lemma insert_match_sorted x l :
  (forall a b, In a l -> In b l ->
     not_beaten x a -> not_beaten a b -> not_beaten x b) ->
  StronglySorted not_beaten l ->
  StronglySorted not_beaten (insert_match x l).
Proof.
  intros Tr S. induction S as [|y l S IH Hy]; simpl.
  - repeat constructor.
  - unfold sorts_after. destruct (num_lt (confidence x) (confidence y)) eqn:E.
    all: fold (not_beaten x y) in *.
    + constructor.
      * apply IH. intros a b Ha Hb. apply Tr; right; assumption.
      * apply Forall_forall. intros z Hz.
        apply (Permutation_in _ (Permutation_sym (insert_match_perm x l)))
          in Hz.
        destruct Hz as [<-|Hz]; [apply num_lt_asym, E|].
        rewrite Forall_forall in Hy. apply Hy, Hz.
    + constructor; [constructor; assumption|].
      constructor; [exact E|].
      apply Forall_forall. intros z Hz. rewrite Forall_forall in Hy.
      apply (Tr y z); [left; reflexivity|right; exact Hz|exact E|apply Hy, Hz].
Qed.

(** When the scores of a list can be compared transitively (they are all
    numbers, or all [NaN]), the sorted list never shows a match in front
    of one that beats it. *)
Lemma sort_matches_sorted l :
  (forall a b c, In a l -> In b l -> In c l ->
     not_beaten a b -> not_beaten b c -> not_beaten a c) ->
  StronglySorted not_beaten (sort_matches l).
Proof.
  intros Tr. induction l as [|x l IH]; simpl; [constructor|].
  apply insert_match_sorted.
  - intros a b Ha Hb.
    apply (Permutation_in _ (Permutation_sym (sort_matches_perm l))) in Ha.
    apply (Permutation_in _ (Permutation_sym (sort_matches_perm l))) in Hb.
    apply Tr; [left; reflexivity|right; exact Ha|right; exact Hb].
  - apply IH. intros a b c Ha Hb Hc. apply Tr; right; assumption.
Qed.



(** ** The template matcher: the scores of one request *)

Lemma score_template_confidence requirements template m :
  score_template requirements template = Ok m ->
  calculateTemplateMatch template requirements = Ok (confidence m)
  /\ templateName m = td_name template.
Proof.
  unfold score_template.
  destruct (calculateTemplateMatch template requirements) as [c|]; simpl;
    [|discriminate].
  destruct (generateMatchReasoning template requirements) as [why|]; simpl;
    [|discriminate].
  intros [= <-]. auto.
Qed.

(** Whether a score is a number depends on the request alone: the scores
    of one request are all numbers between 0 and 1, or all [NaN]. *)
Lemma scores_uniform requirements templates matches :
  rmap (score_template requirements) templates = Ok matches ->
  Forall (fun m => in_unit_interval (confidence m)) matches
  \/ Forall (fun m => confidence m = NaN) matches.
Proof.
  intros E.
  destruct (ur_input_sources requirements) as [|i li] eqn:Ei;
    [right|destruct (ur_outputs requirements) as [|o lo] eqn:Eo;
           [right|destruct (ur_api_keys_required requirements) as [|a la] eqn:Ea;
                  [right|left]]];
    apply Forall_forall; intros m Hm;
    destruct (rmap_In _ _ _ _ E Hm) as (t & _ & Et);
    apply score_template_confidence in Et; destruct Et as [Et _].
  - eapply calculateTemplateMatch_nan; [|exact Et]. auto.
  - eapply calculateTemplateMatch_nan; [|exact Et]. auto.
  - eapply calculateTemplateMatch_nan; [|exact Et]. auto.
  - eapply calculateTemplateMatch_in_unit_interval; [| | |exact Et];
      congruence.
Qed.

Lemma not_beaten_trans_numbers a b c :
  in_unit_interval (confidence a) -> in_unit_interval (confidence b) ->
  in_unit_interval (confidence c) ->
  not_beaten a b -> not_beaten b c -> not_beaten a c.
Proof.
  unfold not_beaten, in_unit_interval.
  destruct (confidence a) as [|x], (confidence b) as [|y],
           (confidence c) as [|z]; simpl; try tauto.
  intros _ _ _ H1 H2.
  apply negb_false_iff in H1. apply negb_false_iff in H2.
  apply negb_false_iff. apply Qle_bool_iff in H1. apply Qle_bool_iff in H2.
  apply Qle_bool_iff. eapply Qle_trans; eassumption.
Qed.

Lemma scores_comparable requirements templates matches :
  rmap (score_template requirements) templates = Ok matches ->
  forall a b c, In a matches -> In b matches -> In c matches ->
    not_beaten a b -> not_beaten b c -> not_beaten a c.
Proof.
  intros E a b c Ha Hb Hc.
  destruct (scores_uniform _ _ _ E) as [U|U]; rewrite Forall_forall in U.
  - apply not_beaten_trans_numbers; auto.
  - intros _ _. unfold not_beaten. rewrite (U a Ha). reflexivity.
Qed.

(** ** The template matcher: the decision *)

(** C3.  The score does not always lie between 0 and 1.  For the
    requirements "track my journal entries" with input source "upload" and
    no output nor API tag, the score of the template "journal-app" is
    [0/0 * 20 + ...], that is [NaN], which is outside of the interval;
    the selector then falls back to generation although the same template
    is selected as soon as the two lists are filled. *)
Theorem calculateTemplateMatch_nan_on_empty_list :
  calculateTemplateMatch Samples.journal_template Samples.sparse_requirements
  = Ok NaN
  /\ ~ in_unit_interval NaN
  /\ (exists result,
        selectTemplateForJTBD Samples.quiet_world Samples.sample_fs
                              Samples.sparse_requirements = Ok result
        /\ selectedTemplate result = None
        /\ fallbackGeneration result = Some true)
  /\ (exists result,
        selectTemplateForJTBD Samples.quiet_world Samples.sample_fs
                              Samples.journal_requirements = Ok result
        /\ selectedTemplate result = Some "journal-app").
Proof.
  split; [reflexivity|]. split; [intros []|].
  split; eexists; (split; [vm_compute; reflexivity|]); repeat split.
Qed.

(** In a sorted list of scores that are numbers, a match placed behind
    another one does not have a greater score: a match that reaches 0.7
    stands in front of every match with a lower score. *)
Lemma sorted_ranks_higher_scores_first matches l1 a l2 b l3 x y :
  Forall (fun m => in_unit_interval (confidence m)) matches ->
  sort_matches matches = l1 ++ a :: l2 ++ b :: l3 ->
  confidence a = Num x -> confidence b = Num y ->
  y <= x.
Proof.
  intros U E Ea Eb.
  assert (S : StronglySorted not_beaten (sort_matches matches)).
  { apply sort_matches_sorted. intros p q r Hp Hq Hr.
    rewrite Forall_forall in U. apply not_beaten_trans_numbers; auto. }
  rewrite E in S. clear E.
  induction l1 as [|z l1 IH]; simpl in S.
  - inversion S as [|? ? _ F]; subst. rewrite Forall_forall in F.
    assert (H : not_beaten a b) by (apply F, in_or_app; right; left; reflexivity).
    unfold not_beaten in H. rewrite Ea, Eb in H. simpl in H.
    apply negb_false_iff, Qle_bool_iff in H. exact H.
  - inversion S; subst. auto.
Qed.


(** When every score is [NaN] the comparator never asks for a move: the
    sort leaves the registry order. *)
Lemma sort_matches_all_nan matches :
  Forall (fun m => confidence m = NaN) matches ->
  sort_matches matches = matches.
Proof.
  induction 1 as [|x l Hx _ IH]; [reflexivity|].
  simpl. rewrite IH. destruct l as [|y l]; [reflexivity|].
  simpl. unfold sorts_after. rewrite Hx. reflexivity.
Qed.







(** ** The template matcher: the empty registry *)

(** A definitions directory that cannot be read gives the empty
    registry. *)
Lemma getAvailableTemplates_unreadable fs e :
  readdirSync fs (definitionsDir fs) = Throw e ->
  getAvailableTemplates fs = [].
Proof. intros E. unfold getAvailableTemplates. rewrite E. reflexivity. Qed.

(** C10.  When the registry yields no template, which is the case in
    particular when the definitions directory cannot be read,
    [selectTemplateForJTBD] returns no decision: reading the best match
    throws a [TypeError]. *)
Theorem selectTemplateForJTBD_throws_on_empty_registry
    (w : World) (fs : FileSystem) (requirements : UserRequirements) :
  getAvailableTemplates fs = []
  \/ (exists e, readdirSync fs (definitionsDir fs) = Throw e) ->
  getAvailableTemplates fs = []
  /\ selectTemplateForJTBD w fs requirements
     = Throw (TypeError
                "Cannot read properties of undefined (reading 'confidence')")
  /\ forall result, selectTemplateForJTBD w fs requirements <> Ok result.
Proof.
  intros H.
  assert (E : getAvailableTemplates fs = []).
  { destruct H as [E|[e E]]; [exact E|].
    eapply getAvailableTemplates_unreadable, E. }
  assert (T : selectTemplateForJTBD w fs requirements
              = Throw (TypeError
                  "Cannot read properties of undefined (reading 'confidence')")).
  { unfold selectTemplateForJTBD. rewrite E. reflexivity. }
  split; [exact E|]. split; [exact T|].
  intros result. rewrite T. discriminate.
Qed.

Lemma selectTemplateForJTBD_throws_on_empty_registry_witness :
  (exists e, readdirSync Samples.missing_dir_fs
               (definitionsDir Samples.missing_dir_fs) = Throw e)
  /\ selectTemplateForJTBD Samples.quiet_world Samples.missing_dir_fs
                           Samples.journal_requirements
     = Throw (TypeError
                "Cannot read properties of undefined (reading 'confidence')").
Proof.
  assert (H : exists e, readdirSync Samples.missing_dir_fs
                          (definitionsDir Samples.missing_dir_fs) = Throw e)
    by (eexists; reflexivity).
  split; [exact H|].
  apply (selectTemplateForJTBD_throws_on_empty_registry
           Samples.quiet_world Samples.missing_dir_fs
           Samples.journal_requirements (or_intror H)).
Defined.

(** ** The template customizer *)

Import TemplateCustomizer.

Lemma loadTemplateDefinition_failure fs templateName e :
  read_definition fs (strcat [definitionsDir fs; "/"; templateName; ".yaml"])
  = Throw e ->
  loadTemplateDefinition fs templateName
  = Throw (Error (strcat ["Failed to load template definition for ";
                          templateName; ": "; exn_display e])).
Proof. intros E. unfold loadTemplateDefinition. rewrite E. reflexivity. Qed.

(** C8.  When the definition of the requested template cannot be read or
    cannot be parsed, [customizeTemplate] raises an [Error] to its caller
    and has done nothing before: no progress update was sent and no
    customization call was made. *)
Theorem customizeTemplate_raises_on_load_failure
    (w : World) (fs : FileSystem) (templateName : string)
    (userRequirements : UserRequirements) (agentId : string) (e : Exn) :
  let yamlPath := strcat [definitionsDir fs; "/"; templateName; ".yaml"] in
  readFileSync fs yamlPath = Throw e
  \/ (exists text, readFileSync fs yamlPath = Ok text
                   /\ YAML_parse fs text = Throw e) ->
  outcome (customizeTemplate w fs templateName userRequirements agentId)
  = Throw (Error (strcat ["Failed to load template definition for ";
                          templateName; ": "; exn_display e]))
  /\ trace (customizeTemplate w fs templateName userRequirements agentId) = []
  /\ forall app,
       outcome (customizeTemplate w fs templateName userRequirements agentId)
       <> Ok app.
Proof.
  intros yamlPath H.
  assert (R : read_definition fs yamlPath = Throw e).
  { unfold read_definition. destruct H as [->|(text & -> & P)];
      [reflexivity|exact P]. }
  assert (C : customizeTemplate w fs templateName userRequirements agentId
              = (Throw (Error (strcat ["Failed to load template definition for ";
                                       templateName; ": "; exn_display e])),
                 [])).
  { unfold customizeTemplate.
    rewrite (loadTemplateDefinition_failure fs templateName e R).
    reflexivity. }
  rewrite C. split; [reflexivity|]. split; [reflexivity|].
  intros app. discriminate.
Qed.

Lemma customizeTemplate_raises_on_load_failure_witness :
  readFileSync Samples.missing_dir_fs
    (strcat [definitionsDir Samples.missing_dir_fs; "/"; "journal-app";
             ".yaml"])
  = Throw (Error "ENOENT: no such file or directory, open")
  /\ trace (customizeTemplate Samples.quiet_world Samples.missing_dir_fs
              "journal-app" Samples.journal_requirements "agent-1") = [].
Proof.
  split; [reflexivity|].
  apply (customizeTemplate_raises_on_load_failure
           Samples.quiet_world Samples.missing_dir_fs "journal-app"
           Samples.journal_requirements "agent-1"
           (Error "ENOENT: no such file or directory, open")).
  left. reflexivity.
Defined.

(** The callers of [customizeTemplate] inside the core do not catch the
    failure either: [generateCustomTemplate], when the LLM's answer is not
    JSON, hands the rejected promise of [generateFallbackApp] on. *)
Lemma generateCustomTemplate_propagates
    (w : World) (fs : FileSystem) (userRequirements : UserRequirements)
    (agentId : string) (e : Exn) (text : string) :
  read_definition fs (strcat [definitionsDir fs; "/"; "journal-app"; ".yaml"])
  = Throw e ->
  callLLM w (custom_template_prompt w userRequirements)
            (pickLLMForJTBD (ur_jtbds userRequirements)) = Ok text ->
  JSON_parse w text = None ->
  outcome (generateCustomTemplate w fs userRequirements agentId)
  = Throw (Error (strcat ["Failed to load template definition for ";
                          "journal-app"; ": "; exn_display e])).
Proof.
  intros R L P. unfold generateCustomTemplate, call_llm, call.
  rewrite L. rewrite outcome_bind. cbn [outcome fst]. rewrite P.
  rewrite outcome_bind. unfold generateFallbackApp, customizeTemplate.
  rewrite (loadTemplateDefinition_failure fs "journal-app" e R).
  reflexivity.
Qed.

(** ** Scenarios *)

(** The styling phase fails: the result still holds the files of the five
    other phases, in order, and the run is reported as completed. *)
Example styling_failure_scenario :
  exists result,
    outcome (generateApp Samples.styling_down_world Samples.sample_request
                         "agent-1") = Ok result
    /\ map phase (files result)
       = ["planning"; "foundation"; "core"; "integration"; "optimization"]
    /\ map pu_status
           (posted (trace (generateApp Samples.styling_down_world
                             Samples.sample_request "agent-1")))
       = ["generating"; "generating"; "generating"; "generating";
          "generating"; "generating"; "completed"].
Proof. eexists. split; [vm_compute; reflexivity|]. split; reflexivity. Qed.

(** The planning phase with an answer that is JSON. *)
Example planning_scenario :
  parsePlanningResponse Samples.quiet_world Samples.text_plan "planning"
  = [mkFile (Some (JStr "project-structure.json"))
            (Some (JStr (JSON_stringify Samples.quiet_world
                           (JObj [("files", JArr [])]) 2)))
            "planning"].
Proof. reflexivity. Qed.

(** A tag that names a property of [Object.prototype] makes the matcher
    throw. *)
Example prototype_tag_scenario :
  templateSupportsInput Samples.journal_template "constructor"
  = Throw (TypeError "requiredCapabilities.some is not a function").
Proof. reflexivity. Qed.

(* ===================================================================== *)
(** * Further properties of the embedded code                            *)
(* ===================================================================== *)

Import Notions.

(** ** The run without an artifact store *)

Lemma asset_writes_app t1 t2 :
  asset_writes (t1 ++ t2) = asset_writes t1 ++ asset_writes t2.
Proof.
  induction t1 as [|ev t1 IH]; [reflexivity|].
  destruct ev; simpl; rewrite IH; reflexivity.
Qed.

Lemma llm_call_asset_writes w request ph prev :
  asset_writes [llm_call w request ph prev] = [].
Proof.
  unfold llm_call. destruct (String.eqb ph "planning"); [reflexivity|].
  destruct (includes ph "ui" || String.eqb ph "styling"); reflexivity.
Qed.

(** The loop writes no asset. *)
Lemma run_phases_asset_writes w request l st :
  asset_writes (trace (run_phases w request l st)) = [].
Proof.
  revert st. induction l as [|ph l IH]; intros st; [reflexivity|].
  rewrite run_phases_cons. cbn [trace snd].
  rewrite asset_writes_app, IH, app_nil_r, phase_body_trace.
  cbn [asset_writes].
  destruct (progress_fetch w (generating_update ph st));
    [apply llm_call_asset_writes|reflexivity].
Qed.

Lemma after_phases_without_binding w request agentId st :
  AGENT_ASSETS w = None ->
  after_phases w request agentId st
  = (Throw (TypeError "Cannot read properties of undefined (reading 'put')"),
     []).
Proof.
  intros H. unfold after_phases, buildGeneratedApp, createPreviewAndDeploy.
  cbn. unfold put_asset. rewrite H. reflexivity.
Qed.

(** X1.  Without an [AGENT_ASSETS] binding [generateApp] never returns:
    whatever the request and whatever the LLM and the progress store
    answer, the simulated build succeeds, the first asset write throws a
    [TypeError], no asset is written and no update with status
    "completed" is sent. *)
Theorem generateApp_raises_without_artifact_binding
    (w : World) (request : CodeGenerationRequest) (agentId : string) :
  AGENT_ASSETS w = None ->
  outcome (generateApp w request agentId)
  = Throw (TypeError "Cannot read properties of undefined (reading 'put')")
  /\ filter is_completed (posted (trace (generateApp w request agentId))) = []
  /\ asset_writes (trace (generateApp w request agentId)) = [].
Proof.
  intros H. rewrite generateApp_split.
  rewrite (after_phases_without_binding w request agentId _ H).
  cbn [outcome fst trace snd]. rewrite app_nil_r.
  split; [reflexivity|]. split.
  - apply run_phases_posted_generating.
  - apply run_phases_asset_writes.
Qed.

Lemma generateApp_raises_without_artifact_binding_witness :
  AGENT_ASSETS Samples.router_world = None
  /\ outcome (generateApp Samples.router_world Samples.sample_request "a-7")
     = Throw (TypeError "Cannot read properties of undefined (reading 'put')").
Proof.
  split; [reflexivity|].
  apply (generateApp_raises_without_artifact_binding
           Samples.router_world Samples.sample_request "a-7" eq_refl).
Defined.

(** ** The result of a run *)

(** X2.  Whenever [generateApp] returns, the result holds the files the
    loop accumulated, the preview URL [https://<agentId>.yourdomain.com],
    the agent identifier as deployment identifier, and the build result,
    which reports success under the build identifier drawn for it, with
    the three assets of the simulated build. *)
Theorem generateApp_result_shape
    (w : World) (request : CodeGenerationRequest) (agentId : string)
    (result : GenerationResult) :
  outcome (generateApp w request agentId) = Ok result ->
  files result = allFiles (state_after w request phases initial)
  /\ preview_url result
     = Some (strcat ["https://"; agentId; ".yourdomain.com"])
  /\ deployment_id result = Some agentId
  /\ exists br stored,
       build_result result = Some br
       /\ success br = true
       /\ buildId br = fresh_build_id w
       /\ assets br = Some stored
       /\ map asset_path stored
          = ["index.html"; "assets/index.js"; "assets/index.css"]
       /\ errors br = None.
Proof.
  rewrite generateApp_split. cbn [outcome fst].
  unfold after_phases, buildGeneratedApp. rewrite outcome_bind.
  cbn [ret outcome fst]. rewrite outcome_bind.
  destruct (outcome (createPreviewAndDeploy w _ _ request agentId))
    as [r|e] eqn:E; [|discriminate].
  rewrite outcome_bind. unfold post_progress, call. cbn [outcome fst].
  destruct (progress_fetch w (completed_update r)); cbn; [|discriminate].
  intros [= <-]. apply createPreviewAndDeploy_result in E. rewrite E.
  cbn [files preview_url deployment_id build_result].
  repeat split. do 2 eexists. repeat split.
Qed.

Lemma generateApp_result_shape_witness :
  exists result,
    outcome (generateApp Samples.quiet_world Samples.sample_request "a-7")
    = Ok result
    /\ preview_url result = Some "https://a-7.yourdomain.com"
    /\ deployment_id result = Some "a-7".
Proof.
  eexists. split; [vm_compute; reflexivity|].
  split;
    apply (generateApp_result_shape
             Samples.quiet_world Samples.sample_request "a-7" _ eq_refl).
Defined.

(** X3.  Whenever [generateApp] returns, exactly three assets were
    written, in this order and under the agent's own prefix:
    [apps/<agentId>/index.html] as text/html,
    [apps/<agentId>/assets/index.js] as application/javascript and
    [apps/<agentId>/assets/index.css] as text/css. *)
Theorem generateApp_asset_writes
    (w : World) (request : CodeGenerationRequest) (agentId : string)
    (result : GenerationResult) :
  outcome (generateApp w request agentId) = Ok result ->
  asset_writes (trace (generateApp w request agentId))
  = [ (strcat ["apps/"; agentId; "/"; "index.html"], "text/html");
      (strcat ["apps/"; agentId; "/"; "assets/index.js"],
       "application/javascript");
      (strcat ["apps/"; agentId; "/"; "assets/index.css"], "text/css") ].
Proof.
  rewrite generateApp_split. cbn [outcome fst trace snd].
  rewrite asset_writes_app, run_phases_asset_writes. cbn [app].
  generalize (allFiles (state_after w request phases initial)). intros fs.
  unfold after_phases, buildGeneratedApp, createPreviewAndDeploy.
  cbn. unfold put_asset, call.
  destruct (AGENT_ASSETS w) as [put|]; cbn; [|discriminate].
  repeat match goal with
         | |- context [put ?k ?c ?t] => destruct (put k c t); cbn
         end; try discriminate.
  unfold post_progress, call.
  match goal with |- context [progress_fetch w ?u] =>
    destruct (progress_fetch w u) end; cbn; [|discriminate].
  intros _. reflexivity.
Qed.

Lemma generateApp_asset_writes_witness :
  exists result,
    outcome (generateApp Samples.quiet_world Samples.sample_request "a-7")
    = Ok result
    /\ asset_writes (trace (generateApp Samples.quiet_world
                              Samples.sample_request "a-7"))
       = [ ("apps/a-7/index.html", "text/html");
           ("apps/a-7/assets/index.js", "application/javascript");
           ("apps/a-7/assets/index.css", "text/css") ].
Proof.
  eexists. split; [vm_compute; reflexivity|].
  apply (generateApp_asset_writes
           Samples.quiet_world Samples.sample_request "a-7" _ eq_refl).
Defined.

(** ** The styling phase *)

Lemma generatePhase_styling w request prev :
  generatePhase w request "styling" prev
  = bind (generateUIWithGoogle w "gemini-2.0-pro-exp"
            (buildPhasePrompt w request "styling" prev))
         (fun uiResult => lift (ui_files uiResult "styling")).
Proof. reflexivity. Qed.

Lemma generateUIWithGoogle_outcome w model prompt text :
  fetchGoogleUI w model prompt = Ok text ->
  outcome (generateUIWithGoogle w model prompt)
  = Ok (match JSON_parse w text with
        | Some v => v
        | None => JObj [("files", JArr [])]
        end).
Proof.
  intros E. unfold generateUIWithGoogle, call. rewrite E.
  rewrite outcome_bind. cbn [outcome fst].
  destruct (JSON_parse w text); reflexivity.
Qed.

(** X4.  When the answer of the UI generation is not JSON, the helper
    yields the empty file list and the styling phase ends normally with
    no file: the loop counts the phase as completed although nothing was
    produced. *)
Theorem styling_answer_not_json_completes_empty
    (w : World) (request : CodeGenerationRequest) (st : LoopState)
    (text : string) :
  progress_fetch w (generating_update styling_phase st) = Ok tt ->
  fetchGoogleUI w "gemini-2.0-pro-exp"
                (buildPhasePrompt w request "styling" (allFiles st)) = Ok text ->
  JSON_parse w text = None ->
  outcome (generatePhase w request "styling" (allFiles st)) = Ok []
  /\ next_state w request st styling_phase
     = mkLoop (allFiles st) (S (currentPhase st)).
Proof.
  intros P F J.
  assert (G : outcome (generatePhase w request "styling" (allFiles st)) = Ok []).
  { rewrite generatePhase_styling, outcome_bind.
    rewrite (generateUIWithGoogle_outcome _ _ _ _ F), J. reflexivity. }
  split; [exact G|].
  unfold next_state, phase_body. rewrite outcome_bind.
  unfold post_progress, call. cbn [outcome fst]. rewrite P.
  rewrite outcome_bind. cbn [phase_name styling_phase]. rewrite G.
  cbn. rewrite app_nil_r. reflexivity.
Qed.

Lemma styling_answer_not_json_completes_empty_witness :
  JSON_parse (Samples.with_ui Samples.quiet_world
                (fun _ _ => Ok Samples.text_prose)) Samples.text_prose = None
  /\ outcome (generatePhase
                (Samples.with_ui Samples.quiet_world
                   (fun _ _ => Ok Samples.text_prose))
                Samples.sample_request "styling" (allFiles initial)) = Ok [].
Proof.
  split; [reflexivity|].
  apply (styling_answer_not_json_completes_empty
           (Samples.with_ui Samples.quiet_world
              (fun _ _ => Ok Samples.text_prose))
           Samples.sample_request initial Samples.text_prose);
    reflexivity.
Defined.

(** X5.  When the answer of the UI generation is JSON but holds no array
    under [files] (a bare array of files, for instance, which is what the
    other phases ask the LLM for), the styling phase throws: it
    contributes no file and is not counted as completed. *)
Theorem styling_answer_without_files_array_fails
    (w : World) (request : CodeGenerationRequest) (st : LoopState)
    (text : string) (v : JSON) :
  fetchGoogleUI w "gemini-2.0-pro-exp"
                (buildPhasePrompt w request "styling" (allFiles st)) = Ok text ->
  JSON_parse w text = Some v ->
  (forall items, get_prop v "files" <> Ok (Some (JArr items))) ->
  (exists e, outcome (generatePhase w request "styling" (allFiles st))
             = Throw e)
  /\ next_state w request st styling_phase = st.
Proof.
  intros F J N.
  assert (G : exists e, outcome (generatePhase w request "styling" (allFiles st))
                        = Throw e).
  { rewrite generatePhase_styling, outcome_bind.
    rewrite (generateUIWithGoogle_outcome _ _ _ _ F), J.
    unfold lift, ui_files. cbn [outcome fst].
    destruct (get_prop v "files") as [[[| | | |items|]|]|] eqn:E;
      cbn; eauto.
    exfalso. apply (N items). reflexivity. }
  split; [exact G|]. destruct G as [e G].
  unfold next_state, phase_body. rewrite outcome_bind.
  unfold post_progress, call. cbn [outcome fst].
  destruct (progress_fetch w (generating_update styling_phase st));
    [|reflexivity].
  rewrite outcome_bind. cbn [phase_name styling_phase]. rewrite G.
  reflexivity.
Qed.

Lemma styling_answer_without_files_array_fails_witness :
  JSON_parse (Samples.with_ui Samples.quiet_world
                (fun _ _ => Ok Samples.text_files)) Samples.text_files
  = Some Samples.value_files
  /\ next_state (Samples.with_ui Samples.quiet_world
                   (fun _ _ => Ok Samples.text_files))
                Samples.sample_request initial styling_phase = initial.
Proof.
  split; [reflexivity|].
  apply (styling_answer_without_files_array_fails
           (Samples.with_ui Samples.quiet_world
              (fun _ _ => Ok Samples.text_files))
           Samples.sample_request initial Samples.text_files
           Samples.value_files); try reflexivity.
  intros items. discriminate.
Defined.

(** ** More on the response parser *)

(** X6.  [parseCodeResponse] returns no file at all only when the response
    is the empty JSON array; in every other case it returns at least one
    file. *)
Theorem parseCodeResponse_empty_iff
    (w : World) (response phase : string) :
  parseCodeResponse w response phase = []
  <-> JSON_parse w response = Some (JArr []).
Proof.
  unfold parseCodeResponse. split.
  - destruct (JSON_parse w response) as [[| | | |items|]|]; try discriminate.
    destruct (rmap (code_entry phase) items) as [fs|] eqn:E; [|discriminate].
    intros ->. apply rmap_length in E. destruct items; [reflexivity|].
    discriminate.
  - intros ->. reflexivity.
Qed.

Lemma parseCodeResponse_empty_iff_witness :
  parseCodeResponse Samples.quiet_world Samples.text_prose "core" <> []
  /\ JSON_parse Samples.quiet_world Samples.text_prose <> Some (JArr []).
Proof.
  split; [discriminate|].
  intros H.
  apply (proj2 (parseCodeResponse_empty_iff Samples.quiet_world
                  Samples.text_prose "core")) in H.
  discriminate.
Defined.

(** X7.  When the response is a JSON array of non-empty strings, every
    string becomes the content of a file, and all these files get the
    same name, [phase-<phase>.txt]: the paths collide as soon as there are
    two entries. *)
Theorem parseCodeResponse_bare_strings
    (w : World) (response phase : string) (texts : list string) :
  JSON_parse w response = Some (JArr (map JStr texts)) ->
  Forall (fun s => s <> EmptyString) texts ->
  parseCodeResponse w response phase
  = map (fun s => mkFile (Some (JStr (strcat ["phase-"; phase; ".txt"])))
                         (Some (JStr s)) phase)
        texts.
Proof.
  intros E H. unfold parseCodeResponse. rewrite E.
  assert (R : rmap (code_entry phase) (map JStr texts)
              = Ok (map (fun s => mkFile
                                    (Some (JStr (strcat ["phase-"; phase;
                                                         ".txt"])))
                                    (Some (JStr s)) phase) texts)).
  { clear E. induction H as [|s texts Hs _ IH]; [reflexivity|].
    cbn [map rmap]. rewrite IH. unfold code_entry at 1.
    cbn [get_prop rbind or_else truthy].
    destruct s; [congruence|reflexivity]. }
  rewrite R. reflexivity.
Qed.

Lemma parseCodeResponse_bare_strings_witness :
  JSON_parse strings_world text_strings
  = Some (JArr (map JStr ["import a"; "import b"]))
  /\ map path (parseCodeResponse strings_world text_strings "core")
     = [Some (JStr "phase-core.txt"); Some (JStr "phase-core.txt")].
Proof.
  split; [reflexivity|].
  rewrite (parseCodeResponse_bare_strings
             strings_world text_strings "core" ["import a"; "import b"]).
  - reflexivity.
  - reflexivity.
  - repeat constructor; discriminate.
Defined.

(** ** More on the template matcher *)

From Stdlib Require Import Lqa.

Lemma rfilter_length {A} (f : A -> Result bool) l ys :
  rfilter f l = Ok ys -> (List.length ys <= List.length l)%nat.
Proof.
  revert ys. induction l as [|x l IH]; intros ys; simpl.
  - intros [= <-]. simpl. lia.
  - destruct (f x) as [b|]; simpl; [|discriminate].
    destruct (rfilter f l) as [ys0|]; simpl; [|discriminate].
    intros [= <-]. specialize (IH ys0 eq_refl). destruct b; simpl; lia.
Qed.

(** A coverage term is [NaN] or a number between 0 and its weight. *)
Lemma coverage_bounded matched total weight :
  (matched <= total)%nat -> 0 <= weight ->
  coverage matched total weight = NaN
  \/ exists q, coverage matched total weight = Num q /\ 0 <= q /\ q <= weight.
Proof.
  intros Hm Hw. unfold coverage, num_div, of_nat.
  destruct (Qeq_bool (inject_Z (Z.of_nat total)) 0) eqn:E; [left; reflexivity|].
  right. eexists. split; [reflexivity|].
  assert (T : 0 < inject_Z (Z.of_nat total)).
  { apply Qeq_bool_neq in E. unfold Qlt, Qeq in *. simpl in *. lia. }
  assert (M0 : 0 <= inject_Z (Z.of_nat matched)) by apply Qnonneg_of_nat.
  assert (M1 : inject_Z (Z.of_nat matched) <= inject_Z (Z.of_nat total)).
  { unfold Qle. simpl. lia. }
  assert (D1 : inject_Z (Z.of_nat matched) / inject_Z (Z.of_nat total) <= 1).
  { apply Qle_shift_div_r; [exact T|lra]. }
  assert (D0 : 0 <= inject_Z (Z.of_nat matched) / inject_Z (Z.of_nat total)).
  { apply Qle_shift_div_l; [exact T|lra]. }
  split; nra.
Qed.

Lemma rmap_score_names requirements templates matches :
  rmap (score_template requirements) templates = Ok matches ->
  map templateName matches = map td_name templates.
Proof.
  revert matches. induction templates as [|t l IH]; intros matches; simpl.
  - intros [= <-]. reflexivity.
  - destruct (score_template requirements t) as [m|] eqn:E; simpl;
      [|discriminate].
    destruct (rmap (score_template requirements) l) as [ms|]; simpl;
      [|discriminate].
    intros [= <-]. simpl. rewrite (IH ms eq_refl).
    apply score_template_confidence in E. destruct E as [_ ->]. reflexivity.
Qed.

(** X8.  As soon as one of the three lists of the requirements is empty,
    no template is ever selected: every score is [NaN], the sort leaves
    the registry order, and the decision is the fallback to generation
    carrying the first three templates of the registry. *)
Theorem selectTemplateForJTBD_falls_back_on_empty_list
    (w : World) (fs : FileSystem) (requirements : UserRequirements) :
  ur_input_sources requirements = []
  \/ ur_outputs requirements = []
  \/ ur_api_keys_required requirements = [] ->
  getAvailableTemplates fs <> [] ->
  plain_tags (ur_input_sources requirements) ->
  plain_tags (ur_outputs requirements) ->
  exists matches result,
    rmap (score_template requirements) (getAvailableTemplates fs) = Ok matches
    /\ map templateName matches = map td_name (getAvailableTemplates fs)
    /\ Forall (fun m => confidence m = NaN) matches
    /\ selectTemplateForJTBD w fs requirements = Ok result
    /\ selectedTemplate result = None
    /\ fallbackGeneration result = Some true
    /\ alternatives result = Some (firstn 3 matches).
Proof.
  intros He NE Hi Ho.
  destruct (rmap_total (score_template requirements)
                       (getAvailableTemplates fs)) as [matches E].
  { apply Forall_forall. intros t _.
    destruct (score_template_total requirements t Hi Ho) as (m & Em & _).
    eauto. }
  assert (U : Forall (fun m => confidence m = NaN) matches).
  { apply Forall_forall. intros m Hm.
    destruct (rmap_In _ _ _ _ E Hm) as (t & _ & Et).
    apply score_template_confidence in Et. destruct Et as [Et _].
    eapply calculateTemplateMatch_nan; [exact He|exact Et]. }
  destruct matches as [|best rest] eqn:Em.
  { apply rmap_length in E. destruct (getAvailableTemplates fs);
      [congruence|discriminate]. }
  exists (best :: rest). eexists.
  split; [exact E|]. split; [eapply rmap_score_names, E|].
  split; [exact U|].
  unfold selectTemplateForJTBD. rewrite E. cbn [rbind].
  rewrite (sort_matches_all_nan _ U). unfold decide_selection.
  inversion U as [|? ? Hb _]; subst. rewrite Hb. cbn [num_ge].
  repeat split.
Qed.

Lemma selectTemplateForJTBD_falls_back_on_empty_list_witness :
  ur_outputs Samples.sparse_requirements = []
  /\ exists matches result,
       selectTemplateForJTBD Samples.quiet_world Samples.sample_fs
                             Samples.sparse_requirements = Ok result
       /\ fallbackGeneration result = Some true
       /\ alternatives result = Some (firstn 3 matches)
       /\ map templateName matches = ["journal-app"; "dashboard-app"].
Proof.
  split; [reflexivity|].
  destruct (selectTemplateForJTBD_falls_back_on_empty_list
              Samples.quiet_world Samples.sample_fs
              Samples.sparse_requirements)
    as (matches & result & _ & N & _ & R & _ & F & A).
  - right. left. reflexivity.
  - vm_compute. discriminate.
  - repeat constructor.
  - constructor.
  - exists matches, result. repeat split; try assumption.
Defined.

(** X9.  For requirements written in ASCII, a template is selected only
    if the keyword rule or the favorite-app rule gives it points: when
    both give nothing the score, if it is a number at all, is at most
    0.6, and so it never reaches the threshold 0.7. *)
Theorem selection_needs_keyword_or_favorite
    (template : TemplateDefinition) (requirements : UserRequirements)
    (c : JSNum) :
  ascii_requirements requirements = true ->
  keyword_points (toLowerCase (ur_jtbds requirements)) template = 0 ->
  favorite_points requirements template = 0 ->
  calculateTemplateMatch template requirements = Ok c ->
  (c = NaN \/ exists q, c = Num q /\ q <= 6 # 10)
  /\ num_ge c (Num (7 # 10)) = false.
Proof.
  intros _ Hk Hf E.
  assert (D : c = NaN \/ exists q, c = Num q /\ q <= 6 # 10).
  { revert E. unfold calculateTemplateMatch.
    destruct (rfilter (templateSupportsInput template) _) as [im|] eqn:Ei;
      simpl; [|discriminate].
    destruct (rfilter (templateSupportsOutput template) _) as [om|] eqn:Eo;
      simpl; [|discriminate].
    intros [= <-]. rewrite Hk, Hf.
    apply rfilter_length in Ei. apply rfilter_length in Eo.
    pose proof (filter_length_le (templateSupportsAPI template)
                  (ur_api_keys_required requirements)) as Ea.
    destruct (coverage_bounded _ _ 20 Ei) as [->|(q1 & -> & L1 & U1)];
      [discriminate| |];
      [destruct (coverage _ _ 20), (coverage _ _ 15),
         (String.eqb _ (td_complexity template)); left; reflexivity|].
    destruct (coverage_bounded _ _ 20 Eo) as [->|(q2 & -> & L2 & U2)];
      [discriminate| |];
      [destruct (coverage _ _ 15),
         (String.eqb _ (td_complexity template)); left; reflexivity|].
    destruct (coverage_bounded _ _ 15 Ea) as [->|(q3 & -> & L3 & U3)];
      [discriminate| |];
      [destruct (String.eqb _ (td_complexity template)); left; reflexivity|].
    cbn [num_add]. right.
    destruct (String.eqb _ (td_complexity template)); cbn [num_add];
      rewrite num_div_by_number by reflexivity;
      cbn [Math_min];
      match goal with |- context [Qle_bool ?x 1] =>
        assert (B : x <= 6 # 10)
          by (apply Qle_shift_div_r; [reflexivity|lra]);
        assert (B1 : Qle_bool x 1 = true) by (apply Qle_bool_iff; lra);
        rewrite B1; exists x; split; [reflexivity|exact B]
      end. }
  split; [exact D|].
  destruct D as [->|(q & -> & B)]; [reflexivity|].
  cbn [num_ge]. destruct (Qle_bool (7 # 10) q) eqn:G; [|reflexivity].
  apply Qle_bool_iff in G. lra.
Qed.

Lemma selection_needs_keyword_or_favorite_witness :
  ascii_requirements Samples.journal_requirements = true
  /\ keyword_points (toLowerCase (ur_jtbds Samples.journal_requirements))
                    Samples.dashboard_template = 0
  /\ exists c,
       calculateTemplateMatch Samples.dashboard_template
                              Samples.journal_requirements = Ok c
       /\ (c = NaN \/ exists q, c = Num q /\ q <= 6 # 10).
Proof.
  split; [reflexivity|]. split; [reflexivity|].
  eexists. split; [vm_compute; reflexivity|].
  apply (selection_needs_keyword_or_favorite
           Samples.dashboard_template Samples.journal_requirements);
    reflexivity.
Defined.

(** X10.  For requirements whose three lists are non-empty and whose tags
    are plain words, [calculateTemplateMatch] returns a score, and the
    score is a number between 0 and 1. *)
Theorem calculateTemplateMatch_score_in_range
    (template : TemplateDefinition) (requirements : UserRequirements) :
  ur_input_sources requirements <> [] ->
  ur_outputs requirements <> [] ->
  ur_api_keys_required requirements <> [] ->
  plain_tags (ur_input_sources requirements) ->
  plain_tags (ur_outputs requirements) ->
  exists q,
    calculateTemplateMatch template requirements = Ok (Num q)
    /\ 0 <= q /\ q <= 1.
Proof.
  intros Ni No Na Hi Ho.
  destruct (score_template_total requirements template Hi Ho) as (m & Em & _).
  apply score_template_confidence in Em. destruct Em as [Em _].
  pose proof (calculateTemplateMatch_in_unit_interval
                template requirements _ Ni No Na Em) as R.
  destruct (confidence m) as [|q]; [destruct R|].
  exists q. split; [exact Em|exact R].
Qed.

Lemma calculateTemplateMatch_score_in_range_witness :
  exists q,
    calculateTemplateMatch Samples.journal_template
                           Samples.journal_requirements = Ok (Num q)
    /\ 0 <= q /\ q <= 1.
Proof.
  apply (calculateTemplateMatch_score_in_range
           Samples.journal_template Samples.journal_requirements);
    try discriminate; repeat constructor.
Defined.

(** X11.  Tags the lookup table does not know count for nothing: when no
    input source of the requirements is one of the seven tags of
    [inputMap] (after lower-casing), no template supports any of them and
    the list of input matches is empty. *)
Theorem unknown_input_tags_match_nothing
    (template : TemplateDefinition) (tags : list string) :
  Forall (fun tag => assoc (toLowerCase tag) inputMap = None) tags ->
  plain_tags tags ->
  rfilter (templateSupportsInput template) tags = Ok [].
Proof.
  intros U P. induction U as [|tag tags Hu _ IH]; [reflexivity|].
  inversion P as [|? ? Hp P']; subst.
  cbn [rfilter]. rewrite (IH P').
  unfold templateSupportsInput, required_capabilities. rewrite Hu, Hp.
  reflexivity.
Qed.

Lemma unknown_input_tags_match_nothing_witness :
  rfilter (templateSupportsInput Samples.journal_template)
          ["Spreadsheet"; "ftp"] = Ok [].
Proof.
  apply (unknown_input_tags_match_nothing Samples.journal_template
           ["Spreadsheet"; "ftp"]); repeat constructor.
Defined.

(** X12.  For a description written in ASCII, [assessJTBDComplexity]
    answers "complex" exactly when the four factors hold together (more
    than two inputs, more than two outputs, more than one API, a
    description longer than 100 characters); with at most two inputs, two
    outputs and one API the answer is "simple" whatever the description
    is. *)
Theorem assessJTBDComplexity_thresholds (requirements : UserRequirements) :
  (ascii_text (ur_jtbds requirements) = true ->
   (assessJTBDComplexity requirements = complex
    <-> (2 < List.length (ur_input_sources requirements)
         /\ 2 < List.length (ur_outputs requirements)
         /\ 1 < List.length (ur_api_keys_required requirements)
         /\ 100 < String.length (ur_jtbds requirements))%nat))
  /\ ((List.length (ur_input_sources requirements) <= 2)%nat ->
      (List.length (ur_outputs requirements) <= 2)%nat ->
      (List.length (ur_api_keys_required requirements) <= 1)%nat ->
      assessJTBDComplexity requirements = simple).
Proof.
  unfold assessJTBDComplexity.
  destruct (Nat.ltb_spec 2 (List.length (ur_input_sources requirements)));
    destruct (Nat.ltb_spec 2 (List.length (ur_outputs requirements)));
    destruct (Nat.ltb_spec 1 (List.length (ur_api_keys_required requirements)));
    destruct (Nat.ltb_spec 100 (String.length (ur_jtbds requirements)));
    cbn; split; try (intros _; split); intros; try discriminate; try lia;
    try reflexivity; try (repeat split; assumption).
Qed.

Lemma assessJTBDComplexity_thresholds_witness :
  ascii_text (ur_jtbds Samples.journal_requirements) = true
  /\ assessJTBDComplexity Samples.journal_requirements <> complex
  /\ assessJTBDComplexity Samples.journal_requirements = simple.
Proof.
  split; [reflexivity|]. split.
  - intros H.
    apply (proj1 (assessJTBDComplexity_thresholds
                    Samples.journal_requirements) eq_refl) in H.
    simpl in H. lia.
  - apply (assessJTBDComplexity_thresholds Samples.journal_requirements);
      simpl; lia.
Defined.

(** ** The registry on disk *)

Lemma rmap_throws {A B} (f : A -> Result B) l x e :
  In x l -> f x = Throw e -> exists e', rmap f l = Throw e'.
Proof.
  intros Hin E. induction l as [|y l IH]; [destruct Hin|].
  simpl. destruct Hin as [->|Hin].
  - rewrite E. simpl. eauto.
  - destruct (f y); simpl; [|eauto].
    destruct (IH Hin) as [e' ->]. simpl. eauto.
Qed.

(** X13.  The registry is all or nothing: one definition file that cannot
    be read or parsed empties the whole registry, so that
    [selectTemplateForJTBD] throws although the other definitions are
    sound. *)
Theorem getAvailableTemplates_one_bad_definition
    (w : World) (fs : FileSystem) (requirements : UserRequirements)
    (entries : list string) (file : string) (e : Exn) :
  readdirSync fs (definitionsDir fs) = Ok entries ->
  In file entries ->
  endsWith file ".yaml" = true ->
  read_definition fs (strcat [definitionsDir fs; "/"; file]) = Throw e ->
  getAvailableTemplates fs = []
  /\ selectTemplateForJTBD w fs requirements
     = Throw (TypeError
                "Cannot read properties of undefined (reading 'confidence')").
Proof.
  intros D Hin Y R.
  assert (G : getAvailableTemplates fs = []).
  { unfold getAvailableTemplates. rewrite D. cbn [rbind].
    destruct (rmap_throws
                (fun f => read_definition fs (strcat [definitionsDir fs; "/"; f]))
                (filter (fun f => endsWith f ".yaml") entries) file e)
      as [e' ->]; [|exact R|reflexivity].
    apply filter_In. split; assumption. }
  split; [exact G|].
  unfold selectTemplateForJTBD. rewrite G. reflexivity.
Qed.

Lemma getAvailableTemplates_one_bad_definition_witness :
  In "broken.yaml" ["journal-app.yaml"; "broken.yaml"]
  /\ getAvailableTemplates broken_fs = [].
Proof.
  split; [right; left; reflexivity|].
  apply (getAvailableTemplates_one_bad_definition
           Samples.quiet_world broken_fs Samples.journal_requirements
           ["journal-app.yaml"; "broken.yaml"] "broken.yaml"
           (Error "YAMLParseError"));
    try reflexivity.
  right. left. reflexivity.
Defined.

Lemma rmap_Forall2 {A B} (f : A -> Result B) l :
  (forall x, In x l -> exists y, f x = Ok y) ->
  exists ys, rmap f l = Ok ys /\ Forall2 (fun x y => f x = Ok y) l ys.
Proof.
  induction l as [|x l IH]; intros H.
  - exists []. split; [reflexivity|constructor].
  - destruct (H x (or_introl eq_refl)) as [y Ey].
    destruct (IH (fun z Hz => H z (or_intror Hz))) as (ys & E & F).
    exists (y :: ys). simpl. rewrite Ey, E. split; [reflexivity|].
    constructor; assumption.
Qed.

(** X14.  When every file of the directory whose name ends in ".yaml"
    can be read and parsed, the registry holds exactly their definitions,
    in the order of the directory listing; the other entries of the
    directory are never read. *)
Theorem getAvailableTemplates_reads_yaml_files_in_order
    (fs : FileSystem) (entries : list string) :
  readdirSync fs (definitionsDir fs) = Ok entries ->
  (forall file, In file entries -> endsWith file ".yaml" = true ->
     exists t, read_definition fs (strcat [definitionsDir fs; "/"; file])
               = Ok t) ->
  Forall2 (fun file t =>
             read_definition fs (strcat [definitionsDir fs; "/"; file]) = Ok t)
          (filter (fun f => endsWith f ".yaml") entries)
          (getAvailableTemplates fs).
Proof.
  intros D H. unfold getAvailableTemplates. rewrite D. cbn [rbind].
  destruct (rmap_Forall2
              (fun f => read_definition fs (strcat [definitionsDir fs; "/"; f]))
              (filter (fun f => endsWith f ".yaml") entries))
    as (ts & -> & F); [|exact F].
  intros file Hin. apply filter_In in Hin. destruct Hin. auto.
Qed.

Lemma getAvailableTemplates_reads_yaml_files_in_order_witness :
  map td_name (getAvailableTemplates Samples.sample_fs)
  = ["journal-app"; "dashboard-app"]
  /\ Forall2 (fun file t =>
                read_definition Samples.sample_fs
                  (strcat [definitionsDir Samples.sample_fs; "/"; file]) = Ok t)
             ["journal-app.yaml"; "dashboard-app.yaml"]
             (getAvailableTemplates Samples.sample_fs).
Proof.
  split; [reflexivity|].
  apply (getAvailableTemplates_reads_yaml_files_in_order
           Samples.sample_fs
           ["journal-app.yaml"; "README.md"; "dashboard-app.yaml"]).
  - reflexivity.
  - intros file [<-|[<-|[<-|[]]]] Y; try discriminate; eexists; reflexivity.
Defined.

(** ** More on the template customizer *)

Lemma assoc_obj_set_same k v o : assoc k (obj_set k v o) = Some v.
Proof.
  induction o as [|[k' v'] o IH]; simpl.
  - rewrite String.eqb_refl. reflexivity.
  - destruct (String.eqb k k') eqn:E; simpl; rewrite E; [reflexivity|exact IH].
Qed.

Lemma assoc_obj_set_other k k' v o :
  k <> k' -> assoc k' (obj_set k v o) = assoc k' o.
Proof.
  intros N. induction o as [|[k0 v0] o IH]; simpl.
  - destruct (String.eqb k' k) eqn:E; [|reflexivity].
    apply String.eqb_eq in E. congruence.
  - destruct (String.eqb k k0) eqn:E; simpl.
    + apply String.eqb_eq in E. subst k0.
      destruct (String.eqb_spec k' k); [congruence|reflexivity].
    + rewrite IH. reflexivity.
Qed.

(** X15.  [applyPackagePatches] is an allow-list on top of the template's
    patch: every property of the patch other than [dependencies] is kept;
    under [dependencies] the key [openai] is pinned to ^4.0.0 when the
    requirements name "openai", the key [@anthropic-ai/sdk] to ^0.17.0
    when they name "anthropic", and every other key is what the spread of
    the template's own [dependencies] gives: its properties when it is an
    object, its elements under their indices when it is an array, its
    characters under their indices when it is a text, taken in ASCII.
    Other API tags add nothing. *)
Theorem applyPackagePatches_lookup
    (templateDef : TemplateDefinition) (userRequirements : UserRequirements)
    (k : string) :
  let before :=
    match td_package_patches templateDef with Some p => p | None => [] end in
  let after := applyPackagePatches templateDef userRequirements in
  (k <> "dependencies" -> assoc k after = assoc k before)
  /\ (ascii_if_text (assoc "dependencies" before) = true ->
      assoc k (spread (assoc "dependencies" after))
      = if String.eqb k "@anthropic-ai/sdk"
           && arr_includes (ur_api_keys_required userRequirements) "anthropic"
        then Some (JStr "^0.17.0")
        else if String.eqb k "openai"
                && arr_includes (ur_api_keys_required userRequirements)
                                "openai"
        then Some (JStr "^4.0.0")
        else assoc k (spread (assoc "dependencies" before))).
Proof.
  cbv zeta. unfold applyPackagePatches.
  set (before := match td_package_patches templateDef with
                 | Some p => p | None => [] end).
  destruct (arr_includes (ur_api_keys_required userRequirements) "openai");
    destruct (arr_includes (ur_api_keys_required userRequirements) "anthropic");
    rewrite ?andb_true_r, ?andb_false_r; split;
    try (intros N; rewrite ?assoc_obj_set_other by congruence; reflexivity);
    intros _;
    rewrite ?assoc_obj_set_same; cbn [spread];
    repeat match goal with
           | |- context [String.eqb k ?s] =>
               destruct (String.eqb_spec k s); subst
           end;
    try discriminate;
    rewrite ?assoc_obj_set_same, ?assoc_obj_set_other by congruence;
    cbn [spread];
    rewrite ?assoc_obj_set_same, ?assoc_obj_set_other by congruence;
    try reflexivity.
Qed.

Lemma applyPackagePatches_lookup_witness :
  assoc "0"
    (spread (assoc "dependencies"
               (applyPackagePatches Samples.array_patch_template
                                    Samples.journal_requirements)))
  = Some (JStr "lodash")
  /\ assoc "openai"
       (spread (assoc "dependencies"
                  (applyPackagePatches Samples.array_patch_template
                                       Samples.journal_requirements)))
     = Some (JStr "^4.0.0")
  /\ ("openai" <> "dependencies" ->
      assoc "openai" (applyPackagePatches Samples.array_patch_template
                                          Samples.journal_requirements)
      = None).
Proof.
  split; [|split].
  - apply (applyPackagePatches_lookup Samples.array_patch_template
             Samples.journal_requirements "0"). reflexivity.
  - apply (applyPackagePatches_lookup Samples.array_patch_template
             Samples.journal_requirements "openai"). reflexivity.
  - apply (applyPackagePatches_lookup Samples.array_patch_template
             Samples.journal_requirements "openai").
Defined.

Section Customizer.

Variable w : World.
Variable fs : FileSystem.
Variable templateName : string.
Variable userRequirements : UserRequirements.
Variable agentId : string.

Lemma generateUICustomization_posted t vars :
  posted (trace (generateUICustomization w t userRequirements vars)) = [].
Proof.
  unfold generateUICustomization, generateUIWithGoogle, call.
  rewrite trace_bind, posted_app. rewrite trace_bind. cbn [trace snd outcome fst].
  destruct (fetchGoogleUI w _ _) as [text|]; [|reflexivity].
  rewrite outcome_bind. cbn [outcome fst].
  destruct (JSON_parse w text) as [v|]; cbn [ret trace snd outcome fst app posted].
  - rewrite trace_bind. unfold lift. cbn [trace snd outcome fst].
    destruct (get_prop v "files"); reflexivity.
  - reflexivity.
Qed.

(** What a run of [customizeTemplate] that returns went through. *)
Lemma customizeTemplate_ok app :
  outcome (customizeTemplate w fs templateName userRequirements agentId)
  = Ok app ->
  exists t ui f,
    loadTemplateDefinition fs templateName = Ok t
    /\ outcome (generateUICustomization w t userRequirements
                  (applyVariableSubstitution w t userRequirements)) = Ok ui
    /\ callLLM w (interpolatePrompt w (td_functionality t)
                    (applyVariableSubstitution w t userRequirements)
                    userRequirements)
               (selectLLMForCustomization userRequirements) = Ok f
    /\ app = generateFinalAppStructure w t
               (mkCustomizations ui f
                  (applyPackagePatches t userRequirements) userRequirements
                  (applyVariableSubstitution w t userRequirements))
    /\ posted (trace (customizeTemplate w fs templateName userRequirements
                        agentId))
       = [analyzing_update; finalizing_update].
Proof.
  unfold customizeTemplate. rewrite outcome_bind, trace_bind.
  unfold lift at 1 2 3. cbn [outcome fst trace snd List.app].
  destruct (loadTemplateDefinition fs templateName) as [t|]; [|discriminate].
  rewrite outcome_bind, trace_bind. unfold post_progress at 1 2 3, call.
  cbn [outcome fst trace snd].
  fold analyzing_update.
  destruct (progress_fetch w analyzing_update) eqn:PA; [|discriminate].
  rewrite outcome_bind, trace_bind.
  destruct (outcome (generateUICustomization w t userRequirements _))
    as [ui|] eqn:U; [|discriminate].
  rewrite outcome_bind, trace_bind.
  unfold generateFunctionalityCustomization, call_llm, call.
  cbn [outcome fst trace snd].
  destruct (callLLM w _ _) as [f|] eqn:L; [|discriminate].
  rewrite outcome_bind, trace_bind. unfold post_progress, call.
  cbn [outcome fst trace snd]. fold finalizing_update.
  destruct (progress_fetch w finalizing_update); cbn; [|discriminate].
  intros [= <-]. exists t, ui, f.
  split; [reflexivity|]. split; [exact U|]. split; [exact L|].
  split; [reflexivity|].
  rewrite ?PA. cbn [posted].
  rewrite !posted_app, generateUICustomization_posted. reflexivity.
Qed.

End Customizer.

(** X16.  A run of [customizeTemplate] that returns has sent exactly two
    progress updates, 10 "analyzing_requirements" then 90
    "finalizing_app", and none with status "completed"; the application
    it returns is named after the template, is marked as customized, and
    holds exactly seven files under fixed names. *)
Theorem customizeTemplate_success_shape
    (w : World) (fs : FileSystem) (templateName : string)
    (userRequirements : UserRequirements) (agentId : string) (app : FinalApp) :
  outcome (customizeTemplate w fs templateName userRequirements agentId)
  = Ok app ->
  posted (trace (customizeTemplate w fs templateName userRequirements agentId))
  = [mkProgress "customizing" (Num 10) "analyzing_requirements" None;
     mkProgress "customizing" (Num 90) "finalizing_app" None]
  /\ map fst (fa_files app)
     = ["package.json"; "src/App.tsx"; "src/main.tsx"; "src/index.css";
        "vite.config.ts"; "tsconfig.json"; "index.html"]
  /\ md_customized (fa_metadata app) = true
  /\ md_user_requirements (fa_metadata app) = userRequirements
  /\ exists t, loadTemplateDefinition fs templateName = Ok t
               /\ fa_name app = td_name t
               /\ md_template (fa_metadata app) = td_name t
               /\ fa_deployment app = td_deployment t.
Proof.
  intros H.
  destruct (customizeTemplate_ok w fs templateName userRequirements agentId
              app H) as (t & ui & f & L & _ & _ & -> & P).
  split; [exact P|]. repeat split. exists t. repeat split. exact L.
Qed.

Lemma customizeTemplate_success_shape_witness :
  exists app,
    outcome (customizeTemplate Samples.quiet_world Samples.sample_fs
               "journal-app" Samples.journal_requirements "a-7") = Ok app
    /\ map fst (fa_files app)
       = ["package.json"; "src/App.tsx"; "src/main.tsx"; "src/index.css";
          "vite.config.ts"; "tsconfig.json"; "index.html"].
Proof.
  eexists. split; [vm_compute; reflexivity|].
  apply (customizeTemplate_success_shape
           Samples.quiet_world Samples.sample_fs "journal-app"
           Samples.journal_requirements "a-7" _ eq_refl).
Defined.

(** X17.  The answer of the functionality LLM never reaches the
    application: two runs of [customizeTemplate] that differ only in what
    [callLLM] answers, and that both return, return the same
    application. *)
Theorem customizeTemplate_ignores_functionality_answer
    (w : World) (fs : FileSystem) (templateName : string)
    (userRequirements : UserRequirements) (agentId : string)
    (answer1 answer2 : string -> LLMChoice -> Result string)
    (app1 app2 : FinalApp) :
  outcome (customizeTemplate (with_llm w answer1) fs templateName
             userRequirements agentId) = Ok app1 ->
  outcome (customizeTemplate (with_llm w answer2) fs templateName
             userRequirements agentId) = Ok app2 ->
  app1 = app2.
Proof.
  intros H1 H2.
  destruct (customizeTemplate_ok _ fs templateName userRequirements agentId
              app1 H1) as (t1 & ui1 & f1 & L1 & U1 & _ & -> & _).
  destruct (customizeTemplate_ok _ fs templateName userRequirements agentId
              app2 H2) as (t2 & ui2 & f2 & L2 & U2 & _ & -> & _).
  rewrite L1 in L2. injection L2 as <-.
  change (outcome (generateUICustomization w t1 userRequirements
                     (applyVariableSubstitution w t1 userRequirements))
          = Ok ui1) in U1.
  change (outcome (generateUICustomization w t1 userRequirements
                     (applyVariableSubstitution w t1 userRequirements))
          = Ok ui2) in U2.
  rewrite U1 in U2. injection U2 as <-. reflexivity.
Qed.

Lemma customizeTemplate_ignores_functionality_answer_witness :
  exists app,
    outcome (customizeTemplate
               (with_llm Samples.quiet_world (fun _ _ => Ok "logic A"))
               Samples.sample_fs "journal-app" Samples.journal_requirements
               "a-7") = Ok app
    /\ outcome (customizeTemplate
                  (with_llm Samples.quiet_world (fun _ _ => Ok "logic B"))
                  Samples.sample_fs "journal-app" Samples.journal_requirements
                  "a-7") = Ok app.
Proof.
  eexists. split; [vm_compute; reflexivity|].
  assert (H2 : exists app2,
             outcome (customizeTemplate
                        (with_llm Samples.quiet_world (fun _ _ => Ok "logic B"))
                        Samples.sample_fs "journal-app"
                        Samples.journal_requirements "a-7") = Ok app2)
    by (eexists; vm_compute; reflexivity).
  destruct H2 as [app2 H2]. rewrite H2. f_equal. symmetry.
  eapply (customizeTemplate_ignores_functionality_answer
            Samples.quiet_world Samples.sample_fs "journal-app"
            Samples.journal_requirements "a-7"
            (fun _ _ => Ok "logic A") (fun _ _ => Ok "logic B"));
    [vm_compute; reflexivity|exact H2].
Defined.

Lemma opt_prop_own_prop f k : opt_prop (Some f) k = own_prop f k.
Proof. destruct f; reflexivity. Qed.

(** X18.  The UI source of a customized template, given the text the UI
    generation answers: a text that is not JSON gives the placeholder
    comment; a JSON value with a file list gives the content of the first
    file when it is truthy, whatever the other files are; the JSON value
    [null] makes the customization throw instead of giving the
    placeholder. *)
Theorem generateUICustomization_first_file_or_placeholder
    (w : World) (templateDef : TemplateDefinition)
    (userRequirements : UserRequirements) (variables : list (string * string))
    (text : string) :
  fetchGoogleUI w "gemini-2.0-pro-exp"
                (interpolatePrompt w (td_ui_generation templateDef) variables
                                   userRequirements) = Ok text ->
  (JSON_parse w text = None ->
   outcome (generateUICustomization w templateDef userRequirements variables)
   = Ok (JStr "/* UI customization failed */"))
  /\ (forall v first rest c,
        JSON_parse w text = Some v ->
        get_prop v "files" = Ok (Some (JArr (first :: rest))) ->
        own_prop first "content" = Some c -> truthy c = true ->
        outcome (generateUICustomization w templateDef userRequirements
                                         variables) = Ok c)
  /\ (JSON_parse w text = Some JNull ->
      exists e,
        outcome (generateUICustomization w templateDef userRequirements
                                         variables) = Throw e).
Proof.
  intros F.
  assert (O : outcome (generateUICustomization w templateDef userRequirements
                                               variables)
              = match rbind (Ok (match JSON_parse w text with
                                 | Some v => v
                                 | None => JObj [("files", JArr [])]
                                 end))
                            (fun v => get_prop v "files") with
                | Ok files =>
                    Ok (or_else (opt_prop (opt_first files) "content")
                                (JStr "/* UI customization failed */"))
                | Throw e => Throw e
                end).
  { unfold generateUICustomization. rewrite outcome_bind.
    rewrite (generateUIWithGoogle_outcome _ _ _ _ F).
    rewrite outcome_bind. unfold lift. cbn [outcome fst rbind].
    destruct (get_prop _ "files"); reflexivity. }
  rewrite O. split; [|split].
  - intros ->. reflexivity.
  - intros v first rest c -> G C T. cbn [rbind]. rewrite G.
    cbn [opt_first]. rewrite opt_prop_own_prop, C. cbn [or_else].
    rewrite T. reflexivity.
  - intros ->. cbn. eauto.
Qed.

Lemma generateUICustomization_first_file_or_placeholder_witness :
  JSON_parse (Samples.with_ui Samples.quiet_world
                (fun _ _ => Ok Samples.text_prose)) Samples.text_prose = None
  /\ outcome (generateUICustomization
                (Samples.with_ui Samples.quiet_world
                   (fun _ _ => Ok Samples.text_prose))
                Samples.journal_template Samples.journal_requirements [])
     = Ok (JStr "/* UI customization failed */").
Proof.
  split; [reflexivity|].
  apply (generateUICustomization_first_file_or_placeholder
           (Samples.with_ui Samples.quiet_world
              (fun _ _ => Ok Samples.text_prose))
           Samples.journal_template Samples.journal_requirements []
           Samples.text_prose); reflexivity.
Defined.

(** X19.  When the LLM's answer is JSON, [generateCustomTemplate] returns
    that value with its metadata after one single call, the one to the
    LLM: no template definition is read (the file system plays no part),
    nothing is sent to the progress store. *)
Theorem generateCustomTemplate_json_answer
    (w : World) (fs : FileSystem) (userRequirements : UserRequirements)
    (agentId : string) (text : string) (v : JSON) :
  callLLM w (custom_template_prompt w userRequirements)
            (pickLLMForJTBD (ur_jtbds userRequirements)) = Ok text ->
  JSON_parse w text = Some v ->
  generateCustomTemplate w fs userRequirements agentId
  = (Ok (Generated v userRequirements (now_iso w)),
     [EvLLM (custom_template_prompt w userRequirements)
            (pickLLMForJTBD (ur_jtbds userRequirements)) (Ok text)]).
Proof.
  intros L P. unfold generateCustomTemplate, call_llm, call. rewrite L.
  erewrite bind_ok by reflexivity. rewrite P. reflexivity.
Qed.

Lemma generateCustomTemplate_json_answer_witness :
  JSON_parse Samples.quiet_world Samples.text_files = Some Samples.value_files
  /\ outcome (generateCustomTemplate Samples.quiet_world Samples.missing_dir_fs
                Samples.journal_requirements "a-7")
     = Ok (Generated Samples.value_files Samples.journal_requirements
                     (now_iso Samples.quiet_world)).
Proof.
  split; [reflexivity|].
  rewrite (generateCustomTemplate_json_answer
             Samples.quiet_world Samples.missing_dir_fs
             Samples.journal_requirements "a-7" Samples.text_files
             Samples.value_files eq_refl eq_refl).
  reflexivity.
Defined.

(** ** The unified LLM caller *)

Lemma strip_trailing_slashes_decompose s :
  exists n,
    s = String.append (LLMGateway.strip_trailing_slashes s) (slashes n).
Proof.
  induction s as [|c s [n IH]].
  - exists 0%nat. reflexivity.
  - cbn [LLMGateway.strip_trailing_slashes].
    destruct (Ascii.eqb c "/"%char
              && String.eqb (LLMGateway.strip_trailing_slashes s) EmptyString)
      eqn:E.
    + apply andb_true_iff in E. destruct E as [Ec Es].
      apply Ascii.eqb_eq in Ec. apply String.eqb_eq in Es.
      rewrite Es in IH. simpl in IH. subst. exists (S n). reflexivity.
    + exists n. simpl. f_equal. exact IH.
Qed.

Lemma strip_trailing_slashes_no_slash s b :
  LLMGateway.strip_trailing_slashes s <> String.append b "/".
Proof.
  revert b. induction s as [|c s IH]; intros b.
  - destruct b; discriminate.
  - cbn [LLMGateway.strip_trailing_slashes].
    destruct (Ascii.eqb c "/"%char
              && String.eqb (LLMGateway.strip_trailing_slashes s) EmptyString)
      eqn:E.
    + destruct b; discriminate.
    + destruct b as [|d b]; simpl.
      * intros [= -> Hs]. rewrite Hs in E. discriminate.
      * intros [= _ Hs]. apply (IH b Hs).
Qed.

Lemma strip_trailing_slashes_idempotent s :
  LLMGateway.strip_trailing_slashes (LLMGateway.strip_trailing_slashes s)
  = LLMGateway.strip_trailing_slashes s.
Proof.
  induction s as [|c s IH]; [reflexivity|].
  cbn [LLMGateway.strip_trailing_slashes].
  destruct (Ascii.eqb c "/"%char
            && String.eqb (LLMGateway.strip_trailing_slashes s) EmptyString)
    eqn:E; [reflexivity|].
  cbn [LLMGateway.strip_trailing_slashes]. rewrite IH, E. reflexivity.
Qed.

(** X20.  [cleanBase] throws on a missing or empty gateway URL; on any
    other URL it returns the URL without its trailing slashes: the URL is
    the result followed by slashes only, the result does not end with a
    slash, and cleaning it again changes nothing.  A URL made of slashes
    only is cleaned to the empty string without any error. *)
Theorem cleanBase_strips_trailing_slashes :
  LLMGateway.cleanBase None
  = Throw (Error "Missing AI_GATEWAY in Worker environment.")
  /\ LLMGateway.cleanBase (Some EmptyString)
     = Throw (Error "Missing AI_GATEWAY in Worker environment.")
  /\ (forall c s,
        exists b n,
          LLMGateway.cleanBase (Some (String c s)) = Ok b
          /\ String c s = String.append b (slashes n)
          /\ (forall b', b <> String.append b' "/")
          /\ LLMGateway.cleanBase (Some b)
             = (if String.eqb b EmptyString
                then Throw (Error "Missing AI_GATEWAY in Worker environment.")
                else Ok b))
  /\ (forall n, LLMGateway.cleanBase (Some (slashes (S n))) = Ok EmptyString).
Proof.
  split; [reflexivity|]. split; [reflexivity|]. split.
  - intros c s.
    destruct (strip_trailing_slashes_decompose (String c s)) as [n D].
    exists (LLMGateway.strip_trailing_slashes (String c s)), n.
    split; [reflexivity|]. split; [exact D|].
    split; [apply strip_trailing_slashes_no_slash|].
    unfold LLMGateway.cleanBase, LLMGateway.present.
    destruct (String.eqb _ EmptyString); [reflexivity|].
    rewrite strip_trailing_slashes_idempotent. reflexivity.
  - intros n. unfold LLMGateway.cleanBase. cbn [LLMGateway.present slashes].
    cbn [String.eqb]. f_equal.
    change (String "/"%char (slashes n)) with (slashes (S n)).
    induction (S n) as [|m IH]; [reflexivity|].
    cbn [slashes LLMGateway.strip_trailing_slashes]. rewrite IH. reflexivity.
Qed.

Lemma cleanBase_strips_trailing_slashes_witness :
  LLMGateway.cleanBase (Some "https://gateway.example/v1/acct/gw//")
  = Ok "https://gateway.example/v1/acct/gw"
  /\ forall b', "https://gateway.example/v1/acct/gw" <> String.append b' "/".
Proof.
  split; [reflexivity|].
  destruct (proj1 (proj2 (proj2 cleanBase_strips_trailing_slashes))
              "h"%char "ttps://gateway.example/v1/acct/gw//")
    as (b & n & E & _ & N & _).
  injection E as <-. exact N.
Defined.

(** X21.  Without a gateway URL [callLLM] throws before it looks at the
    provider and sends no request, also for the providers it reaches
    directly (openrouter, replicate, googleai), whose keys may all be
    set. *)
Theorem callLLM_needs_gateway_for_every_provider
    (w : World) (net : LLMGateway.Network) (env : LLMGateway.EnvReq)
    (prompt : string) (choice : LLMChoice) (system : string) :
  LLMGateway.present (LLMGateway.AI_GATEWAY env) = None ->
  LLMGateway.callLLM w net env prompt choice system
  = (Throw (Error "Missing AI_GATEWAY in Worker environment."), []).
Proof.
  intros H. unfold LLMGateway.callLLM, LLMGateway.cleanBase. rewrite H.
  reflexivity.
Qed.

Lemma callLLM_needs_gateway_for_every_provider_witness :
  LLMGateway.present (LLMGateway.AI_GATEWAY keys_only_env) = None
  /\ LLMGateway.callLLM Samples.quiet_world
       (constant_network (LLMGateway.mkHttpResponse true 200 "{}"))
       keys_only_env "hello" ui_choice LLMGateway.default_system
     = (Throw (Error "Missing AI_GATEWAY in Worker environment."), []).
Proof.
  split; [reflexivity|].
  apply (callLLM_needs_gateway_for_every_provider
           Samples.quiet_world
           (constant_network (LLMGateway.mkHttpResponse true 200 "{}"))
           keys_only_env "hello" ui_choice LLMGateway.default_system eq_refl).
Defined.

(** X22.  With a gateway URL, a provider that is reached directly needs
    its own key: without it [callLLM] throws "Missing ..." and sends no
    request.  The providers behind the gateway need no key. *)
Theorem callLLM_direct_provider_needs_key
    (w : World) (net : LLMGateway.Network) (env : LLMGateway.EnvReq)
    (prompt : string) (choice : LLMChoice) (system : string) (base : string) :
  LLMGateway.cleanBase (LLMGateway.AI_GATEWAY env) = Ok base ->
  (provider choice = openrouter ->
   LLMGateway.present (LLMGateway.OPENROUTER_API_KEY env) = None ->
   LLMGateway.callLLM w net env prompt choice system
   = (Throw (Error "Missing OPENROUTER_API_KEY"), []))
  /\ (provider choice = replicate ->
      LLMGateway.present (LLMGateway.REPLICATE_API_TOKEN env) = None ->
      LLMGateway.callLLM w net env prompt choice system
      = (Throw (Error "Missing REPLICATE_API_TOKEN"), []))
  /\ (provider choice = googleai ->
      LLMGateway.present (LLMGateway.GOOGLE_AI_STUDIO_API_KEY env) = None ->
      LLMGateway.callLLM w net env prompt choice system
      = (Throw (Error "Missing GOOGLE_AI_STUDIO_API_KEY"), []))
  /\ (provider choice = openai \/ provider choice = anthropic
      \/ provider choice = google ->
      List.length (snd (LLMGateway.callLLM w net env prompt choice system))
      = 1%nat).
Proof.
  intros B. unfold LLMGateway.callLLM. rewrite B.
  repeat split.
  - intros -> ->. reflexivity.
  - intros -> ->. reflexivity.
  - intros -> ->. reflexivity.
  - intros [E|[E|E]]; rewrite E;
      unfold LLMGateway.then_answer, LLMGateway.postJSON;
      destruct (LLMGateway.fetch net _) as [res|]; try reflexivity;
      destruct (LLMGateway.res_ok res); try reflexivity;
      destruct (LLMGateway.response_json w res); reflexivity.
Qed.

Lemma callLLM_direct_provider_needs_key_witness :
  LLMGateway.cleanBase (LLMGateway.AI_GATEWAY gateway_env)
  = Ok "https://gateway.example/v1/acct/gw"
  /\ LLMGateway.callLLM Samples.quiet_world
       (constant_network (LLMGateway.mkHttpResponse true 200 "{}"))
       gateway_env "hello" ui_choice LLMGateway.default_system
     = (Throw (Error "Missing GOOGLE_AI_STUDIO_API_KEY"), []).
Proof.
  split; [reflexivity|].
  apply (callLLM_direct_provider_needs_key
           Samples.quiet_world
           (constant_network (LLMGateway.mkHttpResponse true 200 "{}"))
           gateway_env "hello" ui_choice LLMGateway.default_system
           "https://gateway.example/v1/acct/gw" eq_refl); reflexivity.
Defined.

Lemma nullish_or_not_null a s : LLMGateway.nullish_or a (JStr s) <> JNull.
Proof. destruct a as [[]|]; discriminate. Qed.

Lemma then_answer_cases answer (s : LLMGateway.Sent JSON) :
  snd (LLMGateway.then_answer answer s) = snd s
  /\ (forall v, fst (LLMGateway.then_answer answer s) = Ok v ->
        exists data, fst s = Ok data /\ v = answer data).
Proof.
  destruct s as [[data|e] sent]; simpl; split; try reflexivity.
  - intros v [= <-]. eauto.
  - intros v. discriminate.
Qed.

Lemma postJSON_cases w net url headers body :
  List.length (snd (LLMGateway.postJSON w net url headers body)) = 1%nat
  /\ (forall data,
        fst (LLMGateway.postJSON w net url headers body) = Ok data ->
        exists rq res,
          LLMGateway.fetch net rq = Ok res
          /\ LLMGateway.res_ok res = true).
Proof.
  unfold LLMGateway.postJSON.
  destruct (LLMGateway.fetch net _) as [res|] eqn:F; simpl.
  - destruct (LLMGateway.res_ok res) eqn:K; simpl; split; try reflexivity.
    + intros data _. eauto.
    + intros data. discriminate.
  - split; [reflexivity|]. intros data. discriminate.
Qed.

Lemma studio_call_cases w net key model body :
  List.length (snd (LLMGateway.studio_call w net key model body)) = 1%nat
  /\ (forall data,
        fst (LLMGateway.studio_call w net key model body) = Ok data ->
        exists rq res,
          LLMGateway.fetch net rq = Ok res
          /\ LLMGateway.res_ok res = true).
Proof.
  unfold LLMGateway.studio_call.
  destruct (LLMGateway.fetch net _) as [res|] eqn:F; simpl.
  - destruct (LLMGateway.res_ok res) eqn:K; simpl; split; try reflexivity.
    + intros data _. eauto.
    + intros data. discriminate.
  - split; [reflexivity|]. intros data. discriminate.
Qed.

Lemma answered_call_shape (net : LLMGateway.Network) answer
    (s : LLMGateway.Sent JSON) :
  (forall data, answer data <> JNull) ->
  (List.length (snd s) = 1%nat
   /\ (forall data, fst s = Ok data ->
          exists rq res,
            LLMGateway.fetch net rq = Ok res
            /\ LLMGateway.res_ok res = true)) ->
  (List.length (snd (LLMGateway.then_answer answer s)) <= 1)%nat
  /\ (forall v,
        fst (LLMGateway.then_answer answer s) = Ok v ->
        v <> JNull
        /\ List.length (snd (LLMGateway.then_answer answer s)) = 1%nat
        /\ exists rq res,
             LLMGateway.fetch net rq = Ok res
             /\ LLMGateway.res_ok res = true).
Proof.
  intros A [P1 P2].
  destruct (then_answer_cases answer s) as [S1 S2].
  rewrite S1, P1. split; [lia|].
  intros v Hv. destruct (S2 v Hv) as (data & Hd & ->).
  split; [apply A|]. split; [reflexivity|]. exact (P2 data Hd).
Qed.

Lemma answers_not_null :
  (forall d, LLMGateway.chat_answer d <> JNull)
  /\ (forall d, LLMGateway.anthropic_answer d <> JNull)
  /\ (forall d, LLMGateway.gemini_answer d <> JNull).
Proof.
  repeat split; intros d; apply nullish_or_not_null.
Qed.

(** X23.  [callLLM] sends at most one request.  When it returns a value it
    has sent exactly one request, the response to some request was a
    success, and the value is never [null]: an answer that is missing
    from the response comes back as the empty string. *)
Theorem callLLM_one_request_and_no_null
    (w : World) (net : LLMGateway.Network) (env : LLMGateway.EnvReq)
    (prompt : string) (choice : LLMChoice) (system : string) :
  (List.length (snd (LLMGateway.callLLM w net env prompt choice system))
   <= 1)%nat
  /\ (forall v,
        fst (LLMGateway.callLLM w net env prompt choice system) = Ok v ->
        v <> JNull
        /\ List.length
             (snd (LLMGateway.callLLM w net env prompt choice system)) = 1%nat
        /\ exists rq res,
             LLMGateway.fetch net rq = Ok res
             /\ LLMGateway.res_ok res = true).
Proof.
  destruct answers_not_null as (A1 & A2 & A3).
  unfold LLMGateway.callLLM.
  destruct (LLMGateway.cleanBase _) as [base|];
    [|split; [simpl; lia|intros v; discriminate]].
  destruct (provider choice);
    repeat match goal with
           | |- context [LLMGateway.present ?k] =>
               destruct (LLMGateway.present k);
               [|split; [simpl; lia|intros v; discriminate]]
           end;
    apply answered_call_shape; auto using postJSON_cases, studio_call_cases.
Qed.

Lemma callLLM_one_request_and_no_null_witness :
  fst (LLMGateway.callLLM Samples.quiet_world
         (constant_network (LLMGateway.mkHttpResponse true 200
                                                      Samples.text_plan))
         gateway_env "hello" analysis_choice LLMGateway.default_system)
  = Ok (JStr EmptyString)
  /\ JStr EmptyString <> JNull.
Proof.
  split; [reflexivity|].
  apply (proj2 (callLLM_one_request_and_no_null Samples.quiet_world
                  (constant_network (LLMGateway.mkHttpResponse true 200
                                                        Samples.text_plan))
                  gateway_env "hello" analysis_choice
                  LLMGateway.default_system)
               (JStr EmptyString) eq_refl).
Defined.

Lemma callLLM_success_needs_ok_response
    (w : World) (net : LLMGateway.Network) (env : LLMGateway.EnvReq)
    (prompt : string) (choice : LLMChoice) (system : string) (v : JSON) :
  fst (LLMGateway.callLLM w net env prompt choice system) = Ok v ->
  exists rq res,
    LLMGateway.fetch net rq = Ok res /\ LLMGateway.res_ok res = true.
Proof.
  destruct answers_not_null as (A1 & A2 & A3).
  unfold LLMGateway.callLLM.
  destruct (LLMGateway.cleanBase _) as [base|]; [|discriminate].
  destruct (provider choice);
    repeat match goal with
           | |- context [LLMGateway.present ?k] =>
               destruct (LLMGateway.present k); [|discriminate]
           end;
    intros Hv;
    match goal with
    | Hv : fst (LLMGateway.then_answer ?a ?s) = Ok v |- _ =>
        assert (Sh : List.length (snd s) = 1%nat
                     /\ (forall data, fst s = Ok data ->
                            exists rq res,
                              LLMGateway.fetch net rq = Ok res
                              /\ LLMGateway.res_ok res = true))
          by auto using postJSON_cases, studio_call_cases;
        destruct (then_answer_cases a s) as [_ S2];
        destruct (S2 v Hv) as (data & Hd & _);
        exact (proj2 Sh data Hd)
    end.
Qed.

(** X24.  A response that is not a success makes [callLLM] throw, whatever
    the provider: when the network answers every request with a failure
    status, no call returns a value. *)
Theorem callLLM_throws_on_failure_status
    (w : World) (net : LLMGateway.Network) (env : LLMGateway.EnvReq)
    (prompt : string) (choice : LLMChoice) (system : string) :
  (forall rq res, LLMGateway.fetch net rq = Ok res ->
                  LLMGateway.res_ok res = false) ->
  exists e,
    fst (LLMGateway.callLLM w net env prompt choice system) = Throw e.
Proof.
  intros H.
  destruct (fst (LLMGateway.callLLM w net env prompt choice system))
    as [v|e] eqn:E; [|eauto].
  destruct (callLLM_success_needs_ok_response w net env prompt choice system
              v E) as (rq & res & F & K).
  rewrite (H rq res F) in K. discriminate.
Qed.

Lemma callLLM_throws_on_failure_status_witness :
  exists e,
    fst (LLMGateway.callLLM Samples.quiet_world
           (constant_network (LLMGateway.mkHttpResponse false 429 "slow down"))
           gateway_env "hello" analysis_choice LLMGateway.default_system)
    = Throw e.
Proof.
  apply (callLLM_throws_on_failure_status Samples.quiet_world
           (constant_network (LLMGateway.mkHttpResponse false 429 "slow down"))
           gateway_env "hello" analysis_choice LLMGateway.default_system).
  intros rq res [= <-]. reflexivity.
Defined.

(** ** The session object *)

Lemma assoc_map_set {A} (k k0 : string) (v : A) (m : list (string * A)) :
  assoc k (map_set k0 v m)
  = if String.eqb k k0 then Some v else assoc k m.
Proof.
  induction m as [|[k' v'] m IH]; [reflexivity|].
  cbn [map_set].
  destruct (String.eqb_spec k0 k') as [<-|N]; cbn [assoc].
  - destruct (String.eqb k k0); reflexivity.
  - rewrite IH.
    destruct (String.eqb_spec k k') as [->|N']; [|reflexivity].
    destruct (String.eqb_spec k' k0) as [E|_]; [|reflexivity].
    symmetry in E. contradiction.
Qed.

Lemma map_merge_snoc {A} (a b : list (string * A)) (x : string * A) :
  map_merge a (b ++ [x]) = map_set (fst x) (snd x) (map_merge a b).
Proof. unfold map_merge. rewrite fold_left_app. reflexivity. Qed.

Lemma assoc_map_merge {A} (k : string) (a b : list (string * A)) :
  assoc k (map_merge a b) = overridden (assoc k a) (assoc k (map_merge [] b)).
Proof.
  induction b as [|x b IH] using rev_ind; [reflexivity|].
  rewrite !map_merge_snoc, !assoc_map_set, IH.
  destruct (String.eqb k (fst x)); reflexivity.
Qed.

Lemma assoc_In {A} (k : string) (v : A) (l : list (string * A)) :
  assoc k l = Some v -> In (k, v) l.
Proof.
  induction l as [|[k' v'] l IH]; [discriminate|].
  cbn [assoc]. destruct (String.eqb_spec k k') as [->|N].
  - intros [= ->]. left. reflexivity.
  - intros H. right. exact (IH H).
Qed.

Lemma In_assoc {A} (k : string) (v : A) (l : list (string * A)) :
  NoDup (map fst l) -> In (k, v) l -> assoc k l = Some v.
Proof.
  induction l as [|[k' v'] l IH]; [contradiction|].
  cbn [map fst]. intros D H. inversion D as [|? ? Nin D']; subst.
  cbn [assoc]. destruct H as [[= -> ->]|H].
  - rewrite String.eqb_refl. reflexivity.
  - destruct (String.eqb_spec k k') as [->|N]; [|exact (IH D' H)].
    exfalso. apply Nin. apply (in_map fst _ _ H).
Qed.

Lemma assoc_rev {A} (k : string) (l : list (string * A)) :
  NoDup (map fst l) -> assoc k (rev l) = assoc k l.
Proof.
  intros D.
  assert (D' : NoDup (map fst (rev l))) by (rewrite map_rev; apply NoDup_rev, D).
  destruct (assoc k l) as [v|] eqn:E.
  - apply In_assoc; [exact D'|]. apply in_rev. rewrite rev_involutive.
    apply assoc_In, E.
  - destruct (assoc k (rev l)) as [v|] eqn:E'; [|reflexivity].
    apply assoc_In in E'. apply in_rev in E'.
    rewrite (In_assoc _ _ _ D E') in E. discriminate.
Qed.

Lemma assoc_map_merge_nil {A} (k : string) (l : list (string * A)) :
  assoc k (map_merge [] l) = assoc k (rev l).
Proof.
  induction l as [|x l IH] using rev_ind; [reflexivity|].
  rewrite map_merge_snoc, assoc_map_set, rev_app_distr, IH.
  cbn [rev List.app assoc]. destruct x as [k' v']. reflexivity.
Qed.

Lemma assoc_own_fields (k : string) (fields : list (string * JSON)) :
  NoDup (map fst fields) ->
  assoc k (AgentStateDO.own_props (JObj fields)) = assoc k fields.
Proof.
  intros D. unfold AgentStateDO.own_props. cbn [AgentStateDO.spread].
  rewrite assoc_map_merge_nil. apply assoc_rev, D.
Qed.

Lemma map_set_keys {A} (k x : string) (v : A) (m : list (string * A)) :
  In x (map fst (map_set k v m)) -> x = k \/ In x (map fst m).
Proof.
  induction m as [|[k' v'] m IH]; cbn [map_set map fst].
  - intros [<-|[]]. left. reflexivity.
  - destruct (String.eqb k k'); cbn [map fst].
    + intros H. right. exact H.
    + intros [<-|H]; [right; left; reflexivity|].
      destruct (IH H) as [->|H']; [left; reflexivity|right; right; exact H'].
Qed.

Lemma map_set_nodup {A} (k : string) (v : A) (m : list (string * A)) :
  NoDup (map fst m) -> NoDup (map fst (map_set k v m)).
Proof.
  induction m as [|[k' v'] m IH]; cbn [map_set map fst]; intros D.
  - constructor; [intros []|constructor].
  - inversion D as [|? ? Nin D']; subst.
    destruct (String.eqb_spec k k') as [->|N]; cbn [map fst].
    + constructor; assumption.
    + constructor; [|exact (IH D')].
      intros H. destruct (map_set_keys _ _ _ _ H) as [E|H'];
        [apply N; symmetry; exact E|exact (Nin H')].
Qed.

Lemma map_merge_nodup {A} (a b : list (string * A)) :
  NoDup (map fst a) -> NoDup (map fst (map_merge a b)).
Proof.
  intros D. induction b as [|x b IH] using rev_ind; [exact D|].
  rewrite map_merge_snoc. apply map_set_nodup, IH.
Qed.

Lemma own_props_nodup (v : JSON) :
  NoDup (map fst (AgentStateDO.own_props v)).
Proof. apply map_merge_nodup. constructor. Qed.

Lemma assoc_map_merge_none {A} (k : string) (a b : list (string * A)) :
  assoc k (map_merge a b) = None -> assoc k a = None.
Proof.
  rewrite assoc_map_merge.
  destruct (assoc k (map_merge [] b)); [discriminate|]. intros H. exact H.
Qed.

Lemma fetch_put (now : Z) (rq : AgentStateDO.Request)
    (st : AgentStateDO.Storage) :
  AgentStateDO.rq_method rq = "PUT" ->
  AgentStateDO.rq_pathname rq = "/session" ->
  AgentStateDO.fetch now rq st
  = match AgentStateDO.updateSession now
            (match AgentStateDO.rq_json rq with
             | Some p => p
             | None => JObj []
             end) st with
    | (Ok next, st') =>
        (Ok (AgentStateDO.mkDOResponse 200 (AgentStateDO.JsonBody next)), st')
    | (Throw e, st') => (Throw e, st')
    end.
Proof.
  intros Hm Hp. unfold AgentStateDO.fetch. rewrite Hm, Hp. reflexivity.
Qed.

Lemma updateSession_null (now : Z) (st : AgentStateDO.Storage) :
  AgentStateDO.updateSession now JNull st
  = (Throw (TypeError "Cannot read properties of null"), st).
Proof. destruct st as [[]|]; reflexivity. Qed.

Lemma updateSession_next (now : Z) (patch : JSON)
    (st : AgentStateDO.Storage) :
  patch <> JNull ->
  exists base answers,
    AgentStateDO.updateSession now patch st
    = (Ok (JObj (map_set "updatedAt" (AgentStateDO.timestamp now)
                   (map_set "answers" (JObj answers) base))),
       Some (JObj (map_set "updatedAt" (AgentStateDO.timestamp now)
                     (map_set "answers" (JObj answers) base))))
    /\ NoDup (map fst base) /\ NoDup (map fst answers).
Proof.
  intros N. unfold AgentStateDO.updateSession.
  destruct st as [[]|]; destruct patch; try contradiction;
    cbn [get_prop AgentStateDO.default_session];
    (eexists; eexists; split; [reflexivity|]);
    split; apply map_merge_nodup, own_props_nodup.
Qed.

Lemma updated_fields (now : Z) (answers : JSON)
    (base : list (string * JSON)) :
  assoc "updatedAt"
        (map_set "updatedAt" (AgentStateDO.timestamp now)
                 (map_set "answers" answers base))
  = Some (AgentStateDO.timestamp now)
  /\ assoc "answers"
           (map_set "updatedAt" (AgentStateDO.timestamp now)
                    (map_set "answers" answers base))
     = Some answers
  /\ forall k, k <> "answers" -> k <> "updatedAt" ->
       assoc k (map_set "updatedAt" (AgentStateDO.timestamp now)
                        (map_set "answers" answers base))
       = assoc k base.
Proof.
  repeat split.
  - rewrite assoc_map_set. reflexivity.
  - rewrite !assoc_map_set. reflexivity.
  - intros k Na Nu. rewrite !assoc_map_set.
    destruct (String.eqb_spec k "updatedAt"); [contradiction|].
    destruct (String.eqb_spec k "answers"); [contradiction|]. reflexivity.
Qed.

(** X25.  A PUT on /session whose body is the JSON value [null] makes the
    handler throw a TypeError and leaves the storage as it was.  With any
    other body, also one that does not parse, it answers 200 with the
    session it has stored: an object whose [updatedAt] is the time of the
    call, whatever the patch says, and whose [answers] are an object.  A
    GET that follows returns the same response. *)
Theorem put_session_outcome
    (now : Z) (rq : AgentStateDO.Request) (st : AgentStateDO.Storage) :
  AgentStateDO.rq_method rq = "PUT" ->
  AgentStateDO.rq_pathname rq = "/session" ->
  (AgentStateDO.rq_json rq = Some JNull ->
   AgentStateDO.fetch now rq st
   = (Throw (TypeError "Cannot read properties of null"), st))
  /\ (AgentStateDO.rq_json rq <> Some JNull ->
      exists fields answers,
        AgentStateDO.fetch now rq st
        = (Ok (AgentStateDO.mkDOResponse
                 200 (AgentStateDO.JsonBody (JObj fields))),
           Some (JObj fields))
        /\ assoc "updatedAt" fields = Some (AgentStateDO.timestamp now)
        /\ assoc "answers" fields = Some (JObj answers)
        /\ forall later,
             AgentStateDO.fetch later get_request (Some (JObj fields))
             = (Ok (AgentStateDO.mkDOResponse
                      200 (AgentStateDO.JsonBody (JObj fields))),
                Some (JObj fields))).
Proof.
  intros Hm Hp. rewrite (fetch_put now rq st Hm Hp). split.
  - intros ->. rewrite updateSession_null. reflexivity.
  - intros N.
    assert (N' : match AgentStateDO.rq_json rq with
                 | Some p => p
                 | None => JObj []
                 end <> JNull).
    { destruct (AgentStateDO.rq_json rq) as [p|]; [|discriminate].
      intros ->. apply N. reflexivity. }
    destruct (updateSession_next now _ st N') as (base & answers & E & _ & _).
    rewrite E.
    destruct (updated_fields now (JObj answers) base) as (U & A & _).
    eexists; exists answers.
    split; [reflexivity|]. split; [exact U|]. split; [exact A|].
    intros later. reflexivity.
Qed.

Lemma put_session_outcome_witness :
  AgentStateDO.fetch 1700 (put_request (Some JNull)) None
  = (Throw (TypeError "Cannot read properties of null"), None).
Proof.
  apply (put_session_outcome 1700 (put_request (Some JNull)) None
           eq_refl eq_refl).
  reflexivity.
Defined.

Lemma fetch_sound (now : Z) (rq : AgentStateDO.Request)
    (st : AgentStateDO.Storage) :
  sound_storage st -> sound_storage (snd (AgentStateDO.fetch now rq st)).
Proof.
  intros S. unfold AgentStateDO.fetch.
  destruct (_ && _); [exact S|].
  destruct (_ && _); [|destruct (_ && _); [exact I|exact S]].
  destruct (AgentStateDO.rq_json rq) as [[]|];
    try (rewrite updateSession_null; exact S);
    match goal with
    | |- context [AgentStateDO.updateSession now ?p st] =>
        let N := fresh "N" in
        assert (N : p <> JNull) by discriminate;
        destruct (updateSession_next now p st N) as (base & a & E & Db & Da);
        rewrite E
    end;
    (split; [apply map_set_nodup, map_set_nodup, Db|]);
    exists a; (split; [apply (updated_fields now (JObj a) base)|exact Da]).
Qed.

Lemma after_requests_sound (requests : list (Z * AgentStateDO.Request))
    (st : AgentStateDO.Storage) :
  sound_storage st -> sound_storage (AgentStateDO.after_requests st requests).
Proof.
  revert st. induction requests as [|r requests IH]; intros st S; [exact S|].
  apply IH, fetch_sound, S.
Qed.

Lemma sound_storage_cases (st : AgentStateDO.Storage) :
  sound_storage st ->
  st = None
  \/ exists fields answers,
       st = Some (JObj fields)
       /\ NoDup (map fst fields)
       /\ assoc "answers" fields = Some (JObj answers)
       /\ NoDup (map fst answers).
Proof.
  destruct st as [[]|]; cbn [sound_storage]; try contradiction;
    [|left; reflexivity].
  intros (D & a & A & Da). right. eauto 6.
Qed.

(** X26.  In a storage reached from the empty one by any requests, a PUT
    whose body is an object with distinct keys stores that object over the
    current session: a key of the patch other than [answers] and
    [updatedAt] takes the patch's value, every other such key keeps the
    value it had, or the default when nothing was stored.  Keys the
    interface does not declare are stored too. *)
Theorem put_session_merges_patch
    (requests : list (Z * AgentStateDO.Request)) (now : Z)
    (rq : AgentStateDO.Request) (patch : list (string * JSON)) :
  AgentStateDO.rq_method rq = "PUT" ->
  AgentStateDO.rq_pathname rq = "/session" ->
  AgentStateDO.rq_json rq = Some (JObj patch) ->
  NoDup (map fst patch) ->
  exists fields,
    snd (AgentStateDO.fetch now rq
           (AgentStateDO.after_requests None requests))
    = Some (JObj fields)
    /\ NoDup (map fst fields)
    /\ forall k, k <> "answers" -> k <> "updatedAt" ->
         assoc k fields
         = overridden
             (opt_prop
                (Some (match AgentStateDO.after_requests None requests with
                       | Some current => current
                       | None => AgentStateDO.default_session now
                       end)) k)
             (assoc k patch).
Proof.
  intros Hm Hp Hj D.
  pose proof (after_requests_sound requests None I) as S.
  rewrite (fetch_put now rq _ Hm Hp), Hj.
  destruct (sound_storage_cases _ S) as [E|(cur & a & E & Dc & A & Da)];
    rewrite E; unfold AgentStateDO.updateSession;
    cbn [get_prop snd].
  - eexists. split; [reflexivity|].
    split; [apply map_set_nodup, map_set_nodup, map_merge_nodup,
                  own_props_nodup|].
    intros k Na Nu.
    rewrite (proj2 (proj2 (updated_fields now _ _)) k Na Nu).
    rewrite assoc_map_merge. unfold AgentStateDO.default_session.
    rewrite assoc_own_fields.
    + cbn [AgentStateDO.spread opt_prop].
      rewrite assoc_map_merge_nil, (assoc_rev k patch D). reflexivity.
    + repeat constructor; cbn; intuition discriminate.
  - eexists. split; [reflexivity|].
    split; [apply map_set_nodup, map_set_nodup, map_merge_nodup,
                  own_props_nodup|].
    intros k Na Nu.
    rewrite (proj2 (proj2 (updated_fields now _ _)) k Na Nu).
    rewrite assoc_map_merge, (assoc_own_fields k cur Dc).
    cbn [AgentStateDO.spread opt_prop].
    rewrite assoc_map_merge_nil, (assoc_rev k patch D). reflexivity.
Qed.

Lemma put_session_merges_patch_witness :
  exists fields,
    snd (AgentStateDO.fetch 1700 (put_request (Some (JObj sample_patch)))
           (AgentStateDO.after_requests None
              [(1600%Z, put_request None); (1650%Z, delete_request);
               (1660%Z,
                put_request (Some (JObj [("userId", JStr "user-3");
                                         ("draft", JBool true)])))]))
    = Some (JObj fields)
    /\ assoc "agentId" fields = Some (JStr "agent-7")
    /\ assoc "userId" fields = Some (JStr "user-3")
    /\ assoc "draft" fields = Some (JBool true).
Proof.
  destruct (put_session_merges_patch
              [(1600%Z, put_request None); (1650%Z, delete_request);
               (1660%Z,
                put_request (Some (JObj [("userId", JStr "user-3");
                                         ("draft", JBool true)])))]
              1700 (put_request (Some (JObj sample_patch))) sample_patch
              eq_refl eq_refl eq_refl)
    as (fields & E & _ & L).
  { repeat constructor; cbn; intuition discriminate. }
  exists fields. split; [exact E|].
  split; [|split].
  - rewrite (L "agentId"); [reflexivity|discriminate|discriminate].
  - rewrite (L "userId"); [reflexivity|discriminate|discriminate].
  - rewrite (L "draft"); [reflexivity|discriminate|discriminate].
Defined.

Lemma assoc_none_keys {A} (k : string) (l : list (string * A)) :
  assoc k l = None <-> ~ In k (map fst l).
Proof.
  induction l as [|[k' v'] l IH]; cbn [assoc map fst].
  - split; [intros _ []|reflexivity].
  - destruct (String.eqb_spec k k') as [->|N].
    + split; [discriminate|]. intros H. exfalso. apply H. left. reflexivity.
    + rewrite IH. split.
      * intros H [E|H']; [apply N; symmetry; exact E|exact (H H')].
      * intros H H'. apply H. right. exact H'.
Qed.

Lemma assoc_rev_none {A} (k : string) (l : list (string * A)) :
  assoc k (rev l) = None -> assoc k l = None.
Proof.
  rewrite !assoc_none_keys, map_rev. intros H H'. apply H, in_rev.
  rewrite rev_involutive. exact H'.
Qed.

(** X27.  A PUT that succeeds never removes an answer: every key of the
    stored answers is still a key of the answers afterwards, whatever the
    patch holds.  When the patch has no [answers] at all, or the body does
    not parse, every answer also keeps its value. *)
Theorem put_session_keeps_answers
    (now : Z) (rq : AgentStateDO.Request)
    (current answers : list (string * JSON)) :
  AgentStateDO.rq_method rq = "PUT" ->
  AgentStateDO.rq_pathname rq = "/session" ->
  AgentStateDO.rq_json rq <> Some JNull ->
  assoc "answers" current = Some (JObj answers) ->
  exists fields answers',
    snd (AgentStateDO.fetch now rq (Some (JObj current)))
    = Some (JObj fields)
    /\ assoc "answers" fields = Some (JObj answers')
    /\ (forall k, assoc k answers <> None -> assoc k answers' <> None)
    /\ (NoDup (map fst answers) ->
        opt_prop (AgentStateDO.rq_json rq) "answers" = None ->
        forall k, assoc k answers' = assoc k answers).
Proof.
  intros Hm Hp N A. rewrite (fetch_put now rq _ Hm Hp).
  unfold AgentStateDO.updateSession. cbn [get_prop]. rewrite A.
  cbn [or_else truthy].
  assert (G : forall pa,
            exists fields answers',
              Some (JObj
                      (map_set "updatedAt" (AgentStateDO.timestamp now)
                         (map_set "answers"
                            (JObj (map_merge
                                     (AgentStateDO.own_props (JObj answers))
                                     (AgentStateDO.spread
                                        (or_else pa (JObj [])))))
                            (map_merge
                               (AgentStateDO.own_props (JObj current))
                               (AgentStateDO.spread
                                  (match AgentStateDO.rq_json rq with
                                   | Some p => p
                                   | None => JObj []
                                   end))))))
              = Some (JObj fields)
              /\ assoc "answers" fields = Some (JObj answers')
              /\ (forall k, assoc k answers <> None ->
                            assoc k answers' <> None)
              /\ (NoDup (map fst answers) -> pa = None ->
                  forall k, assoc k answers' = assoc k answers)).
  { intros pa. eexists; eexists. split; [reflexivity|].
    split; [apply updated_fields|]. split.
    - intros k H H'. apply H. apply assoc_map_merge_none in H'.
      unfold AgentStateDO.own_props in H'. cbn [AgentStateDO.spread] in H'.
      rewrite assoc_map_merge_nil in H'. apply assoc_rev_none, H'.
    - intros D -> k. cbn [or_else AgentStateDO.spread].
      change (map_merge (AgentStateDO.own_props (JObj answers)) [])
        with (AgentStateDO.own_props (JObj answers)).
      apply assoc_own_fields, D. }
  destruct (AgentStateDO.rq_json rq) as [[]|] eqn:J;
    try (exfalso; apply N; reflexivity);
    cbn [get_prop opt_prop snd];
    match goal with
    | |- context [or_else ?pa (JObj [])] =>
        destruct (G pa) as (f & a' & E & R)
    end;
    exists f, a'; (split; [exact E|]);
    repeat split; try apply R;
    try (intros D P; apply (proj2 (proj2 R) D); exact P);
    try (intros D _; apply (proj2 (proj2 R) D); reflexivity).
Qed.

Lemma put_session_keeps_answers_witness :
  exists fields answers',
    snd (AgentStateDO.fetch 1700
           (put_request (Some (JObj [("answers",
                                      JObj [("tone", JStr "warm")])])))
           (Some (JObj sample_patch)))
    = Some (JObj fields)
    /\ assoc "answers" fields = Some (JObj answers')
    /\ assoc "goal" answers' <> None.
Proof.
  destruct (put_session_keeps_answers 1700
              (put_request (Some (JObj [("answers",
                                         JObj [("tone", JStr "warm")])])))
              sample_patch [("goal", JStr "journal")]
              eq_refl eq_refl)
    as (fields & answers' & E & A & K & _);
    [discriminate|reflexivity|].
  exists fields, answers'. split; [exact E|]. split; [exact A|].
  apply K. discriminate.
Defined.

(** X28.  A DELETE on /session answers 200 with [{ ok: true }] and empties
    the storage whatever it held: the next GET returns [null], and the
    next PUT with an empty patch, or with a body that does not parse,
    starts again from the defaults, stamped with the time of that PUT. *)
Theorem delete_session_resets
    (now : Z) (rq : AgentStateDO.Request) (st : AgentStateDO.Storage) :
  AgentStateDO.rq_method rq = "DELETE" ->
  AgentStateDO.rq_pathname rq = "/session" ->
  fst (AgentStateDO.fetch now rq st)
  = Ok (AgentStateDO.mkDOResponse
          200 (AgentStateDO.JsonBody (JObj [("ok", JBool true)])))
  /\ (forall later,
        fst (AgentStateDO.fetch later get_request
               (snd (AgentStateDO.fetch now rq st)))
        = Ok (AgentStateDO.mkDOResponse 200 (AgentStateDO.JsonBody JNull)))
  /\ (forall later body,
        body = None \/ body = Some (JObj []) ->
        AgentStateDO.fetch later (put_request body)
          (snd (AgentStateDO.fetch now rq st))
        = (Ok (AgentStateDO.mkDOResponse
                 200
                 (AgentStateDO.JsonBody (AgentStateDO.default_session later))),
           Some (AgentStateDO.default_session later))).
Proof.
  intros Hm Hp. unfold AgentStateDO.fetch at 1 3 5. rewrite Hm, Hp.
  cbn [String.eqb Ascii.eqb Bool.eqb andb fst snd AgentStateDO.clearSession].
  split; [reflexivity|]. split; [reflexivity|].
  intros later body [->| ->]; reflexivity.
Qed.

Lemma delete_session_resets_witness :
  fst (AgentStateDO.fetch 1800 get_request
         (snd (AgentStateDO.fetch 1700 delete_request
                 (Some (JObj sample_patch)))))
  = Ok (AgentStateDO.mkDOResponse 200 (AgentStateDO.JsonBody JNull)).
Proof.
  apply (delete_session_resets 1700 delete_request (Some (JObj sample_patch))
           eq_refl eq_refl).
Defined.

(** X29.  Any request that is not a GET, PUT or DELETE on exactly the path
    /session is answered 404 "Not found" and leaves the storage as it
    was. *)
Theorem unknown_route_not_found
    (now : Z) (rq : AgentStateDO.Request) (st : AgentStateDO.Storage) :
  AgentStateDO.rq_pathname rq <> "/session"
  \/ (AgentStateDO.rq_method rq <> "GET"
      /\ AgentStateDO.rq_method rq <> "PUT"
      /\ AgentStateDO.rq_method rq <> "DELETE") ->
  AgentStateDO.fetch now rq st
  = (Ok (AgentStateDO.mkDOResponse 404 (AgentStateDO.TextBody "Not found")),
     st).
Proof.
  intros H. unfold AgentStateDO.fetch.
  destruct (String.eqb_spec (AgentStateDO.rq_pathname rq) "/session") as [P|P];
    destruct (String.eqb_spec (AgentStateDO.rq_method rq) "GET") as [G|G];
    destruct (String.eqb_spec (AgentStateDO.rq_method rq) "PUT") as [U|U];
    destruct (String.eqb_spec (AgentStateDO.rq_method rq) "DELETE") as [X|X];
    cbn [andb]; try reflexivity; exfalso; intuition congruence.
Qed.

Lemma unknown_route_not_found_witness :
  AgentStateDO.fetch 1700
    (AgentStateDO.mkDORequest "POST" "/session" (Some (JObj sample_patch)))
    None
  = (Ok (AgentStateDO.mkDOResponse 404 (AgentStateDO.TextBody "Not found")),
     None).
Proof.
  apply (unknown_route_not_found 1700
           (AgentStateDO.mkDORequest "POST" "/session"
                                     (Some (JObj sample_patch)))
           None).
  right. repeat split; discriminate.
Defined.

(** ** The sandbox service *)

Lemma map_set_length {A} (k : string) (v : A) (m : list (string * A)) :
  (List.length (map_set k v m) <= S (List.length m))%nat.
Proof.
  induction m as [|[k' v'] m IH]; cbn [map_set]; [cbn; lia|].
  destruct (String.eqb k k'); cbn [List.length]; lia.
Qed.

Lemma map_delete_length {A} (k : string) (m : list (string * A)) :
  (List.length (map_delete k m) <= List.length m)%nat.
Proof.
  induction m as [|[k' v'] m IH]; cbn [map_delete]; [lia|].
  destruct (String.eqb k k'); cbn [List.length]; lia.
Qed.

Lemma map_delete_keys {A} (id k : string) (m : list (string * A)) :
  In k (map fst (map_delete id m)) -> In k (map fst m).
Proof.
  induction m as [|[k' v'] m IH]; cbn [map_delete map fst]; [intros []|].
  destruct (String.eqb id k'); cbn [map fst].
  - intros H. right. exact (IH H).
  - intros [E|H]; [left; exact E|right; exact (IH H)].
Qed.

Lemma map_delete_absent {A} (k : string) (m : list (string * A)) :
  (forall k', In k' (map fst m) -> String.eqb k k' = false) ->
  map_delete k m = m.
Proof.
  induction m as [|[k' v'] m IH]; intros H; [reflexivity|].
  cbn [map_delete]. rewrite (H k' (or_introl eq_refl)).
  f_equal. apply IH. intros k'' H'. apply H. right. exact H'.
Qed.

Lemma limit_number (c : Sandbox.SandboxConfig) :
  exists q, Sandbox.limit c = Num q.
Proof.
  unfold Sandbox.limit. destruct (Sandbox.maxInstances c) as [[|q]|].
  - exists 10%Q. reflexivity.
  - cbn [truthy]. destruct (negb (Qeq_bool q 0)); eauto.
  - exists 10%Q. reflexivity.
Qed.

Lemma preview_id_prefix (agent stamp : string) :
  String.prefix "preview-" (strcat ["preview-"; agent; "-"; stamp]) = true.
Proof.
  unfold strcat. cbn [String.concat String.append].
  repeat (cbn [String.prefix];
          match goal with
          | |- context [ascii_dec ?a ?b] =>
              destruct (ascii_dec a b); [|congruence]
          end).
  destruct (String.append agent _); reflexivity.
Qed.

Lemma other_id_prefix (c : ascii) (word : string) (rest : list string) :
  Ascii.eqb c "p" = false ->
  String.prefix "preview-" (strcat (String c word :: rest)) = false.
Proof.
  intros N. unfold strcat.
  assert (E : exists tail,
             String.concat EmptyString (String c word :: rest)
             = String c tail).
  { destruct rest; cbn [String.concat String.append]; eauto. }
  destruct E as [tail ->]. cbn [String.prefix].
  destruct (ascii_dec "p" c) as [<-|_]; [discriminate|reflexivity].
Qed.

Lemma service_eta (s : Sandbox.Service) :
  Sandbox.mkService (Sandbox.config s) (Sandbox.activeContainers s) = s.
Proof. destruct s; reflexivity. Qed.

Lemma after_call_invariant (c : Sandbox.SandboxConfig) (q : Q)
    (s : Sandbox.Service) (call : Sandbox.Call) :
  Sandbox.limit c = Num q ->
  Sandbox.config s = c
  /\ (forall k, In k (map fst (Sandbox.activeContainers s)) ->
                String.prefix "preview-" k = true)
  /\ (Sandbox.getActiveContainerCount s = 0%nat
      \/ (inject_Z (Z.of_nat (Sandbox.getActiveContainerCount s)) < q + 1)%Q) ->
  Sandbox.config (Sandbox.after_call s call) = c
  /\ (forall k,
        In k (map fst (Sandbox.activeContainers (Sandbox.after_call s call))) ->
        String.prefix "preview-" k = true)
  /\ (Sandbox.getActiveContainerCount (Sandbox.after_call s call) = 0%nat
      \/ (inject_Z (Z.of_nat (Sandbox.getActiveContainerCount
                                (Sandbox.after_call s call))) < q + 1)%Q).
Proof.
  intros L (C & P & B).
  assert (Del : forall id,
             Sandbox.getActiveContainerCount
               (Sandbox.mkService (Sandbox.config s)
                  (map_delete id (Sandbox.activeContainers s))) = 0%nat
             \/ (inject_Z (Z.of_nat
                   (Sandbox.getActiveContainerCount
                      (Sandbox.mkService (Sandbox.config s)
                         (map_delete id (Sandbox.activeContainers s)))))
                 < q + 1)%Q).
  { intros id. unfold Sandbox.getActiveContainerCount in *.
    cbn [Sandbox.activeContainers].
    pose proof (map_delete_length id (Sandbox.activeContainers s)) as Le.
    destruct B as [Z0|Lt]; [left; lia|]. right.
    apply Qle_lt_trans with (2 := Lt). rewrite <- Zle_Qle. lia. }
  assert (DelP : forall id k,
             In k (map fst (map_delete id (Sandbox.activeContainers s))) ->
             String.prefix "preview-" k = true).
  { intros id k H. apply P. exact (map_delete_keys _ _ _ H). }
  destruct call as [files now|code language now|files now|id|];
    cbn [Sandbox.after_call Sandbox.executeCode Sandbox.deployToWorkers
         Sandbox.cleanup Sandbox.cleanupAll snd];
    try (split; [exact C|]; split; [apply DelP|apply Del]).
  - unfold Sandbox.createPreview. rewrite C, L.
    unfold Sandbox.getActiveContainerCount in *.
    destruct (num_ge _ _) eqn:G; cbn [snd]; [auto|].
    cbn [Sandbox.config Sandbox.activeContainers].
    split; [reflexivity|]. split.
    + intros k H. apply map_set_keys in H. destruct H as [->|H];
        [apply preview_id_prefix|exact (P k H)].
    + right.
      pose proof (map_set_length
                    (strcat ["preview-"; Sandbox.agentId c; "-";
                             show_nat now])
                    (Sandbox.mkContainer
                       (strcat ["preview-"; Sandbox.agentId c; "-";
                                show_nat now])
                       match Sandbox.instanceType c with
                       | Some t =>
                           if String.eqb t EmptyString then "standard-3"
                           else t
                       | None => "standard-3"
                       end)
                    (Sandbox.activeContainers s)) as Le.
      unfold num_ge, of_nat in G.
      assert (Lt : (inject_Z (Z.of_nat (List.length
                                          (Sandbox.activeContainers s))) < q)%Q).
      { apply Qnot_le_lt. intros H. apply Qle_bool_iff in H.
        rewrite H in G. discriminate. }
      apply Qle_lt_trans
        with (inject_Z (Z.of_nat (List.length (Sandbox.activeContainers s)))
              + 1)%Q.
      * change 1%Q with (inject_Z 1). rewrite <- inject_Z_plus, <- Zle_Qle.
        lia.
      * lra.
  - split; [exact C|]. split; [intros k []|left; reflexivity].
Qed.

Lemma after_calls_invariant (c : Sandbox.SandboxConfig) (q : Q)
    (calls : list Sandbox.Call) (s : Sandbox.Service) :
  Sandbox.limit c = Num q ->
  Sandbox.config s = c
  /\ (forall k, In k (map fst (Sandbox.activeContainers s)) ->
                String.prefix "preview-" k = true)
  /\ (Sandbox.getActiveContainerCount s = 0%nat
      \/ (inject_Z (Z.of_nat (Sandbox.getActiveContainerCount s)) < q + 1)%Q) ->
  Sandbox.config (Sandbox.after_calls s calls) = c
  /\ (forall k,
        In k (map fst (Sandbox.activeContainers
                         (Sandbox.after_calls s calls))) ->
        String.prefix "preview-" k = true)
  /\ (Sandbox.getActiveContainerCount (Sandbox.after_calls s calls) = 0%nat
      \/ (inject_Z (Z.of_nat (Sandbox.getActiveContainerCount
                                (Sandbox.after_calls s calls))) < q + 1)%Q).
Proof.
  intros L. revert s.
  induction calls as [|call calls IH]; intros s H; [exact H|].
  apply (IH (Sandbox.after_call s call)).
  apply (after_call_invariant c q s call L H).
Qed.

Lemma delete_other_prefix (id : string) (m : list (string * Sandbox.ContainerInstance)) :
  String.prefix "preview-" id = false ->
  (forall k, In k (map fst m) -> String.prefix "preview-" k = true) ->
  map_delete id m = m.
Proof.
  intros N P. apply map_delete_absent. intros k H.
  destruct (String.eqb_spec id k) as [->|]; [|reflexivity].
  rewrite (P k H) in N. discriminate.
Qed.

(** X30.  In a service made by [createSandboxService] the number of
    active containers stays within the limit through any sequence of
    calls: it is zero or below limit + 1, so at most the limit when that
    is a whole number.  Every active container is a preview container,
    so [executeCode] and [deployToWorkers], which delete an "exec-" or
    "build-" identifier, never change the service; and at the limit
    [createPreview] fails and changes nothing. *)
Theorem sandbox_stays_within_limit
    (c : Sandbox.SandboxConfig) (calls : list Sandbox.Call) :
  (forall q, Sandbox.limit c = Num q ->
     Sandbox.getActiveContainerCount
       (Sandbox.after_calls (Sandbox.createSandboxService c) calls) = 0%nat
     \/ (inject_Z (Z.of_nat
           (Sandbox.getActiveContainerCount
              (Sandbox.after_calls (Sandbox.createSandboxService c) calls)))
         < q + 1)%Q)
  /\ (forall n, Sandbox.limit c = of_nat n ->
        (Sandbox.getActiveContainerCount
           (Sandbox.after_calls (Sandbox.createSandboxService c) calls)
         <= n)%nat)
  /\ (forall code language now,
        snd (Sandbox.executeCode
               (Sandbox.after_calls (Sandbox.createSandboxService c) calls)
               code language now)
        = Sandbox.after_calls (Sandbox.createSandboxService c) calls)
  /\ (forall files now,
        snd (Sandbox.deployToWorkers
               (Sandbox.after_calls (Sandbox.createSandboxService c) calls)
               files now)
        = Sandbox.after_calls (Sandbox.createSandboxService c) calls)
  /\ (forall files now,
        num_ge (of_nat (Sandbox.getActiveContainerCount
                          (Sandbox.after_calls (Sandbox.createSandboxService c)
                                               calls)))
               (Sandbox.limit c) = true ->
        Sandbox.createPreview
          (Sandbox.after_calls (Sandbox.createSandboxService c) calls)
          files now
        = (Sandbox.mkPreview false None None
             (Some "Maximum sandbox instances reached"),
           Sandbox.after_calls (Sandbox.createSandboxService c) calls)).
Proof.
  destruct (limit_number c) as [q L].
  assert (Init : Sandbox.config (Sandbox.createSandboxService c) = c
                 /\ (forall k,
                       In k (map fst (Sandbox.activeContainers
                                        (Sandbox.createSandboxService c))) ->
                       String.prefix "preview-" k = true)
                 /\ (Sandbox.getActiveContainerCount
                       (Sandbox.createSandboxService c) = 0%nat
                     \/ (inject_Z (Z.of_nat
                           (Sandbox.getActiveContainerCount
                              (Sandbox.createSandboxService c))) < q + 1)%Q)).
  { split; [reflexivity|]. split; [intros k []|left; reflexivity]. }
  destruct (after_calls_invariant c q calls _ L Init) as (C & P & B).
  set (s := Sandbox.after_calls (Sandbox.createSandboxService c) calls) in *.
  split; [|split; [|split; [|split]]].
  - intros q' L'. rewrite L in L'. injection L' as <-. exact B.
  - intros n L'. rewrite L in L'. unfold of_nat in L'. injection L' as ->.
    destruct B as [Z0|Lt]; [lia|].
    change 1%Q with (inject_Z 1) in Lt.
    rewrite <- inject_Z_plus, <- Zlt_Qlt in Lt. lia.
  - intros code language now. unfold Sandbox.executeCode. cbn [snd].
    rewrite (delete_other_prefix _ _ (other_id_prefix "e" "xec-" _ eq_refl) P).
    apply service_eta.
  - intros files now. unfold Sandbox.deployToWorkers. cbn [snd].
    rewrite (delete_other_prefix _ _ (other_id_prefix "b" "uild-" _ eq_refl) P).
    apply service_eta.
  - intros files now G. unfold Sandbox.createPreview.
    unfold Sandbox.getActiveContainerCount in G. rewrite C, G. reflexivity.
Qed.

Lemma sandbox_stays_within_limit_witness :
  Sandbox.limit small_sandbox = of_nat 2
  /\ (Sandbox.getActiveContainerCount
        (Sandbox.after_calls (Sandbox.createSandboxService small_sandbox)
           [Sandbox.CallPreview [] 1; Sandbox.CallPreview [] 2;
            Sandbox.CallPreview [] 3]) <= 2)%nat.
Proof.
  split; [reflexivity|].
  apply (proj1 (proj2 (sandbox_stays_within_limit small_sandbox
                         [Sandbox.CallPreview [] 1; Sandbox.CallPreview [] 2;
                          Sandbox.CallPreview [] 3])) 2%nat).
  reflexivity.
Defined.
